(** * swift-car: booking workflow

    A shallow embedding of the request handlers and of the wizard's price
    computation of the car-rental storefront:

    - [src/unnamed/part_000]               the booking wizard ([calculateBookingDetails]);
    - [src/app/api/booking/create/route.ts] the booking creation handler ([POST]);
    - [src/app/api/paystack/webhook/route.ts] the payment webhook handler ([POST]).

    The hosted database is modelled as a record of tables (lists of rows) on
    which the client-library calls of the handlers are interpreted; what the
    platform decides (clock, random numbers, statements that the database
    rejects) is an explicit input of each handler. *)

From Stdlib Require Import ZArith String Ascii List Bool Lia.
Import ListNotations.
Local Open Scope string_scope.
Local Open Scope Z_scope.

(* ===================================================================== *)
(** ** JavaScript values and built-ins used by the sources *)
(* ===================================================================== *)

Module Js.

(** String helpers with the semantics of the [String.prototype] methods the
    sources call.  Only ASCII text reaches them. *)

Fixpoint take (n : nat) (s : string) : string :=
  match n, s with
  | S n', String c r => String c (take n' r)
  | _, _ => EmptyString
  end.

Fixpoint drop (n : nat) (s : string) : string :=
  match n, s with
  | S n', String _ r => drop n' r
  | _, _ => s
  end.

(** [s.slice(0, n)] *)
Definition slice0 (n : nat) (s : string) : string := take n s.

(** [s.substr(start, len)] for non-negative arguments *)
Definition substr (start len : nat) (s : string) : string :=
  take len (drop start s).

(** [s.replace(/-/g, '')] *)
Fixpoint remove_dashes (s : string) : string :=
  match s with
  | EmptyString => EmptyString
  | String c r =>
      if Ascii.eqb c "-"%char then remove_dashes r
      else String c (remove_dashes r)
  end.

Definition upper_char (c : ascii) : ascii :=
  let n := nat_of_ascii c in
  if (Nat.leb 97 n && Nat.leb n 122)%bool then ascii_of_nat (n - 32) else c.

(** [s.toUpperCase()] *)
Fixpoint toUpperCase (s : string) : string :=
  match s with
  | EmptyString => EmptyString
  | String c r => String (upper_char c) (toUpperCase r)
  end.

Fixpoint forall_chars (p : ascii -> bool) (s : string) : bool :=
  match s with
  | EmptyString => true
  | String c r => p c && forall_chars p r
  end.

Definition is_digit (c : ascii) : bool :=
  let n := nat_of_ascii c in (Nat.leb 48 n && Nat.leb n 57)%bool.

Definition is_upper (c : ascii) : bool :=
  let n := nat_of_ascii c in (Nat.leb 65 n && Nat.leb n 90)%bool.

(** a character of an upper-case base-36 numeral: [0-9A-Z] *)
Definition is_upper_base36 (c : ascii) : bool := is_digit c || is_upper c.

(** Decimal rendering of non-negative integers, most significant digit
    first, left-padded with zeros to [width] digits: the [padStart] of the
    date formatter. *)
Definition digit_char (d : Z) : ascii := ascii_of_nat (48 + Z.to_nat d).

Fixpoint pad_digits (width : nat) (n : Z) (acc : string) : string :=
  match width with
  | O => acc
  | S w => pad_digits w (n / 10) (String (digit_char (n mod 10)) acc)
  end.

Definition pad (width : nat) (n : Z) : string := pad_digits width n "".

(** Decimal rendering of an integer without padding: what a template
    literal makes of an integral Number below 1e21. *)
Fixpoint nat_digits (fuel : nat) (n : Z) (acc : string) : string :=
  match fuel with
  | O => acc
  | S f =>
      let acc' := String (digit_char (n mod 10)) acc in
      if n / 10 =? 0 then acc' else nat_digits f (n / 10) acc'
  end.

Definition Number_toString (n : Z) : string :=
  if n <? 0 then String "-"%char (nat_digits (S (Z.to_nat (Z.log2 (- n)))) (- n) "")
  else nat_digits (S (Z.to_nat (Z.log2 n))) n "".

(** *** Dates

    A [Date] is its time value: milliseconds since 1970-01-01T00:00:00Z.
    The civil-calendar conversions are the proleptic Gregorian ones the
    language standard prescribes for [Date]. *)

Definition msPerDay : Z := 1000 * 60 * 60 * 24.

Definition is_leap (y : Z) : bool :=
  ((y mod 4 =? 0) && negb (y mod 100 =? 0)) || (y mod 400 =? 0).

Definition days_in_month (y m : Z) : Z :=
  if m =? 2 then (if is_leap y then 29 else 28)
  else if (m =? 4) || (m =? 6) || (m =? 9) || (m =? 11) then 30
  else 31.

(** day number (days since the epoch) of the civil date y-m-d *)
Definition days_from_civil (y m d : Z) : Z :=
  let y' := if m <=? 2 then y - 1 else y in
  let era := y' / 400 in
  let yoe := y' - era * 400 in
  let mp := if m >? 2 then m - 3 else m + 9 in
  let doy := (153 * mp + 2) / 5 + d - 1 in
  let doe := yoe * 365 + yoe / 4 - yoe / 100 + doy in
  era * 146097 + doe - 719468.

(** civil date (year, month, day) of a day number *)
Definition civil_from_days (z : Z) : Z * Z * Z :=
  let z' := z + 719468 in
  let era := z' / 146097 in
  let doe := z' - era * 146097 in
  let yoe := (doe - doe / 1460 + doe / 36524 - doe / 146096) / 365 in
  let y := yoe + era * 400 in
  let doy := doe - (365 * yoe + yoe / 4 - yoe / 100) in
  let mp := (5 * doy + 2) / 153 in
  let d := doy - (153 * mp + 2) / 5 + 1 in
  let m := if mp <? 10 then mp + 3 else mp - 9 in
  ((if m <=? 2 then y + 1 else y), m, d).

Definition digit_val (c : ascii) : option Z :=
  if is_digit c then Some (Z.of_nat (nat_of_ascii c) - 48) else None.

Fixpoint parse_digits (s : string) (acc : Z) : option Z :=
  match s with
  | EmptyString => Some acc
  | String c r =>
      match digit_val c with
      | Some d => parse_digits r (10 * acc + d)
      | None => None
      end
  end.

(** [new Date(s).getTime()] on the ISO date-only texts: [s] is
    [YYYY-MM-DD] with a year of four digits and a day that exists, read as
    midnight UTC.  On every other text this reading answers [None], the time
    value NaN; a browser reads some of them as well (a year of five or six
    digits, a day number up to 31 in a shorter month), so that a statement
    made with this reading carries [Date_parse s = Some t] as a hypothesis,
    and the wizard as a whole is stated for whatever the browser reads
    ([WizardFlow]). *)
Definition Date_parse (s : string) : option Z :=
  if negb (Nat.eqb (String.length s) 10) then None
  else if negb (String.eqb (substr 4 1 s) "-" && String.eqb (substr 7 1 s) "-")
  then None
  else
    match parse_digits (substr 0 4 s) 0,
          parse_digits (substr 5 2 s) 0,
          parse_digits (substr 8 2 s) 0 with
    | Some y, Some m, Some d =>
        if (1 <=? m) && (m <=? 12) && (1 <=? d) && (d <=? days_in_month y m)
        then Some (days_from_civil y m d * msPerDay)
        else None
    | _, _, _ => None
    end.

(** [new Date(t).toISOString()] *)
Definition toISOString (t : Z) : string :=
  let day := t / msPerDay in
  let ms := t mod msPerDay in
  let '(y, m, d) := civil_from_days day in
  let year :=
    if (0 <=? y) && (y <=? 9999) then pad 4 y
    else if y <? 0 then String "-"%char (pad 6 (- y))
    else String "+"%char (pad 6 y) in
  year ++ "-" ++ pad 2 m ++ "-" ++ pad 2 d ++ "T"
    ++ pad 2 (ms / 3600000) ++ ":" ++ pad 2 ((ms / 60000) mod 60) ++ ":"
    ++ pad 2 ((ms / 1000) mod 60) ++ "." ++ pad 3 (ms mod 1000) ++ "Z".

(** *** Random numbers

    [Math.random()] yields a Number in [0, 1); [toString(36)] renders it
    as ["0"] when it is zero and otherwise as ["0."] followed by the
    digits of its base-36 expansion, as many as the platform needs to
    identify the Number.  A random draw is modelled by those fractional
    digits, each below 36: [[]] for the Number 0, [[18]] for 0.5
    (rendered ["0.i"]), [[9]] for 0.25 and so on. *)
Definition RandomDraw := list nat.

Definition base36_char (d : nat) : ascii :=
  let d := Nat.modulo d 36 in
  if Nat.ltb d 10 then ascii_of_nat (48 + d) else ascii_of_nat (87 + d).

Fixpoint base36_digits (ds : list nat) : string :=
  match ds with
  | [] => EmptyString
  | d :: r => String (base36_char d) (base36_digits r)
  end.

(** [r.toString(36)] for a draw [r] of [Math.random()] *)
Definition toString36 (r : RandomDraw) : string :=
  match r with
  | [] => "0"
  | _ => "0." ++ base36_digits r
  end.

(** *** JSON values

    What [JSON.parse] returns and what the handlers hand to [NextResponse.json]
    and to the JSON columns of the database.  [JUndefined] is the value of a
    property that is absent.  Numbers are kept at their integral values. *)
#[local] Set Warnings "-register-all".
Inductive JsVal : Type :=
| JUndefined
| JNull
| JBool (b : bool)
| JNum (n : Z)
| JStr (s : string)
| JArr (items : list JsVal)
| JObj (props : list (string * JsVal)).

(** ToBoolean *)
Definition truthy (v : JsVal) : bool :=
  match v with
  | JUndefined | JNull => false
  | JBool b => b
  | JNum n => negb (n =? 0)
  | JStr s => negb (String.eqb s "")
  | JArr _ | JObj _ => true
  end.

(** the value of key [k] in an object; an object holds each key once *)
Fixpoint lookup (k : string) (props : list (string * JsVal)) : JsVal :=
  match props with
  | [] => JUndefined
  | (k', v) :: r => if String.eqb k k' then v else lookup k r
  end.

(** [v.k]: reading a property of [undefined] or [null] throws a TypeError
    ([None]); a primitive or an array has none of the data properties the
    handlers read. *)
Definition get (v : JsVal) (k : string) : option JsVal :=
  match v with
  | JUndefined | JNull => None
  | JObj props => Some (lookup k props)
  | _ => Some JUndefined
  end.

(** [v?.k] *)
Definition get_opt (v : JsVal) (k : string) : JsVal :=
  match get v k with
  | Some x => x
  | None => JUndefined
  end.

(** [v === 'lit'] *)
Definition is_string (v : JsVal) (lit : string) : bool :=
  match v with
  | JStr s => String.eqb s lit
  | _ => false
  end.

(** [String(v)], the text a value takes inside a template literal: the
    client library writes a filter as [`eq.${value}`]. *)
Fixpoint String_ (v : JsVal) : string :=
  match v with
  | JUndefined => "undefined"
  | JNull => "null"
  | JBool true => "true"
  | JBool false => "false"
  | JNum n => Number_toString n
  | JStr s => s
  | JArr items =>
      (fix join (l : list JsVal) : string :=
         match l with
         | [] => ""
         | x :: r =>
             let elt := match x with
                        | JUndefined | JNull => ""
                        | _ => String_ x
                        end in
             match r with
             | [] => elt
             | _ => elt ++ "," ++ join r
             end
         end) items
  | JObj _ => "[object Object]"
  end.

(** an object literal as it is serialised: a property whose value is
    [undefined] is left out *)
Definition object (props : list (string * JsVal)) : JsVal :=
  JObj (filter (fun kv => match snd kv with JUndefined => false | _ => true end) props).

End Js.

(* ===================================================================== *)
(** ** The booking wizard: src/unnamed/part_000 *)
(* ===================================================================== *)

Module Wizard.

(** the fields of [Car] that the price computation and the examples use;
    [daily_rate] is a whole amount *)
Record Car := {
  car_id : string;
  name : string;
  daily_rate : Z
}.

(** the fields of [BookingData] that [calculateBookingDetails] reads *)
Record BookingData := {
  car : option Car;
  pickupDate : string;
  returnDate : string
}.

Record BookingDetails := {
  days : Z;
  dailyRate : Z;
  totalAmount : Z
}.

(** [Math.ceil(a / b)] for integral [a] and positive [b].  The time values
    of two date inputs are whole days apart, so that the quotient is a whole
    number and the division exact. *)
Definition ceil_div (a b : Z) : Z := - ((- a) / b).

(** [Math.ceil(Math.abs(r.getTime() - p.getTime()) / (1000*60*60*24)) || 1]:
    an invalid date makes the difference NaN, and NaN and 0 both fall
    through [||] to 1. *)
Definition diffDays (pickup returnDate : option Z) : Z :=
  match pickup, returnDate with
  | Some p, Some r =>
      let diffTime := Z.abs (r - p) in
      let n := ceil_div diffTime (1000 * 60 * 60 * 24) in
      if n =? 0 then 1 else n
  | _, _ => 1
  end.

Definition calculateBookingDetails (b : BookingData) : option BookingDetails :=
  if (String.eqb (pickupDate b) "") || (String.eqb (returnDate b) "") then None
  else
    match car b with
    | None => None
    | Some c =>
        let pickup := Js.Date_parse (pickupDate b) in
        let returnDate := Js.Date_parse (returnDate b) in
        let diffDays := diffDays pickup returnDate in
        let dailyRate := daily_rate c in
        let totalAmount := diffDays * dailyRate in
        Some {| days := diffDays; dailyRate := dailyRate; totalAmount := totalAmount |}
    end.

(** [canProceedToStep2]: both dates chosen and return after pickup *)
Definition canProceedToStep2 (b : BookingData) : bool :=
  negb (String.eqb (pickupDate b) "") && negb (String.eqb (returnDate b) "") &&
  match Js.Date_parse (returnDate b), Js.Date_parse (pickupDate b) with
  | Some r, Some p => r >? p
  | _, _ => false
  end.

End Wizard.

(* ===================================================================== *)
(** ** The hosted database, as the handlers use it *)
(* ===================================================================== *)

Module Db.

(** the [error] object of a rejected statement *)
Record DbError := { code : string; message : option string }.

(** the [{ data, error }] pair every statement resolves to *)
Record Reply (A : Type) := { data : option A; error : option DbError }.
Arguments data {A} _.
Arguments error {A} _.

Definition ok {A} (a : A) : Reply A := {| data := Some a; error := None |}.
Definition empty {A} : Reply A := {| data := None; error := None |}.
Definition rejected {A} (e : DbError) : Reply A := {| data := None; error := Some e |}.

Module User.
Record t := {
  id : Z;
  whatsapp_id : string;
  phone : string;
  name : string;
  email : option string
}.
End User.

Module Car.
Record t := {
  id : Z;
  car_id : string;
  name : string;
  daily_rate : Z;
  status : string
}.
End Car.

Module Booking.
Record t := {
  id : Z;
  order_id : string;
  user_id : Z;
  car_id : Z;
  pickup_date : string;
  return_date : string;
  pickup_location : string;
  days : option Z;
  daily_rate : option Z;
  total_amount : option Z;
  deposit_amount : option Z;
  balance_amount : Z;
  status : string;
  payment_status : string;
  payment_reference : string
}.
End Booking.

Module Payment.
Record t := {
  order_id : string;
  payment_reference : string;
  amount : option Z;
  currency : string;
  status : string;
  provider : string;
  provider_reference : string;
  paid_at : option string;
  metadata : Js.JsVal
}.
End Payment.

Module Session.
Record t := {
  whatsapp_id : string;
  session_state : string;
  session_data : Js.JsVal;
  last_message_at : string
}.
End Session.

Record DB := {
  users : list User.t;
  cars : list Car.t;
  bookings : list Booking.t;
  payments : list Payment.t;
  sessions : list Session.t
}.

Definition set_users (us : list User.t) (db : DB) : DB :=
  {| users := us; cars := cars db; bookings := bookings db;
     payments := payments db; sessions := sessions db |}.

Definition set_bookings (bs : list Booking.t) (db : DB) : DB :=
  {| users := users db; cars := cars db; bookings := bs;
     payments := payments db; sessions := sessions db |}.

Definition set_payments (ps : list Payment.t) (db : DB) : DB :=
  {| users := users db; cars := cars db; bookings := bookings db;
     payments := ps; sessions := sessions db |}.

Definition set_sessions (ss : list Session.t) (db : DB) : DB :=
  {| users := users db; cars := cars db; bookings := bookings db;
     payments := payments db; sessions := ss |}.

Definition no_rows : DbError :=
  {| code := "PGRST116";
     message := Some "JSON object requested, multiple (or no) rows returned" |}.

(** [.maybeSingle()]: the row when exactly one matches, [null] without an
    error when none does, an error when several do. *)
Definition maybeSingle {A} (rows : list A) : Reply A :=
  match rows with
  | [] => empty
  | [r] => ok r
  | _ => rejected no_rows
  end.

(** [.single()]: the row when exactly one matches, an error otherwise. *)
Definition single {A} (rows : list A) : Reply A :=
  match rows with
  | [r] => ok r
  | _ => rejected no_rows
  end.

(** [.update(patch).eq(...)]: every matching row is patched. *)
Definition update {A} (p : A -> bool) (f : A -> A) (rows : list A) : list A :=
  map (fun r => if p r then f r else r) rows.

(** the key the database gives a new row: the next of a serial column *)
Definition fresh_id {A} (id : A -> Z) (rows : list A) : Z :=
  1 + fold_right Z.max 0 (map id rows).

End Db.

(* ===================================================================== *)
(** ** Responses and the handler monad *)
(* ===================================================================== *)

Module Http.

Record Response := { status : Z; body : Js.JsVal }.

(** [NextResponse.json(body, { status })]; the status defaults to 200 *)
Definition json (b : Js.JsVal) (st : Z) : Response := {| status := st; body := b |}.

Definition error_body (msg : string) : Js.JsVal := Js.JObj [("error", Js.JStr msg)].

(** What a request leaves behind: the tables, and the statements it sent
    to the database, in order ([S] names the statements of a handler). *)
Record World (S : Type) := { db : Db.DB; issued : list S }.
Arguments db {S} _.
Arguments issued {S} _.

Definition untouched {S} (d : Db.DB) : World S := {| db := d; issued := [] |}.

(** A handler step sends statements and either yields a value or ends the
    request with a response ([return NextResponse.json ...]). *)
Definition M (S A : Type) : Type := World S -> (A + Response) * World S.

Definition ret {S A} (a : A) : M S A := fun w => (inl a, w).

Definition bind {S A B} (c : M S A) (k : A -> M S B) : M S B :=
  fun w =>
    match c w with
    | (inl a, w') => k a w'
    | (inr r, w') => (inr r, w')
    end.

Definition respond {S A} (r : Response) : M S A := fun w => (inr r, w).

(** a statement [st] that the database rejects with [Some e] or runs as [f] *)
Definition send {S A} (st : S) (rejection : option Db.DbError)
    (rejected : Db.DbError -> A) (f : Db.DB -> A * Db.DB) : M S A :=
  fun w =>
    let sent := (issued w ++ [st])%list in
    match rejection with
    | Some e => (inl (rejected e), {| db := db w; issued := sent |})
    | None => let '(a, d) := f (db w) in (inl a, {| db := d; issued := sent |})
    end.

(** the response of a request, whether the handler fell through to its
    last [return] or left early *)
Definition finish {S} (x : (Response + Response) * World S) : Response * World S :=
  match x with
  | (inl r, w) => (r, w)
  | (inr r, w) => (r, w)
  end.

Definition run {S} (c : M S Response) (d : Db.DB) : Response * World S :=
  finish (c (untouched d)).

End Http.

Declare Scope handler_scope.
Delimit Scope handler_scope with handler.
Notation "x <- c ;; k" := (Http.bind c (fun x => k))
  (at level 61, c at next level, right associativity) : handler_scope.
Notation "c ;;; k" := (Http.bind c (fun _ => k))
  (at level 61, right associativity) : handler_scope.

(* ===================================================================== *)
(** ** Booking creation handler: src/app/api/booking/create/route.ts *)
(* ===================================================================== *)

Module Create.
Import Http.
Local Open Scope handler_scope.

(** The JSON body of the request, with the fields of the wizard's payload:
    texts, and numbers for the three amounts.  A field that the client left
    out, or sent as [null], is [None].  A text field holds a string or
    nothing: the other falsy values of JSON (0, false), which the check of
    line 22 turns away as well, have no counterpart here, and no statement
    says that a 400 comes from an absent or empty field only. *)
Record Body := {
  car_id : option string;
  pickup_date : option string;
  return_date : option string;
  full_name : option string;
  phone_number : option string;
  email : option string;
  pickup_location : option string;
  days : option Z;
  daily_rate : option Z;
  total_amount : option Z;
  sessionId : option string
}.

(** the database statements of the handler, in source order *)
Inductive Stmt :=
| SelectUserByWhatsapp   (* lines 36-40 *)
| UpdateUserContact      (* lines 46-53 *)
| SelectUserByPhone      (* lines 57-61 *)
| UpdateUserWhatsapp     (* lines 66-73 *)
| InsertUser             (* lines 76-85 *)
| SelectUserAgain        (* lines 91-95 *)
| SelectCar              (* lines 123-127 *)
| InsertBooking          (* lines 143-162 *)
| InsertPayment          (* lines 173-185 *)
| UpdateSession.         (* lines 194-206 *)

Scheme Equality for Stmt.

(** What the platform decides during one request: which statements the
    database rejects (and with which error), the clock at each reading,
    and the two random draws. *)
Record Env := {
  failure : Stmt -> option Db.DbError;
  now_order : Z;          (* [new Date()], line 137 *)
  now_reference : Z;      (* [Date.now()], line 140 *)
  now_paid : Z;           (* [new Date()], line 181 *)
  now_session : Z;        (* [new Date()], line 204 *)
  random_order : Js.RandomDraw;      (* [Math.random()], line 137 *)
  random_reference : Js.RandomDraw   (* [Math.random()], line 140 *)
}.

(** ToBoolean of a string-valued field *)
Definition present (o : option string) : bool :=
  match o with
  | Some s => negb (String.eqb s "")
  | None => false
  end.

(** [a || b] *)
Definition or_else (a b : option string) : option string :=
  if present a then a else b.

(** [a || undefined] and [a || null] *)
Definition or_none (a : option string) : option string := or_else a None.

(** the text sent for a value in a filter or a column *)
Definition text (o : option string) : string :=
  match o with
  | Some s => s
  | None => "undefined"
  end.

(** a column left out of an update patch keeps its value *)
Definition patched {A} (new : option A) (old : A) : A :=
  match new with
  | Some v => v
  | None => old
  end.

(** [s.includes(sub)] *)
Fixpoint includes (sub s : string) : bool :=
  String.prefix sub s ||
  match s with
  | EmptyString => false
  | String _ r => includes sub r
  end.

(** what a read resolves to: the platform's error, or its evaluation on
    the tables *)
Definition outcome {A} (env : Env) (st : Stmt) (q : Db.DB -> Db.Reply A) (db : Db.DB)
  : Db.Reply A :=
  match failure env st with
  | Some e => Db.rejected e
  | None => q db
  end.

Definition query {A} (env : Env) (st : Stmt) (q : Db.DB -> Db.Reply A)
  : M Stmt (Db.Reply A) :=
  send st (failure env st) Db.rejected (fun d => (q d, d)).

(** [.from('users').select('id').eq('whatsapp_id', whatsappId).maybeSingle()] *)
Definition select_user_by_whatsapp (whatsappId : string) (db : Db.DB) : Db.Reply Db.User.t :=
  Db.maybeSingle (filter (fun u => String.eqb (Db.User.whatsapp_id u) whatsappId) (Db.users db)).

(** [.from('users').select('id').eq('phone', phone_number).maybeSingle()] *)
Definition select_user_by_phone (phone_number : string) (db : Db.DB) : Db.Reply Db.User.t :=
  Db.maybeSingle (filter (fun u => String.eqb (Db.User.phone u) phone_number) (Db.users db)).

(** [.from('cars').select('id').eq('car_id', car_id).single()] *)
Definition select_car (car_id : string) (db : Db.DB) : Db.Reply Db.Car.t :=
  Db.single (filter (fun c => String.eqb (Db.Car.car_id c) car_id) (Db.cars db)).

(** a write whose rows are not read back: it resolves to its error *)
Definition exec (env : Env) (st : Stmt) (f : Db.DB -> Db.DB)
  : M Stmt (option Db.DbError) :=
  send st (failure env st) Some (fun d => (None, f d)).

(** an insert followed by [.select().single()] *)
Definition insert {A} (env : Env) (st : Stmt) (f : Db.DB -> A * Db.DB)
  : M Stmt (Db.Reply A) :=
  send st (failure env st) Db.rejected (fun d => let '(row, d') := f d in (Db.ok row, d')).

Definition missing_fields : Response :=
  json (error_body "Missing required fields") 400.

Definition create_user_failed (e : Db.DbError) : Response :=
  json (error_body ("Failed to create user: " ++ text (Db.message e))) 500.

Definition car_not_found : Response := json (error_body "Car not found") 404.

Definition booking_failed : Response :=
  json (error_body "Failed to create booking") 500.

Definition internal_error : Response :=
  json (error_body "Internal server error") 500.

Definition success (booking_id : Z) (orderId paymentReference : string) : Response :=
  json (Js.JObj [("success", Js.JBool true);
                 ("booking_id", Js.JNum booking_id);
                 ("order_id", Js.JStr orderId);
                 ("payment_reference", Js.JStr paymentReference)]) 200.

(** line 137 *)
Definition make_orderId (env : Env) : string :=
  "ORD-" ++ Js.remove_dashes (Js.slice0 10 (Js.toISOString (now_order env)))
    ++ "-" ++ Js.toUpperCase (Js.substr 2 6 (Js.toString36 (random_order env))).

(** line 140 *)
Definition make_paymentReference (env : Env) : string :=
  "PAY-" ++ Js.Number_toString (now_reference env)
    ++ "-" ++ Js.toUpperCase (Js.substr 2 9 (Js.toString36 (random_reference env))).

(** lines 145-160: the row of the booking insert; [id] is the key the
    database gives it *)
Definition booking_row (b : Body) (orderId paymentReference : string)
    (userId : Z) (carData : Db.Car.t) (id : Z) : Db.Booking.t :=
  {| Db.Booking.id := id;
     Db.Booking.order_id := orderId;
     Db.Booking.user_id := userId;
     Db.Booking.car_id := Db.Car.id carData;
     Db.Booking.pickup_date := text (pickup_date b);
     Db.Booking.return_date := text (return_date b);
     Db.Booking.pickup_location := text (pickup_location b);
     Db.Booking.days := days b;
     Db.Booking.daily_rate := daily_rate b;
     Db.Booking.total_amount := total_amount b;
     Db.Booking.deposit_amount := total_amount b;
     Db.Booking.balance_amount := 0;
     Db.Booking.status := "paid";
     Db.Booking.payment_status := "paid";
     Db.Booking.payment_reference := paymentReference |}.

(** lines 174-184: the row of the payment insert *)
Definition payment_row (env : Env) (b : Body) (orderId paymentReference : string)
  : Db.Payment.t :=
  {| Db.Payment.order_id := orderId;
     Db.Payment.payment_reference := paymentReference;
     Db.Payment.amount := total_amount b;
     Db.Payment.currency := "GHS";
     Db.Payment.status := "success";
     Db.Payment.provider := "manual";
     Db.Payment.provider_reference := paymentReference;
     Db.Payment.paid_at := Some (Js.toISOString (now_paid env));
     Db.Payment.metadata :=
       Js.JObj [("sessionId",
                 match or_none (sessionId b) with
                 | Some s => Js.JStr s
                 | None => Js.JNull
                 end)] |}.

(** the check of line 22 lets the request through *)
Definition validated (b : Body) : bool :=
  present (car_id b) && present (pickup_date b) && present (return_date b)
  && present (full_name b) && present (phone_number b) && present (pickup_location b).

(** lines 29-120: find or create the user, yielding [userId] *)
Definition resolve_user (env : Env) (b : Body) : M Stmt Z :=
  let whatsappId := text (or_else (sessionId b) (phone_number b)) in
  existingUserByWhatsapp <-
    query env SelectUserByWhatsapp (select_user_by_whatsapp whatsappId) ;;
  match Db.data existingUserByWhatsapp with
  | Some u =>
      let userId := Db.User.id u in
      (if present (full_name b) || present (email b) || present (phone_number b)
       then
         exec env UpdateUserContact (fun db =>
           Db.set_users
             (Db.update (fun r => Db.User.id r =? userId)
                (fun r =>
                   {| Db.User.id := Db.User.id r;
                      Db.User.whatsapp_id := Db.User.whatsapp_id r;
                      Db.User.phone := patched (or_none (phone_number b)) (Db.User.phone r);
                      Db.User.name := patched (or_none (full_name b)) (Db.User.name r);
                      Db.User.email :=
                        patched (option_map Some (or_none (email b))) (Db.User.email r) |})
                (Db.users db)) db)
       else ret None) ;;;
      ret userId
  | None =>
      existingUserByPhone <-
        query env SelectUserByPhone (select_user_by_phone (text (phone_number b))) ;;
      match Db.data existingUserByPhone with
      | Some u =>
          let userId := Db.User.id u in
          exec env UpdateUserWhatsapp (fun db =>
            Db.set_users
              (Db.update (fun r => Db.User.id r =? userId)
                 (fun r =>
                    {| Db.User.id := Db.User.id r;
                       Db.User.whatsapp_id := whatsappId;
                       Db.User.phone := Db.User.phone r;
                       Db.User.name := patched (or_none (full_name b)) (Db.User.name r);
                       Db.User.email :=
                         patched (option_map Some (or_none (email b))) (Db.User.email r) |})
                 (Db.users db)) db) ;;;
          ret userId
      | None =>
          created <-
            insert env InsertUser (fun db =>
              let row :=
                {| Db.User.id := Db.fresh_id Db.User.id (Db.users db);
                   Db.User.whatsapp_id := whatsappId;
                   Db.User.phone := text (phone_number b);
                   Db.User.name := text (full_name b);
                   Db.User.email := or_none (email b) |} in
              (row, Db.set_users (Db.users db ++ [row]) db)) ;;
          match Db.error created with
          | Some userError =>
              if String.eqb (Db.code userError) "23505"
                 || match Db.message userError with
                    | Some m => includes "duplicate" m
                    | None => false
                    end
              then
                existingUser <-
                  query env SelectUserAgain (select_user_by_whatsapp whatsappId) ;;
                match Db.data existingUser with
                | Some u => ret (Db.User.id u)
                | None => respond (create_user_failed userError)
                end
              else respond (create_user_failed userError)
          | None =>
              match Db.data created with
              | None =>
                  respond (json (error_body "Failed to create user: No user data returned") 500)
              | Some newUser => ret (Db.User.id newUser)
              end
          end
      end
  end.

(** lines 122-214, after the user is known *)
Definition book (env : Env) (b : Body) (userId : Z) : M Stmt Response :=
  carReply <-
    query env SelectCar (select_car (text (car_id b))) ;;
  match Db.data carReply with
  | None => respond car_not_found
  | Some carData =>
      let orderId := make_orderId env in
      let paymentReference := make_paymentReference env in
      inserted <-
        insert env InsertBooking (fun db =>
          let row :=
            booking_row b orderId paymentReference userId carData
              (Db.fresh_id Db.Booking.id (Db.bookings db)) in
          (row, Db.set_bookings (Db.bookings db ++ [row]) db)) ;;
      match Db.error inserted, Db.data inserted with
      | None, Some booking =>
          (* the error of the payment insert is only logged *)
          exec env InsertPayment (fun db =>
            Db.set_payments
              (Db.payments db ++ [payment_row env b orderId paymentReference]) db) ;;;
          (if present (sessionId b)
           then
             exec env UpdateSession (fun db =>
               Db.set_sessions
                 (Db.update
                    (fun s => String.eqb (Db.Session.whatsapp_id s) (text (sessionId b)))
                    (fun s =>
                       {| Db.Session.whatsapp_id := Db.Session.whatsapp_id s;
                          Db.Session.session_state := "BOOKED";
                          Db.Session.session_data :=
                            Js.JObj [("booking_completed", Js.JBool true);
                                     ("payment_reference", Js.JStr paymentReference);
                                     ("order_id", Js.JStr orderId);
                                     ("booking_id", Js.JNum (Db.Booking.id booking))];
                          Db.Session.last_message_at := Js.toISOString (now_session env) |})
                    (Db.sessions db)) db)
           else ret None) ;;;
          ret (success (Db.Booking.id booking) orderId paymentReference)
      | _, _ => respond booking_failed
      end
  end.

(** [POST].  [None] is a request whose body is not JSON, or is the JSON
    [null]: [request.json()] or the destructuring of line 7 throws, and the
    exception is caught at line 215. *)
Definition POST (env : Env) (request : option Body) (db : Db.DB)
  : Response * World Stmt :=
  match request with
  | None => (internal_error, untouched db)
  | Some b =>
      if negb (present (car_id b)) || negb (present (pickup_date b))
         || negb (present (return_date b)) || negb (present (full_name b))
         || negb (present (phone_number b)) || negb (present (pickup_location b))
      then (missing_fields, untouched db)
      else run (userId <- resolve_user env b ;; book env b userId) db
  end.

End Create.

(* ===================================================================== *)
(** ** Payment webhook handler: src/app/api/paystack/webhook/route.ts *)
(* ===================================================================== *)

Module Webhook.
Import Http.
Local Open Scope handler_scope.

(** the raw body and the [x-paystack-signature] header ([None] when the
    header is not sent) *)
Record Request := {
  raw_body : string;
  signature : option string
}.

Inductive Stmt :=
| SelectPayment    (* lines 42-46 *)
| UpdatePayment    (* lines 56-62 *)
| UpdateBooking    (* lines 69-75 *)
| UpdateSession.   (* lines 83-93 *)

Scheme Equality for Stmt.

Record Env := {
  failure : Stmt -> option Db.DbError;
  now_paid : Z;        (* [new Date()], line 60 *)
  now_session : Z      (* [new Date()], line 91 *)
}.

Definition outcome {A} (env : Env) (st : Stmt) (q : Db.DB -> Db.Reply A) (db : Db.DB)
  : Db.Reply A :=
  match failure env st with
  | Some e => Db.rejected e
  | None => q db
  end.

Definition query {A} (env : Env) (st : Stmt) (q : Db.DB -> Db.Reply A)
  : M Stmt (Db.Reply A) :=
  send st (failure env st) Db.rejected (fun d => (q d, d)).

(** [.from('payments').select('order_id').eq('payment_reference', reference).single()] *)
Definition select_payment (reference : Js.JsVal) (db : Db.DB) : Db.Reply Db.Payment.t :=
  Db.single
    (filter (fun p => String.eqb (Db.Payment.payment_reference p) (Js.String_ reference))
       (Db.payments db)).

Definition exec (env : Env) (st : Stmt) (f : Db.DB -> Db.DB)
  : M Stmt (option Db.DbError) :=
  send st (failure env st) Some (fun d => (None, f d)).

Definition no_signature : Response := json (error_body "No signature provided") 400.
Definition invalid_signature : Response := json (error_body "Invalid signature") 401.
Definition internal_error : Response := json (error_body "Internal server error") 500.
Definition received : Response := json (Js.JObj [("received", Js.JBool true)]) 200.

(** an expression that throws ends the request in the [catch] of line 104 *)
Definition try {A} (o : option A) : M Stmt A :=
  match o with
  | Some a => ret a
  | None => respond internal_error
  end.

(** [fields.find((field) => field.variable_name === 'sessionId')]: the
    callback throws on an entry that is [null]. *)
Fixpoint find_sessionId_field (fields : list Js.JsVal) : option Js.JsVal :=
  match fields with
  | [] => Some Js.JUndefined
  | field :: rest =>
      match Js.get field "variable_name" with
      | None => None
      | Some n =>
          if Js.is_string n "sessionId" then Some field
          else find_sessionId_field rest
      end
  end.

(** line 39:
    [metadata?.sessionId ||
     metadata?.custom_fields?.find(...)?.value];
    calling [find] on something that is not an array throws. *)
Definition sessionId_of (metadata : Js.JsVal) : option Js.JsVal :=
  let direct := Js.get_opt metadata "sessionId" in
  if Js.truthy direct then Some direct
  else
    match Js.get_opt metadata "custom_fields" with
    | Js.JUndefined | Js.JNull => Some Js.JUndefined
    | Js.JArr fields =>
        match find_sessionId_field fields with
        | Some found => Some (Js.get_opt found "value")
        | None => None
        end
    | _ => None
    end.

Section Handler.

(** [crypto.createHmac('sha512', key).update(body).digest('hex')] *)
Variable hmac_sha512_hex : string -> string -> string.
(** [JSON.parse]; [None] when it throws *)
Variable JSON_parse : string -> option Js.JsVal.
(** [process.env.PAYSTACK_SECRET_KEY || ''] *)
Variable PAYSTACK_SECRET_KEY : string.

(** the header carries the digest of the raw body under the secret key,
    so that the checks of lines 12 and 25 let the request through *)
Definition genuine (request : Request) : Prop :=
  exists s, signature request = Some s /\ s <> ""%string
            /\ s = hmac_sha512_hex PAYSTACK_SECRET_KEY (raw_body request).

(** lines 35-101: the event was parsed *)
Definition handle_event (env : Env) (event : Js.JsVal) : M Stmt Response :=
  kind <- try (Js.get event "event") ;;
  if Js.is_string kind "charge.success" then
    data <- try (Js.get event "data") ;;
    reference <- try (Js.get data "reference") ;;
    metadata <- try (Js.get data "metadata") ;;
    sessionId <- try (sessionId_of metadata) ;;
    found <-
      query env SelectPayment (select_payment reference) ;;
    match Db.error found, Db.data found with
    | None, Some payment =>
        exec env UpdatePayment (fun db =>
          Db.set_payments
            (Db.update
               (fun p => String.eqb (Db.Payment.payment_reference p) (Js.String_ reference))
               (fun p =>
                  {| Db.Payment.order_id := Db.Payment.order_id p;
                     Db.Payment.payment_reference := Db.Payment.payment_reference p;
                     Db.Payment.amount := Db.Payment.amount p;
                     Db.Payment.currency := Db.Payment.currency p;
                     Db.Payment.status := "success";
                     Db.Payment.provider := Db.Payment.provider p;
                     Db.Payment.provider_reference := Db.Payment.provider_reference p;
                     Db.Payment.paid_at := Some (Js.toISOString (now_paid env));
                     Db.Payment.metadata := Db.Payment.metadata p |})
               (Db.payments db)) db) ;;;
        exec env UpdateBooking (fun db =>
          Db.set_bookings
            (Db.update
               (fun b => String.eqb (Db.Booking.order_id b) (Db.Payment.order_id payment))
               (fun b =>
                  {| Db.Booking.id := Db.Booking.id b;
                     Db.Booking.order_id := Db.Booking.order_id b;
                     Db.Booking.user_id := Db.Booking.user_id b;
                     Db.Booking.car_id := Db.Booking.car_id b;
                     Db.Booking.pickup_date := Db.Booking.pickup_date b;
                     Db.Booking.return_date := Db.Booking.return_date b;
                     Db.Booking.pickup_location := Db.Booking.pickup_location b;
                     Db.Booking.days := Db.Booking.days b;
                     Db.Booking.daily_rate := Db.Booking.daily_rate b;
                     Db.Booking.total_amount := Db.Booking.total_amount b;
                     Db.Booking.deposit_amount := Db.Booking.deposit_amount b;
                     Db.Booking.balance_amount := Db.Booking.balance_amount b;
                     Db.Booking.status := "paid";
                     Db.Booking.payment_status := "paid";
                     Db.Booking.payment_reference := Db.Booking.payment_reference b |})
               (Db.bookings db)) db) ;;;
        (if Js.truthy sessionId
         then
           exec env UpdateSession (fun db =>
             Db.set_sessions
               (Db.update
                  (fun s => String.eqb (Db.Session.whatsapp_id s) (Js.String_ sessionId))
                  (fun s =>
                     {| Db.Session.whatsapp_id := Db.Session.whatsapp_id s;
                        Db.Session.session_state := Db.Session.session_state s;
                        Db.Session.session_data :=
                          Js.object [("booking_completed", Js.JBool true);
                                     ("payment_reference", reference);
                                     ("order_id", Js.JStr (Db.Payment.order_id payment))];
                        Db.Session.last_message_at := Js.toISOString (now_session env) |})
                  (Db.sessions db)) db)
         else ret None) ;;;
        ret received
    | _, _ =>
        (* the payment may not exist yet: acknowledged, line 52 *)
        respond received
    end
  else ret received.

Definition POST (env : Env) (request : Request) (db : Db.DB)
  : Response * World Stmt :=
  let body := raw_body request in
  match signature request with
  | None => (no_signature, untouched db)
  | Some signature =>
      if String.eqb signature "" then (no_signature, untouched db)
      else
        let hash := hmac_sha512_hex PAYSTACK_SECRET_KEY body in
        if negb (String.eqb hash signature) then (invalid_signature, untouched db)
        else run (event <- try (JSON_parse body) ;; handle_event env event) db
  end.

End Handler.

End Webhook.

(* ===================================================================== *)
(** ** Sample data for the examples *)
(* ===================================================================== *)

Module Samples.

Definition ama : Db.User.t :=
  {| Db.User.id := 1; Db.User.whatsapp_id := "wa-233241234567";
     Db.User.phone := "0241234567"; Db.User.name := "Ama Mensah";
     Db.User.email := None |}.

Definition kofi : Db.User.t :=
  {| Db.User.id := 2; Db.User.whatsapp_id := "wa-233209876543";
     Db.User.phone := "0209876543"; Db.User.name := "Kofi Boateng";
     Db.User.email := Some "kofi@example.com" |}.

Definition sedan : Db.Car.t :=
  {| Db.Car.id := 10; Db.Car.car_id := "CAR-001"; Db.Car.name := "Sedan";
     Db.Car.daily_rate := 200; Db.Car.status := "active" |}.

Definition retired_van : Db.Car.t :=
  {| Db.Car.id := 11; Db.Car.car_id := "CAR-002"; Db.Car.name := "Van";
     Db.Car.daily_rate := 350; Db.Car.status := "inactive" |}.

Definition chat : Db.Session.t :=
  {| Db.Session.whatsapp_id := "wa-233550001111";
     Db.Session.session_state := "AWAITING_PAYMENT";
     Db.Session.session_data := Js.JObj [];
     Db.Session.last_message_at := "2024-01-01T08:00:00.000Z" |}.

Definition db0 : Db.DB :=
  {| Db.users := [ama; kofi]; Db.cars := [sedan; retired_van];
     Db.bookings := []; Db.payments := []; Db.sessions := [chat] |}.

(** 2024-01-03T12:00:00.123Z on every clock reading, no statement
    rejected, and the two random draws given *)
Definition env_with (order reference : Js.RandomDraw) : Create.Env :=
  {| Create.failure := fun _ => None;
     Create.now_order := 1704283200123;
     Create.now_reference := 1704283200123;
     Create.now_paid := 1704283200123;
     Create.now_session := 1704283200123;
     Create.random_order := order;
     Create.random_reference := reference |}.

(** draws with eleven fractional digits, as most are *)
Definition env0 : Create.Env :=
  env_with [7; 20; 3; 35; 0; 11; 29; 4; 16; 8; 22]%nat
           [30; 1; 14; 9; 27; 5; 33; 12; 2; 19; 6]%nat.

(** the first draw is the Number 0.5, rendered "0.i" *)
Definition env_half : Create.Env :=
  env_with [18]%nat [30; 1; 14; 9; 27; 5; 33; 12; 2; 19; 6]%nat.

(** [env], except that the database rejects statement [st] with [e] *)
Definition reject (st : Create.Stmt) (e : Db.DbError) (env : Create.Env) : Create.Env :=
  {| Create.failure :=
       fun s => if Create.Stmt_beq s st then Some e else Create.failure env s;
     Create.now_order := Create.now_order env;
     Create.now_reference := Create.now_reference env;
     Create.now_paid := Create.now_paid env;
     Create.now_session := Create.now_session env;
     Create.random_order := Create.random_order env;
     Create.random_reference := Create.random_reference env |}.

Definition timeout_error : Db.DbError :=
  {| Db.code := "57014"; Db.message := Some "canceling statement due to statement timeout" |}.

(** a complete request of a new customer for the sedan, two days *)
Definition request0 : Create.Body :=
  {| Create.car_id := Some "CAR-001";
     Create.pickup_date := Some "2024-01-01";
     Create.return_date := Some "2024-01-03";
     Create.full_name := Some "Esi Owusu";
     Create.phone_number := Some "0550001111";
     Create.email := Some "esi@example.com";
     Create.pickup_location := Some "Airport";
     Create.days := Some 2;
     Create.daily_rate := Some 200;
     Create.total_amount := Some 400;
     Create.sessionId := Some "wa-233550001111" |}.

(** the same request quoting a total of 1 for two days at 200 *)
Definition request_total_1 : Create.Body :=
  {| Create.car_id := Some "CAR-001";
     Create.pickup_date := Some "2024-01-01";
     Create.return_date := Some "2024-01-03";
     Create.full_name := Some "Esi Owusu";
     Create.phone_number := Some "0550001111";
     Create.email := Some "esi@example.com";
     Create.pickup_location := Some "Airport";
     Create.days := Some 2;
     Create.daily_rate := Some 200;
     Create.total_amount := Some 1;
     Create.sessionId := Some "wa-233550001111" |}.

(** a request for a car id that is not in the catalog, without a pickup
    location *)
Definition request_unknown_car_no_location : Create.Body :=
  {| Create.car_id := Some "CAR-999";
     Create.pickup_date := Some "2024-01-01";
     Create.return_date := Some "2024-01-03";
     Create.full_name := Some "Esi Owusu";
     Create.phone_number := Some "0550001111";
     Create.email := None;
     Create.pickup_location := None;
     Create.days := Some 2;
     Create.daily_rate := Some 200;
     Create.total_amount := Some 400;
     Create.sessionId := None |}.

(** a complete request for a car id that is not in the catalog *)
Definition request_unknown_car : Create.Body :=
  {| Create.car_id := Some "CAR-999";
     Create.pickup_date := Some "2024-01-01";
     Create.return_date := Some "2024-01-03";
     Create.full_name := Some "Esi Owusu";
     Create.phone_number := Some "0550001111";
     Create.email := None;
     Create.pickup_location := Some "Tema";
     Create.days := Some 2;
     Create.daily_rate := Some 200;
     Create.total_amount := Some 400;
     Create.sessionId := None |}.

(** a complete request for the van, whose status is inactive *)
Definition request_retired_van : Create.Body :=
  {| Create.car_id := Some "CAR-002";
     Create.pickup_date := Some "2024-01-01";
     Create.return_date := Some "2024-01-03";
     Create.full_name := Some "Esi Owusu";
     Create.phone_number := Some "0550001111";
     Create.email := None;
     Create.pickup_location := Some "Tema";
     Create.days := Some 2;
     Create.daily_rate := Some 350;
     Create.total_amount := Some 700;
     Create.sessionId := None |}.


End Samples.

(* ===================================================================== *)
(** ** Sample webhook deliveries *)
(* ===================================================================== *)

Module WebhookSamples.

(** JSON text written with ['] for the double quote *)
Fixpoint json_text (s : string) : string :=
  match s with
  | EmptyString => EmptyString
  | String c r =>
      String (if Ascii.eqb c "'"%char then ascii_of_nat 34 else c) (json_text r)
  end.

Definition body_subscription : string :=
  json_text "{'event':'subscription.create','data':{'reference':'PAY-404'}}".

Definition event_subscription : Js.JsVal :=
  Js.JObj [("event", Js.JStr "subscription.create");
           ("data", Js.JObj [("reference", Js.JStr "PAY-404")])].

Definition body_charge : string :=
  json_text "{'event':'charge.success','data':{'reference':'PAY-404','metadata':{'sessionId':'wa-233550001111'}}}".

Definition event_charge : Js.JsVal :=
  Js.JObj [("event", Js.JStr "charge.success");
           ("data", Js.JObj [("reference", Js.JStr "PAY-404");
                             ("metadata",
                              Js.JObj [("sessionId", Js.JStr "wa-233550001111")])])].

(** the custom fields sent as one object instead of a list of objects *)
Definition body_charge_fields_object : string :=
  json_text "{'event':'charge.success','data':{'reference':'PAY-404','metadata':{'custom_fields':{'variable_name':'sessionId','value':'wa-233550001111'}}}}".

Definition event_charge_fields_object : Js.JsVal :=
  Js.JObj [("event", Js.JStr "charge.success");
           ("data",
            Js.JObj [("reference", Js.JStr "PAY-404");
                     ("metadata",
                      Js.JObj [("custom_fields",
                                Js.JObj [("variable_name", Js.JStr "sessionId");
                                         ("value", Js.JStr "wa-233550001111")])])])].

(** The examples need some function in the place of [JSON.parse] and of the
    keyed digest; the theorems hold for every choice.  This one reads the
    three sample bodies and rejects any other text. *)
Definition parse (body : string) : option Js.JsVal :=
  if String.eqb body body_subscription then Some event_subscription
  else if String.eqb body body_charge then Some event_charge
  else if String.eqb body body_charge_fields_object then Some event_charge_fields_object
  else None.

Definition hex_digit (n : nat) : ascii :=
  if Nat.ltb n 10 then ascii_of_nat (48 + n) else ascii_of_nat (87 + n).

Fixpoint hex (s : string) : string :=
  match s with
  | EmptyString => EmptyString
  | String c r =>
      let n := nat_of_ascii c in
      String (hex_digit (Nat.div n 16)) (String (hex_digit (Nat.modulo n 16)) (hex r))
  end.

(** a keyed digest in hexadecimal for the examples (it is not SHA-512) *)
Definition digest (key body : string) : string := hex (key ++ ":" ++ body).

Definition secret : string := "sk_test_1".

Definition env0 : Webhook.Env :=
  {| Webhook.failure := fun _ => None;
     Webhook.now_paid := 1704283200123;
     Webhook.now_session := 1704283200123 |}.

Definition signed (body : string) : Webhook.Request :=
  {| Webhook.raw_body := body; Webhook.signature := Some (digest secret body) |}.

Definition unsigned (body : string) : Webhook.Request :=
  {| Webhook.raw_body := body; Webhook.signature := None |}.

Definition forged (body : string) : Webhook.Request :=
  {| Webhook.raw_body := body; Webhook.signature := Some "00ff" |}.

End WebhookSamples.

(* ===================================================================== *)
(** ** The patches of the webhook, by name *)
(* ===================================================================== *)

Module Reconcile.

(** lines 58-61: the payment is marked successful at the clock reading *)
Definition paid_payment (env : Webhook.Env) (p : Db.Payment.t) : Db.Payment.t :=
  {| Db.Payment.order_id := Db.Payment.order_id p;
     Db.Payment.payment_reference := Db.Payment.payment_reference p;
     Db.Payment.amount := Db.Payment.amount p;
     Db.Payment.currency := Db.Payment.currency p;
     Db.Payment.status := "success";
     Db.Payment.provider := Db.Payment.provider p;
     Db.Payment.provider_reference := Db.Payment.provider_reference p;
     Db.Payment.paid_at := Some (Js.toISOString (Webhook.now_paid env));
     Db.Payment.metadata := Db.Payment.metadata p |}.

(** lines 71-74: the booking is marked paid *)
Definition paid_booking (b : Db.Booking.t) : Db.Booking.t :=
  {| Db.Booking.id := Db.Booking.id b;
     Db.Booking.order_id := Db.Booking.order_id b;
     Db.Booking.user_id := Db.Booking.user_id b;
     Db.Booking.car_id := Db.Booking.car_id b;
     Db.Booking.pickup_date := Db.Booking.pickup_date b;
     Db.Booking.return_date := Db.Booking.return_date b;
     Db.Booking.pickup_location := Db.Booking.pickup_location b;
     Db.Booking.days := Db.Booking.days b;
     Db.Booking.daily_rate := Db.Booking.daily_rate b;
     Db.Booking.total_amount := Db.Booking.total_amount b;
     Db.Booking.deposit_amount := Db.Booking.deposit_amount b;
     Db.Booking.balance_amount := Db.Booking.balance_amount b;
     Db.Booking.status := "paid";
     Db.Booking.payment_status := "paid";
     Db.Booking.payment_reference := Db.Booking.payment_reference b |}.

(** lines 85-92: the session data is replaced, the state kept *)
Definition completed_session (env : Webhook.Env) (reference : Js.JsVal)
    (order_id : string) (s : Db.Session.t) : Db.Session.t :=
  {| Db.Session.whatsapp_id := Db.Session.whatsapp_id s;
     Db.Session.session_state := Db.Session.session_state s;
     Db.Session.session_data :=
       Js.object [("booking_completed", Js.JBool true);
                  ("payment_reference", reference);
                  ("order_id", Js.JStr order_id)];
     Db.Session.last_message_at := Js.toISOString (Webhook.now_session env) |}.

(** the filters of lines 62, 75 and 93 *)
Definition has_reference (reference : Js.JsVal) (p : Db.Payment.t) : bool :=
  String.eqb (Db.Payment.payment_reference p) (Js.String_ reference).

Definition has_order (order_id : string) (b : Db.Booking.t) : bool :=
  String.eqb (Db.Booking.order_id b) order_id.

Definition has_session (sessionId : Js.JsVal) (s : Db.Session.t) : bool :=
  String.eqb (Db.Session.whatsapp_id s) (Js.String_ sessionId).

(** the tables after the three updates of lines 56-98, each of which the
    database runs or rejects *)
Definition settled (env : Webhook.Env) (reference sessionId : Js.JsVal)
    (payment : Db.Payment.t) (d : Db.DB) : Db.DB :=
  {| Db.users := Db.users d;
     Db.cars := Db.cars d;
     Db.bookings :=
       match Webhook.failure env Webhook.UpdateBooking with
       | Some _ => Db.bookings d
       | None => Db.update (has_order (Db.Payment.order_id payment)) paid_booking
                   (Db.bookings d)
       end;
     Db.payments :=
       match Webhook.failure env Webhook.UpdatePayment with
       | Some _ => Db.payments d
       | None => Db.update (has_reference reference) (paid_payment env) (Db.payments d)
       end;
     Db.sessions :=
       if Js.truthy sessionId then
         match Webhook.failure env Webhook.UpdateSession with
         | Some _ => Db.sessions d
         | None => Db.update (has_session sessionId)
                     (completed_session env reference (Db.Payment.order_id payment))
                     (Db.sessions d)
         end
       else Db.sessions d |}.

(** what the webhook leaves alone in a row: every column of a booking but
    the two statuses, every column of a payment but status and paid-at, and
    the key and state of a session *)
Definition booking_terms (b : Db.Booking.t) :=
  (Db.Booking.id b, Db.Booking.order_id b, Db.Booking.user_id b, Db.Booking.car_id b,
   Db.Booking.pickup_date b, Db.Booking.return_date b, Db.Booking.pickup_location b,
   Db.Booking.days b, Db.Booking.daily_rate b, Db.Booking.total_amount b,
   Db.Booking.deposit_amount b, Db.Booking.balance_amount b,
   Db.Booking.payment_reference b).

Definition payment_terms (p : Db.Payment.t) :=
  (Db.Payment.order_id p, Db.Payment.payment_reference p, Db.Payment.amount p,
   Db.Payment.currency p, Db.Payment.provider p, Db.Payment.provider_reference p,
   Db.Payment.metadata p).

Definition session_identity (s : Db.Session.t) :=
  (Db.Session.whatsapp_id s, Db.Session.session_state s).

End Reconcile.

(* ===================================================================== *)
(** ** The session patch of the creation handler, by name *)
(* ===================================================================== *)

Module Commit.

(** lines 196-205: the session is marked booked *)
Definition booked_session (env : Create.Env) (orderId paymentReference : string)
    (booking_id : Z) (s : Db.Session.t) : Db.Session.t :=
  {| Db.Session.whatsapp_id := Db.Session.whatsapp_id s;
     Db.Session.session_state := "BOOKED";
     Db.Session.session_data :=
       Js.JObj [("booking_completed", Js.JBool true);
                ("payment_reference", Js.JStr paymentReference);
                ("order_id", Js.JStr orderId);
                ("booking_id", Js.JNum booking_id)];
     Db.Session.last_message_at := Js.toISOString (Create.now_session env) |}.

(** the six fields that line 22 requires *)
Definition required (b : Create.Body) : list (option string) :=
  [Create.car_id b; Create.pickup_date b; Create.return_date b;
   Create.full_name b; Create.phone_number b; Create.pickup_location b].

(** lines 48-52: the contact fields of a known user are overwritten *)
Definition updated_contact (b : Create.Body) (r : Db.User.t) : Db.User.t :=
  {| Db.User.id := Db.User.id r;
     Db.User.whatsapp_id := Db.User.whatsapp_id r;
     Db.User.phone := Create.patched (Create.or_none (Create.phone_number b)) (Db.User.phone r);
     Db.User.name := Create.patched (Create.or_none (Create.full_name b)) (Db.User.name r);
     Db.User.email :=
       Create.patched (option_map Some (Create.or_none (Create.email b))) (Db.User.email r) |}.

(** lines 78-83: the row of a new user; [id] is the key the database
    gives it *)
Definition new_user (b : Create.Body) (id : Z) : Db.User.t :=
  {| Db.User.id := id;
     Db.User.whatsapp_id :=
       Create.text (Create.or_else (Create.sessionId b) (Create.phone_number b));
     Db.User.phone := Create.text (Create.phone_number b);
     Db.User.name := Create.text (Create.full_name b);
     Db.User.email := Create.or_none (Create.email b) |}.

(** the test of line 90: the insert failed on a uniqueness constraint *)
Definition duplicate_key (e : Db.DbError) : bool :=
  String.eqb (Db.code e) "23505"
  || match Db.message e with
     | Some m => Create.includes "duplicate" m
     | None => false
     end.

End Commit.

(* ===================================================================== *)
(** ** The booking wizard as a whole: src/unnamed/part_000 *)
(* ===================================================================== *)

Module WizardFlow.

(** [s.split('T')[0]]: the text before the first [T] *)
Fixpoint before_T (s : string) : string :=
  match s with
  | EmptyString => EmptyString
  | String c r => if Ascii.eqb c "T"%char then EmptyString else String c (before_T r)
  end.

(** the state [bookingData] of the page, lines 36-44 *)
Record Form := {
  car : option Wizard.Car;
  pickupDate : string;
  returnDate : string;
  fullName : string;
  phoneNumber : string;
  email : string;
  pickupLocation : string
}.

Record State := {
  currentStep : Z;
  bookingData : Form
}.

(** what the price computation and the first check read of the form *)
Definition dates_of (f : Form) : Wizard.BookingData :=
  {| Wizard.car := car f;
     Wizard.pickupDate := pickupDate f;
     Wizard.returnDate := returnDate f |}.

(** where the browser is after an event: still on the wizard, or back on
    the catalog ([router.push('/')]) *)
Inductive Page :=
| Booking (st : State)
| Home.

(** lines 49-107, [fetchCar]: the page shows the wizard only for a car id
    that one active car carries; a missing id, a rejected query or a miss
    send the browser back to the catalog.  The wizard starts at step 1 with
    an empty form. *)
Definition fetchCar (rejection : option Db.DbError) (carId : option string) (d : Db.DB)
  : Page :=
  match carId with
  | None => Home
  | Some id =>
      if String.eqb id "" then Home
      else
        match rejection with
        | Some _ => Home
        | None =>
            match Db.data
                    (Db.single
                       (filter (fun c => String.eqb (Db.Car.car_id c) id
                                         && String.eqb (Db.Car.status c) "active")
                          (Db.cars d))) with
            | None => Home
            | Some data =>
                Booking
                  {| currentStep := 1;
                     bookingData :=
                       {| car := Some {| Wizard.car_id := Db.Car.car_id data;
                                         Wizard.name := Db.Car.name data;
                                         Wizard.daily_rate := Db.Car.daily_rate data |};
                          pickupDate := ""; returnDate := ""; fullName := "";
                          phoneNumber := ""; email := ""; pickupLocation := "" |} |}
            end
        end
  end.

(** the time values of the dates from 0000-01-01 to the end of the range
    of [Date]; the values of a date input lie among them *)
Definition dates_from_year_0 (getTime : string -> option Z) : Prop :=
  forall s t, getTime s = Some t -> -62167219200000 <= t <= 8640000000000000.

Section Browser.

(** What the browser decides.  [getTime s] is [new Date(s).getTime()],
    [None] for the time value NaN of a text that is not read as a date;
    which texts are read, beyond the ISO dates, is the browser's choice.
    [trim] is [String.prototype.trim].  [next_local_day t] is the time value
    after [d.setDate(d.getDate() + 1)] on the date of time value [t]: the
    same local time on the next local day, as the time zone has it.  Every
    theorem on the wizard holds whatever the three are. *)
Variable getTime : string -> option Z.
Variable trim : string -> string.
Variable next_local_day : Z -> Z.

(** lines 110-127.  The quotient of line 119 is a quotient of Numbers, and
    the ceiling of it is the ceiling of the exact quotient, which
    [Wizard.diffDays] computes, while the two time values are less than 2^27
    days apart: so for any two dates from the year 0 on
    ([dates_from_year_0]). *)
Definition calculateBookingDetails (f : Form) : option Wizard.BookingDetails :=
  if (String.eqb (pickupDate f) "") || (String.eqb (returnDate f) "") then None
  else
    match car f with
    | None => None
    | Some c =>
        let pickup := getTime (pickupDate f) in
        let returnDate := getTime (returnDate f) in
        let diffDays := Wizard.diffDays pickup returnDate in
        let dailyRate := Wizard.daily_rate c in
        let totalAmount := diffDays * dailyRate in
        Some {| Wizard.days := diffDays; Wizard.dailyRate := dailyRate;
                Wizard.totalAmount := totalAmount |}
    end.

(** lines 132-135 *)
Definition canProceedToStep2 (f : Form) : bool :=
  negb (String.eqb (pickupDate f) "") && negb (String.eqb (returnDate f) "") &&
  match getTime (returnDate f), getTime (pickupDate f) with
  | Some r, Some p => r >? p
  | _, _ => false
  end.

(** lines 137-142 *)
Definition canProceedToStep3 (f : Form) : bool :=
  negb (String.eqb (trim (fullName f)) "")
  && negb (String.eqb (trim (phoneNumber f)) "")
  && negb (String.eqb (trim (email f)) "")
  && negb (String.eqb (pickupLocation f) "").

(** lines 273-284: a new pickup date moves a return date that is not after
    it to the day after *)
Definition onPickupChange (selectedDate : string) (prev : Form) : Form :=
  let returnDate' :=
    if negb (String.eqb (returnDate prev) "")
       && match getTime (returnDate prev), getTime selectedDate with
          | Some r, Some p => r <=? p
          | _, _ => false
          end
    then
      match getTime selectedDate with
      | Some p => before_T (Js.toISOString (next_local_day p))
      | None => returnDate prev
      end
    else returnDate prev in
  {| car := car prev; pickupDate := selectedDate; returnDate := returnDate';
     fullName := fullName prev; phoneNumber := phoneNumber prev; email := email prev;
     pickupLocation := pickupLocation prev |}.

(** the controls of the page *)
Inductive Event :=
| PickupChanged (value : string)      (* line 273 *)
| ReturnChanged (value : string)      (* line 298 *)
| FullNameChanged (value : string)    (* line 332 *)
| PhoneChanged (value : string)       (* line 345 *)
| EmailChanged (value : string)       (* line 358 *)
| LocationChanged (value : string)    (* line 370 *)
| NextClicked                         (* line 490 *)
| BackClicked.                        (* line 482 *)

(** lines 144-150 *)
Definition handleNext (st : State) : State :=
  if (currentStep st =? 1) && canProceedToStep2 (bookingData st)
  then {| currentStep := 2; bookingData := bookingData st |}
  else if (currentStep st =? 2) && canProceedToStep3 (bookingData st)
  then {| currentStep := 3; bookingData := bookingData st |}
  else st.

(** lines 152-158 *)
Definition handleBack (st : State) : Page :=
  if currentStep st >? 1
  then Booking {| currentStep := currentStep st - 1; bookingData := bookingData st |}
  else Home.

Definition with_form (st : State) (f : Form) : State :=
  {| currentStep := currentStep st; bookingData := f |}.

(** One event on the page.  The date inputs are rendered at step 1 only
    (line 260), the contact inputs at step 2 only (line 319), the Next
    button below step 3 (line 488); a control that is not rendered gives no
    event, and the state stays. *)
Definition react (st : State) (ev : Event) : Page :=
  let f := bookingData st in
  match ev with
  | PickupChanged v =>
      if currentStep st =? 1 then Booking (with_form st (onPickupChange v f))
      else Booking st
  | ReturnChanged v =>
      if currentStep st =? 1
      then Booking (with_form st
                      {| car := car f; pickupDate := pickupDate f; returnDate := v;
                         fullName := fullName f; phoneNumber := phoneNumber f;
                         email := email f; pickupLocation := pickupLocation f |})
      else Booking st
  | FullNameChanged v =>
      if currentStep st =? 2
      then Booking (with_form st
                      {| car := car f; pickupDate := pickupDate f;
                         returnDate := returnDate f;
                         fullName := v; phoneNumber := phoneNumber f;
                         email := email f; pickupLocation := pickupLocation f |})
      else Booking st
  | PhoneChanged v =>
      if currentStep st =? 2
      then Booking (with_form st
                      {| car := car f; pickupDate := pickupDate f;
                         returnDate := returnDate f;
                         fullName := fullName f; phoneNumber := v;
                         email := email f; pickupLocation := pickupLocation f |})
      else Booking st
  | EmailChanged v =>
      if currentStep st =? 2
      then Booking (with_form st
                      {| car := car f; pickupDate := pickupDate f;
                         returnDate := returnDate f;
                         fullName := fullName f; phoneNumber := phoneNumber f;
                         email := v; pickupLocation := pickupLocation f |})
      else Booking st
  | LocationChanged v =>
      if currentStep st =? 2
      then Booking (with_form st
                      {| car := car f; pickupDate := pickupDate f;
                         returnDate := returnDate f;
                         fullName := fullName f; phoneNumber := phoneNumber f;
                         email := email f; pickupLocation := v |})
      else Booking st
  | NextClicked =>
      if currentStep st <? 3 then Booking (handleNext st) else Booking st
  | BackClicked => handleBack st
  end.

(** a session of the customer on the page *)
Fixpoint run (p : Page) (events : list Event) : Page :=
  match events, p with
  | [], _ => p
  | _, Home => Home
  | ev :: rest, Booking st => run (react st ev) rest
  end.

(** lines 160-191, [handleSubmit]: the body of the request to the creation
    handler; [stored] is the session id in the local storage.  [None] is
    the alert of line 162. *)
Definition payload (stored : option string) (f : Form) : option Create.Body :=
  match car f, calculateBookingDetails f with
  | Some c, Some bookingDetails =>
      Some {| Create.car_id := Some (Wizard.car_id c);
              Create.pickup_date := Some (pickupDate f);
              Create.return_date := Some (returnDate f);
              Create.full_name := Some (fullName f);
              Create.phone_number := Some (phoneNumber f);
              Create.email := Some (email f);
              Create.pickup_location := Some (pickupLocation f);
              Create.days := Some (Wizard.days bookingDetails);
              Create.daily_rate := Some (Wizard.dailyRate bookingDetails);
              Create.total_amount := Some (Wizard.totalAmount bookingDetails);
              Create.sessionId := Create.or_none stored |}
  | _, _ => None
  end.

(** the Proceed button is rendered at step 3 and above (line 488) *)
Definition submit (stored : option string) (st : State) : option Create.Body :=
  if currentStep st <? 3 then None else payload stored (bookingData st).

(** what the steps guarantee of the form: dates in order from step 2 on,
    contact details at step 3 *)
Definition step_invariant (st : State) : Prop :=
  1 <= currentStep st <= 3
  /\ (exists c, car (bookingData st) = Some c)
  /\ (2 <= currentStep st -> canProceedToStep2 (bookingData st) = true)
  /\ (currentStep st = 3 -> canProceedToStep3 (bookingData st) = true).

End Browser.

End WizardFlow.

(* ===================================================================== *)
(** ** Payment initialisation handler:
       src/app/api/booking/create/route.ts, lines 223-278 *)
(* ===================================================================== *)

Module Initialize.
Import Http.

(** The JSON body of the request: the email, the amount in cedis and the
    metadata the client wants echoed.  A field that the client left out, or
    sent as [null], is [None] ([JUndefined] for the metadata). *)
Record Body := {
  email : option string;
  amount : option Z;
  metadata : Js.JsVal
}.

(** the request of lines 242-255 to the payment gateway *)
Record Call := {
  url : string;
  method : string;
  authorization : string;
  content_type : string;
  payload : Js.JsVal
}.

(** the answer of the gateway: [response.status], and the value of
    [await response.json()], [None] when the body is not JSON *)
Record Reply := {
  reply_status : Z;
  reply_json : option Js.JsVal
}.

(** [response.ok] *)
Definition ok (r : Reply) : bool :=
  (200 <=? reply_status r) && (reply_status r <=? 299).

(** What the platform decides during one request: the two settings of the
    environment and what the gateway answers; [None] is a [fetch] that
    rejects. *)
Record Env := {
  PAYSTACK_SECRET_KEY : option string;
  NEXT_PUBLIC_APP_URL : option string;
  gateway : Call -> option Reply
}.

(** [!amount] *)
Definition no_amount (a : option Z) : bool :=
  match a with
  | Some n => n =? 0
  | None => true
  end.

(** [Math.round(amount * 100)] *)
Definition pesewas (n : Z) : Z := n * 100.

(** a status that allows no body: [Response.json] throws on it *)
Definition null_body_status (s : Z) : bool :=
  (s =? 101) || (s =? 103) || (s =? 204) || (s =? 205) || (s =? 304).

(** [NextResponse.json(body, { status })] for a status that is computed:
    a status outside 200-599 is a RangeError, a status without body a
    TypeError ([None]) *)
Definition json_checked (b : Js.JsVal) (st : Z) : option Response :=
  if (200 <=? st) && (st <=? 599) && negb (null_body_status st)
  then Some (json b st)
  else None.

Definition required : Response :=
  json (error_body "Email and amount are required") 400.

Definition internal_error : Response :=
  json (error_body "Internal server error") 500.

(** lines 242-255 *)
Definition call_of (env : Env) (b : Body) (n : Z) : Call :=
  {| url := "https://api.paystack.co/transaction/initialize";
     method := "POST";
     authorization := "Bearer " ++ Create.text (Create.or_else (PAYSTACK_SECRET_KEY env) (Some ""));
     content_type := "application/json";
     payload :=
       Js.object
         [("email", Js.JStr (Create.text (email b)));
          ("amount", Js.JNum (pesewas n));
          ("currency", Js.JStr "GHS");
          ("metadata", metadata b);
          ("callback_url",
           Js.JStr (Create.text (Create.or_else (NEXT_PUBLIC_APP_URL env)
                                   (Some "http://localhost:3000"))
                    ++ "/booking/success"))] |}.

(** lines 259-264: the refusal of the gateway handed on *)
Definition refusal (r : Reply) (data : Js.JsVal) : option Response :=
  match Js.get data "message" with
  | None => None
  | Some message =>
      json_checked
        (Js.JObj [("error", if Js.truthy message then message
                            else Js.JStr "Failed to initialize payment")])
        (reply_status r)
  end.

(** lines 266-270 *)
Definition authorization_of (data : Js.JsVal) : option Response :=
  match Js.get data "data" with
  | None => None
  | Some inner =>
      match Js.get inner "authorization_url", Js.get inner "access_code",
            Js.get inner "reference" with
      | Some authorization_url, Some access_code, Some reference =>
          Some (json (Js.object [("authorization_url", authorization_url);
                                 ("access_code", access_code);
                                 ("reference", reference)]) 200)
      | _, _, _ => None
      end
  end.

(** an exception anywhere in the [try] block is answered by the [catch] of
    lines 271-277 *)
Definition or_internal_error (r : option Response) : Response :=
  match r with
  | Some resp => resp
  | None => internal_error
  end.

(** The handler: the response, and the calls made to the gateway.
    [request] is the parsed body, [None] when it is not JSON or is [null]. *)
Definition POST (env : Env) (request : option Body) : Response * list Call :=
  match request with
  | None => (internal_error, [])
  | Some b =>
      if negb (Create.present (email b)) || no_amount (amount b)
      then (required, [])
      else
        match amount b with
        | None => (required, [])
        | Some n =>
            let call := call_of env b n in
            match gateway env call with
            | None => (internal_error, [call])
            | Some response =>
                match reply_json response with
                | None => (internal_error, [call])
                | Some data =>
                    if negb (ok response)
                    then (or_internal_error (refusal response data), [call])
                    else (or_internal_error (authorization_of data), [call])
                end
            end
        end
  end.

End Initialize.

(* ===================================================================== *)
(** ** Further sample data: a payment awaiting its webhook, a customer in
       the wizard, a gateway *)
(* ===================================================================== *)

Module Scenarios.

(** a booking made through the gateway, not yet confirmed *)
Definition pending_booking : Db.Booking.t :=
  {| Db.Booking.id := 1;
     Db.Booking.order_id := "ORD-20240103-7K3Z0B";
     Db.Booking.user_id := 1;
     Db.Booking.car_id := 10;
     Db.Booking.pickup_date := "2024-01-10";
     Db.Booking.return_date := "2024-01-12";
     Db.Booking.pickup_location := "Osu";
     Db.Booking.days := Some 2;
     Db.Booking.daily_rate := Some 200;
     Db.Booking.total_amount := Some 400;
     Db.Booking.deposit_amount := Some 400;
     Db.Booking.balance_amount := 0;
     Db.Booking.status := "pending";
     Db.Booking.payment_status := "pending";
     Db.Booking.payment_reference := "PAY-404" |}.

(** another customer's booking *)
Definition other_booking : Db.Booking.t :=
  {| Db.Booking.id := 2;
     Db.Booking.order_id := "ORD-20240102-Q1W2E3";
     Db.Booking.user_id := 2;
     Db.Booking.car_id := 10;
     Db.Booking.pickup_date := "2024-02-01";
     Db.Booking.return_date := "2024-02-02";
     Db.Booking.pickup_location := "Tema";
     Db.Booking.days := Some 1;
     Db.Booking.daily_rate := Some 200;
     Db.Booking.total_amount := Some 200;
     Db.Booking.deposit_amount := Some 200;
     Db.Booking.balance_amount := 0;
     Db.Booking.status := "pending";
     Db.Booking.payment_status := "pending";
     Db.Booking.payment_reference := "PAY-777" |}.

Definition pending_payment : Db.Payment.t :=
  {| Db.Payment.order_id := "ORD-20240103-7K3Z0B";
     Db.Payment.payment_reference := "PAY-404";
     Db.Payment.amount := Some 400;
     Db.Payment.currency := "GHS";
     Db.Payment.status := "pending";
     Db.Payment.provider := "paystack";
     Db.Payment.provider_reference := "PAY-404";
     Db.Payment.paid_at := None;
     Db.Payment.metadata := Js.JObj [] |}.

Definition other_payment : Db.Payment.t :=
  {| Db.Payment.order_id := "ORD-20240102-Q1W2E3";
     Db.Payment.payment_reference := "PAY-777";
     Db.Payment.amount := Some 200;
     Db.Payment.currency := "GHS";
     Db.Payment.status := "pending";
     Db.Payment.provider := "paystack";
     Db.Payment.provider_reference := "PAY-777";
     Db.Payment.paid_at := None;
     Db.Payment.metadata := Js.JObj [] |}.

(** the sample database with the two bookings and their payments *)
Definition db_pending : Db.DB :=
  {| Db.users := Db.users Samples.db0;
     Db.cars := Db.cars Samples.db0;
     Db.bookings := [pending_booking; other_booking];
     Db.payments := [pending_payment; other_payment];
     Db.sessions := Db.sessions Samples.db0 |}.

(** the parts of the sample "charge.success" event *)
Definition charge_metadata : Js.JsVal :=
  Js.JObj [("sessionId", Js.JStr "wa-233550001111")].

Definition charge_data : Js.JsVal :=
  Js.JObj [("reference", Js.JStr "PAY-404"); ("metadata", charge_metadata)].

(** metadata that names the session in its custom fields, after the car *)
Definition metadata_custom_fields : Js.JsVal :=
  Js.JObj [("custom_fields",
            Js.JArr [Js.JObj [("variable_name", Js.JStr "carId");
                              ("value", Js.JStr "CAR-001")];
                     Js.JObj [("variable_name", Js.JStr "sessionId");
                              ("value", Js.JStr "wa-233550001111")]])].

(** the error of a uniqueness violation *)
Definition duplicate_error : Db.DbError :=
  {| Db.code := "23505";
     Db.message := Some "duplicate key value violates unique constraint" |}.

(** Ama books again from the chat she is known by *)
Definition request_ama_known_chat : Create.Body :=
  {| Create.car_id := Some "CAR-001";
     Create.pickup_date := Some "2024-01-01";
     Create.return_date := Some "2024-01-03";
     Create.full_name := Some "Ama Mensah-Osei";
     Create.phone_number := Some "0241239999";
     Create.email := Some "ama@example.com";
     Create.pickup_location := Some "Osu";
     Create.days := Some 2;
     Create.daily_rate := Some 200;
     Create.total_amount := Some 400;
     Create.sessionId := Some "wa-233241234567" |}.

(** For the examples, a [trim] in the place of the browser's: it removes
    the white space of ASCII text.  The theorems on the wizard hold for
    every [trim]. *)
Definition is_space (c : ascii) : bool :=
  let n := nat_of_ascii c in
  Nat.eqb n 32 || (Nat.leb 9 n && Nat.leb n 13).

Fixpoint trim_start (s : string) : string :=
  match s with
  | String c r => if is_space c then trim_start r else s
  | EmptyString => EmptyString
  end.

Fixpoint trim_end (s : string) : string :=
  match s with
  | EmptyString => EmptyString
  | String c r =>
      match trim_end r with
      | EmptyString => if is_space c then EmptyString else String c EmptyString
      | r' => String c r'
      end
  end.

Definition trim_ascii (s : string) : string := trim_end (trim_start s).

(** a browser in a time zone without a clock change *)
Definition next_day (t : Z) : Z := t + Js.msPerDay.

(** what a customer does on the wizard of the sedan: dates, Next, contact
    details, Next *)
Definition visit : list WizardFlow.Event :=
  [WizardFlow.PickupChanged "2024-01-01"; WizardFlow.ReturnChanged "2024-01-03";
   WizardFlow.NextClicked;
   WizardFlow.FullNameChanged "Esi Owusu"; WizardFlow.PhoneChanged "0550001111";
   WizardFlow.EmailChanged "esi@example.com"; WizardFlow.LocationChanged "Airport";
   WizardFlow.NextClicked].

(** the wizard as [fetchCar] opens it on the sedan *)
Definition opened : WizardFlow.State :=
  {| WizardFlow.currentStep := 1;
     WizardFlow.bookingData :=
       {| WizardFlow.car := Some {| Wizard.car_id := "CAR-001"; Wizard.name := "Sedan";
                                    Wizard.daily_rate := 200 |};
          WizardFlow.pickupDate := ""; WizardFlow.returnDate := "";
          WizardFlow.fullName := ""; WizardFlow.phoneNumber := "";
          WizardFlow.email := ""; WizardFlow.pickupLocation := "" |} |}.

(** the wizard after [visit] *)
Definition filled : WizardFlow.State :=
  {| WizardFlow.currentStep := 3;
     WizardFlow.bookingData :=
       {| WizardFlow.car := Some {| Wizard.car_id := "CAR-001"; Wizard.name := "Sedan";
                                    Wizard.daily_rate := 200 |};
          WizardFlow.pickupDate := "2024-01-01"; WizardFlow.returnDate := "2024-01-03";
          WizardFlow.fullName := "Esi Owusu"; WizardFlow.phoneNumber := "0550001111";
          WizardFlow.email := "esi@example.com";
          WizardFlow.pickupLocation := "Airport" |} |}.

(** a form whose return date is before the pickup date about to be chosen *)
Definition form_early_return : WizardFlow.Form :=
  {| WizardFlow.car := WizardFlow.car (WizardFlow.bookingData opened);
     WizardFlow.pickupDate := "2024-01-01"; WizardFlow.returnDate := "2024-01-03";
     WizardFlow.fullName := ""; WizardFlow.phoneNumber := "";
     WizardFlow.email := ""; WizardFlow.pickupLocation := "" |}.

(** a request to initialise a payment of 400 cedis *)
Definition payment_request : Initialize.Body :=
  {| Initialize.email := Some "esi@example.com";
     Initialize.amount := Some 400;
     Initialize.metadata := charge_metadata |}.

(** a gateway that accepts every call *)
Definition accepting : Initialize.Env :=
  {| Initialize.PAYSTACK_SECRET_KEY := Some "sk_test_1";
     Initialize.NEXT_PUBLIC_APP_URL := None;
     Initialize.gateway := fun _ =>
       Some {| Initialize.reply_status := 200;
               Initialize.reply_json :=
                 Some (Js.JObj
                         [("status", Js.JBool true);
                          ("message", Js.JStr "Authorization URL created");
                          ("data",
                           Js.JObj [("authorization_url",
                                     Js.JStr "https://checkout.paystack.com/0peioxfhpn");
                                    ("access_code", Js.JStr "0peioxfhpn");
                                    ("reference", Js.JStr "PAY-404")])]) |} |}.

(** a gateway that refuses the key *)
Definition refusing : Initialize.Env :=
  {| Initialize.PAYSTACK_SECRET_KEY := None;
     Initialize.NEXT_PUBLIC_APP_URL := None;
     Initialize.gateway := fun _ =>
       Some {| Initialize.reply_status := 401;
               Initialize.reply_json :=
                 Some (Js.JObj [("status", Js.JBool false);
                                ("message", Js.JStr "Invalid key")]) |} |}.




(** a form with the dates in order, and the wrong way round *)
Definition dates_in_order : WizardFlow.Form :=
  {| WizardFlow.car := WizardFlow.car (WizardFlow.bookingData opened);
     WizardFlow.pickupDate := "2024-01-01"; WizardFlow.returnDate := "2024-01-03";
     WizardFlow.fullName := ""; WizardFlow.phoneNumber := "";
     WizardFlow.email := ""; WizardFlow.pickupLocation := "" |}.

Definition dates_reversed : WizardFlow.Form :=
  {| WizardFlow.car := WizardFlow.car (WizardFlow.bookingData opened);
     WizardFlow.pickupDate := "2024-01-03"; WizardFlow.returnDate := "2024-01-01";
     WizardFlow.fullName := ""; WizardFlow.phoneNumber := "";
     WizardFlow.email := ""; WizardFlow.pickupLocation := "" |}.

End Scenarios.

(* ===================================================================== *)
(** * Properties *)
(* ===================================================================== *)

Example ex_parse : Js.Date_parse "2024-01-03" = Some 1704240000000.
Proof. reflexivity. Qed.

Example ex_iso : Js.toISOString 1704283200123 = "2024-01-03T12:00:00.123Z".
Proof. reflexivity. Qed.

Example ex_r36 : Js.toString36 [18%nat] = "0.i".
Proof. reflexivity. Qed.

Example ex_num : Js.Number_toString 1704283200123 = "1704283200123".
Proof. vm_compute. reflexivity. Qed.


(* ===================================================================== *)
(** ** The calendar and the decimal rendering *)
(* ===================================================================== *)

Section BuiltinFacts.

Lemma length_app (s t : string) :
  String.length (s ++ t) = (String.length s + String.length t)%nat.
Proof. induction s; cbn; congruence. Qed.

Lemma app_assoc_s (s t u : string) : (s ++ t) ++ u = s ++ (t ++ u).
Proof. induction s; cbn; congruence. Qed.

Lemma app_empty_r (s : string) : s ++ "" = s.
Proof. induction s; cbn; congruence. Qed.

Example civil_epoch : Js.civil_from_days 0 = (1970, 1, 1).
Proof. reflexivity. Qed.

Example civil_leap_day : Js.civil_from_days 19782 = (2024, 2, 29).
Proof. reflexivity. Qed.

(** the day number of the civil date of a day is that day *)
Lemma days_from_civil_from_days (z : Z) :
  let '(y, m, d) := Js.civil_from_days z in Js.days_from_civil y m d = z.
Proof.
  unfold Js.civil_from_days. cbv zeta.
  set (era := (z + 719468) / 146097).
  set (doe := z + 719468 - era * 146097).
  assert (Hdoe : 0 <= doe <= 146096) by (subst doe era; Z.div_mod_to_equations; lia).
  set (yoe := (doe - doe / 1460 + doe / 36524 - doe / 146096) / 365).
  assert (Hyoe : 0 <= yoe <= 399) by (subst yoe; Z.div_mod_to_equations; lia).
  set (doy := doe - (365 * yoe + yoe / 4 - yoe / 100)).
  assert (Hdoy : 0 <= doy <= 365) by (subst doy yoe; Z.div_mod_to_equations; lia).
  set (mp := (5 * doy + 2) / 153).
  assert (Hmp : 0 <= mp <= 11) by (subst mp; Z.div_mod_to_equations; lia).
  destruct (Z.ltb_spec mp 10);
    match goal with |- context [?a <=? 2] => destruct (Z.leb_spec a 2) end;
    try lia.
  - unfold Js.days_from_civil.
    destruct (Z.leb_spec (mp + 3) 2); [lia|].
    destruct (Z.gtb_spec (mp + 3) 2); [|lia].
    cbv zeta.
    replace ((yoe + era * 400) / 400) with era by (Z.div_mod_to_equations; lia).
    replace (yoe + era * 400 - era * 400) with yoe by lia.
    replace (mp + 3 - 3) with mp by lia.
    subst doy. unfold mp, doe in *. Z.div_mod_to_equations. lia.
  - unfold Js.days_from_civil.
    destruct (Z.leb_spec (mp - 9) 2); [|lia].
    destruct (Z.gtb_spec (mp - 9) 2); [lia|].
    cbv zeta.
    replace ((yoe + era * 400 + 1 - 1) / 400) with era by (Z.div_mod_to_equations; lia).
    replace (yoe + era * 400 + 1 - 1 - era * 400) with yoe by lia.
    replace (mp - 9 + 9) with mp by lia.
    subst doy. unfold mp, doe in *. Z.div_mod_to_equations. lia.
Qed.

Lemma digit_val_digit_char (k : Z) :
  0 <= k < 10 -> Js.digit_val (Js.digit_char k) = Some k.
Proof.
  intros Hk.
  assert (Hc : k = 0 \/ k = 1 \/ k = 2 \/ k = 3 \/ k = 4 \/ k = 5 \/ k = 6 \/ k = 7
               \/ k = 8 \/ k = 9) by lia.
  repeat (destruct Hc as [->|Hc]; [reflexivity|]). subst k. reflexivity.
Qed.

(** [nat_digits] writes the decimal numeral of [n] in front of [acc]:
    reading it back in, after any digits read before, gives [n]. *)
Lemma nat_digits_numeral (fuel : nat) :
  forall (n : Z) (acc : string),
    1 <= n < 2 ^ Z.of_nat fuel ->
    exists ds,
      Js.nat_digits fuel n acc = ds ++ acc
      /\ forall (t : string) (a : Z),
           Js.parse_digits (ds ++ t) a
           = Js.parse_digits t (a * 10 ^ Z.of_nat (String.length ds) + n).
Proof.
  induction fuel as [|f IH]; intros n acc Hn.
  - cbn in Hn. lia.
  - cbn [Js.nat_digits]. cbv zeta.
    assert (Hmod : 0 <= n mod 10 < 10) by (apply Z.mod_pos_bound; lia).
    destruct (Z.eqb_spec (n / 10) 0) as [E|E].
    + exists (String (Js.digit_char (n mod 10)) "").
      split; [reflexivity|]. intros t a.
      cbn [append Js.parse_digits String.length].
      rewrite (digit_val_digit_char _ Hmod).
      f_equal. change (Z.of_nat 1) with 1.
      assert (n = n mod 10) by (rewrite (Z.div_mod n 10) at 1 by lia; lia).
      lia.
    + assert (Hq : 1 <= n / 10 < 2 ^ Z.of_nat f).
      { split; [Z.div_mod_to_equations; lia|].
        rewrite Nat2Z.inj_succ, Z.pow_succ_r in Hn by lia.
        Z.div_mod_to_equations; lia. }
      destruct (IH (n / 10) (String (Js.digit_char (n mod 10)) acc) Hq) as (ds & E1 & E2).
      exists (ds ++ String (Js.digit_char (n mod 10)) "").
      split.
      * rewrite E1, app_assoc_s. reflexivity.
      * intros t a.
        rewrite app_assoc_s. cbn [append]. rewrite E2. cbn [Js.parse_digits].
        rewrite (digit_val_digit_char _ Hmod). f_equal.
        rewrite length_app. cbn [String.length].
        rewrite Nat.add_1_r, Nat2Z.inj_succ, Z.pow_succ_r by lia.
        rewrite (Z.div_mod n 10) at 3 by lia. ring.
Qed.

(** the rendering of a non-negative integer reads back as that integer *)
Lemma parse_Number_toString (n : Z) :
  0 <= n -> Js.parse_digits (Js.Number_toString n) 0 = Some n.
Proof.
  intros Hn. unfold Js.Number_toString.
  destruct (Z.ltb_spec n 0); [lia|].
  destruct (Z.eq_dec n 0) as [->|Hpos]; [reflexivity|].
  assert (Hb : 1 <= n < 2 ^ Z.of_nat (S (Z.to_nat (Z.log2 n)))).
  { split; [lia|].
    rewrite Nat2Z.inj_succ, Z2Nat.id by apply Z.log2_nonneg.
    apply Z.log2_spec. lia. }
  destruct (nat_digits_numeral _ n "" Hb) as (ds & E1 & E2).
  rewrite E1, E2. cbn [Js.parse_digits]. f_equal; lia.
Qed.

End BuiltinFacts.

(* ===================================================================== *)
(** ** Properties of the wizard's price computation *)
(* ===================================================================== *)

Section WizardFacts.
Import Wizard.

Lemma Date_parse_midnight (s : string) (t : Z) :
  Js.Date_parse s = Some t -> exists n, t = n * Js.msPerDay.
Proof.
  unfold Js.Date_parse. intros H.
  destruct (negb (Nat.eqb (String.length s) 10)); [discriminate|].
  destruct (negb _); [discriminate|].
  destruct (Js.parse_digits _ 0) as [y|]; [|discriminate].
  destruct (Js.parse_digits _ 0) as [m|]; [|discriminate].
  destruct (Js.parse_digits _ 0) as [d|]; [|discriminate].
  destruct (_ && _)%bool; [|discriminate].
  inversion H. eexists; reflexivity.
Qed.

Lemma Date_parse_nonempty (s : string) (t : Z) :
  Js.Date_parse s = Some t -> String.eqb s "" = false.
Proof.
  destruct s; [discriminate | reflexivity].
Qed.

Lemma ceil_div_exact (n d : Z) : 0 < d -> ceil_div (n * d) d = n.
Proof.
  intros Hd. unfold ceil_div.
  replace (- (n * d)) with ((- n) * d) by ring.
  rewrite Z.div_mul by lia. ring.
Qed.

Lemma diffDays_whole_days (a b : Z) :
  a < b -> diffDays (Some (a * Js.msPerDay)) (Some (b * Js.msPerDay)) = b - a.
Proof.
  intros Hab. unfold diffDays.
  replace (b * Js.msPerDay - a * Js.msPerDay) with ((b - a) * Js.msPerDay) by ring.
  change (1000 * 60 * 60 * 24) with Js.msPerDay.
  assert (HD : 0 < Js.msPerDay) by reflexivity.
  rewrite Z.abs_eq by nia.
  rewrite ceil_div_exact by exact HD.
  destruct (Z.eqb_spec (b - a) 0); lia.
Qed.

(** the wizard lets the customer past the first step only when both dates
    are read and the return date is the later one *)
Lemma canProceedToStep2_dates (b : BookingData) :
  canProceedToStep2 b = true ->
  exists tp tr,
    Js.Date_parse (pickupDate b) = Some tp
    /\ Js.Date_parse (returnDate b) = Some tr
    /\ tp < tr.
Proof.
  unfold canProceedToStep2. intros H.
  apply andb_prop in H. destruct H as [_ H].
  destruct (Js.Date_parse (returnDate b)) as [tr|]; [|discriminate H].
  destruct (Js.Date_parse (pickupDate b)) as [tp|]; [|discriminate H].
  exists tp, tr. repeat split. apply Z.gtb_lt in H. lia.
Qed.

(** C9.  For pickup and return dates with return strictly after pickup the
    wizard computes the day count as the ceiling of the calendar-day
    difference, at least 1, and the total as days times the daily rate;
    at rate 200 from 2024-01-01 to 2024-01-03 that is 2 days and 400. *)
Theorem calculateBookingDetails_days_and_total :
  (forall (c : Car) (pickup ret : string) (tp tr : Z),
      Js.Date_parse pickup = Some tp ->
      Js.Date_parse ret = Some tr ->
      tp < tr ->
      exists det,
        calculateBookingDetails
          {| car := Some c; pickupDate := pickup; returnDate := ret |} = Some det
        /\ days det = Z.max 1 (ceil_div (tr - tp) Js.msPerDay)
        /\ days det * Js.msPerDay = tr - tp
        /\ dailyRate det = daily_rate c
        /\ totalAmount det = days det * daily_rate c)
  /\ calculateBookingDetails
       {| car := Some {| car_id := "CAR-001"; name := "Sedan"; daily_rate := 200 |};
          pickupDate := "2024-01-01"; returnDate := "2024-01-03" |}
     = Some {| days := 2; dailyRate := 200; totalAmount := 400 |}.
Proof.
  split; [|reflexivity].
  intros c pickup ret tp tr Hp Hr Hlt.
  unfold calculateBookingDetails; cbn [car pickupDate returnDate].
  rewrite (Date_parse_nonempty _ _ Hp), (Date_parse_nonempty _ _ Hr).
  cbn [orb]. rewrite Hp, Hr.
  destruct (Date_parse_midnight _ _ Hp) as [a ->].
  destruct (Date_parse_midnight _ _ Hr) as [b ->].
  assert (HD : 0 < Js.msPerDay) by reflexivity.
  assert (Hab : a < b) by nia.
  eexists; split; [reflexivity|].
  cbn [days dailyRate totalAmount].
  rewrite (diffDays_whole_days _ _ Hab).
  replace (b * Js.msPerDay - a * Js.msPerDay) with ((b - a) * Js.msPerDay) by ring.
  rewrite ceil_div_exact by exact HD.
  repeat split; try lia.
Qed.

Lemma calculateBookingDetails_days_and_total_witness :
  exists det,
    calculateBookingDetails
      {| car := Some {| car_id := "CAR-007"; name := "Van"; daily_rate := 350 |};
         pickupDate := "2024-02-27"; returnDate := "2024-03-01" |} = Some det
    /\ days det = Z.max 1 (ceil_div (1709251200000 - 1708992000000) Js.msPerDay)
    /\ days det * Js.msPerDay = 1709251200000 - 1708992000000
    /\ dailyRate det = 350
    /\ totalAmount det = days det * 350.
Proof.
  apply (proj1 calculateBookingDetails_days_and_total
           {| car_id := "CAR-007"; name := "Van"; daily_rate := 350 |}
           "2024-02-27" "2024-03-01" 1708992000000 1709251200000);
    [reflexivity | reflexivity | lia].
Defined.

End WizardFacts.

(* ===================================================================== *)
(** ** Properties of the booking creation handler *)
(* ===================================================================== *)

Section CreateFacts.
Import Http Create.

(* the identifiers and timestamps stay folded while a handler is unfolded *)
Opaque make_orderId make_paymentReference Js.toISOString.

(** one step of symbolic execution of a handler *)
Ltac run_step :=
  match goal with
  | H : (_, _) = (_, _) |- _ => inversion H; subst; clear H
  | H : inl _ = inl _ |- _ => inversion H; subst; clear H
  | H : inr _ = inr _ |- _ => inversion H; subst; clear H
  | H : inl _ = inr _ |- _ => discriminate H
  | H : inr _ = inl _ |- _ => discriminate H
  | H : context [match ?x with _ => _ end] |- _ => destruct x eqn:?
  | H : context [if ?x then _ else _] |- _ => destruct x eqn:?
  end.

Ltac unfold_handler :=
  unfold bind, query, exec, insert, send, ret, respond in *.

Lemma query_eq {A} (env : Env) (st : Stmt) (q : Db.DB -> Db.Reply A) (w : World Stmt) :
  query env st q w
  = (inl (outcome env st q (db w)), {| db := db w; issued := issued w ++ [st] |}).
Proof.
  unfold query, send, outcome. destruct (failure env st); reflexivity.
Qed.

Lemma exec_eq (env : Env) (st : Stmt) (f : Db.DB -> Db.DB) (w : World Stmt) :
  exec env st f w
  = (inl (failure env st),
     {| db := match failure env st with Some _ => db w | None => f (db w) end;
        issued := issued w ++ [st] |}).
Proof.
  unfold exec, send. destruct (failure env st); reflexivity.
Qed.

Lemma POST_validated (env : Env) (b : Body) (d : Db.DB) :
  validated b = true ->
  POST env (Some b) d = finish (bind (resolve_user env b) (book env b) (untouched d)).
Proof.
  unfold validated, POST. intros H.
  repeat (apply andb_prop in H; destruct H as [H ?]).
  repeat match goal with E : present _ = true |- _ => rewrite E; clear E end.
  reflexivity.
Qed.

Lemma POST_not_validated (env : Env) (b : Body) (d : Db.DB) :
  validated b = false -> POST env (Some b) d = (missing_fields, untouched d).
Proof.
  unfold validated, POST. intros H.
  destruct (present (car_id b)), (present (pickup_date b)), (present (return_date b)),
    (present (full_name b)), (present (phone_number b)), (present (pickup_location b));
    try reflexivity; discriminate H.
Qed.

Lemma absent_not_validated (b : Body) :
  car_id b = None \/ pickup_date b = None \/ return_date b = None
  \/ full_name b = None \/ phone_number b = None \/ pickup_location b = None ->
  validated b = false.
Proof.
  unfold validated.
  intros [H|[H|[H|[H|[H|H]]]]]; rewrite H; cbn [present];
    repeat rewrite ?andb_false_r, ?andb_false_l; reflexivity.
Qed.

(** User resolution touches the users table only, and when it ends the
    request it does so with a server error. *)
Lemma resolve_user_frame (env : Env) (b : Body) (w w' : World Stmt) x :
  resolve_user env b w = (x, w') ->
  Db.cars (db w') = Db.cars (db w)
  /\ Db.bookings (db w') = Db.bookings (db w)
  /\ Db.payments (db w') = Db.payments (db w)
  /\ Db.sessions (db w') = Db.sessions (db w)
  /\ (forall r, x = inr r -> status r = 500).
Proof.
  unfold resolve_user. unfold_handler. intros H.
  repeat run_step; cbn; repeat split; try reflexivity;
    intros r' Hr; inversion Hr; reflexivity.
Qed.

(** The three ways [book] ends: the car is not found, the booking insert is
    rejected, or the booking row is stored and the request succeeds. *)
Lemma book_cases (env : Env) (b : Body) (userId : Z) (w w' : World Stmt) x :
  book env b userId w = (x, w') ->
  let car := Db.data (outcome env SelectCar (select_car (text (car_id b))) (db w)) in
  (car = None /\ x = inr car_not_found /\ db w' = db w
     /\ issued w' = (issued w ++ [SelectCar])%list)
  \/ (exists carData, car = Some carData /\ failure env InsertBooking <> None
        /\ x = inr booking_failed /\ db w' = db w)
  \/ (exists carData, car = Some carData /\ failure env InsertBooking = None
        /\ let row := booking_row b (make_orderId env) (make_paymentReference env)
                        userId carData (Db.fresh_id Db.Booking.id (Db.bookings (db w))) in
           x = inl (success (Db.Booking.id row) (make_orderId env) (make_paymentReference env))
           /\ Db.bookings (db w') = (Db.bookings (db w) ++ [row])%list
           /\ Db.users (db w') = Db.users (db w)
           /\ Db.payments (db w')
              = match failure env InsertPayment with
                | Some _ => Db.payments (db w)
                | None => (Db.payments (db w)
                            ++ [payment_row env b (make_orderId env) (make_paymentReference env)])%list
                end).
Proof.
  unfold book. unfold bind at 1. rewrite query_eq. cbv zeta.
  destruct (Db.data (outcome env SelectCar _ (db w))) as [carData|] eqn:Hcar.
  - unfold bind at 1. unfold insert, send. cbn [db issued].
    destruct (failure env InsertBooking) as [e|] eqn:Hins.
    + cbn. unfold respond. intros H; inversion H; subst; clear H.
      right; left. exists carData. repeat split; congruence.
    + cbn [Db.error Db.data Db.ok]. unfold bind at 1. rewrite exec_eq.
      unfold bind at 1.
      intros H. right; right. exists carData.
      split; [reflexivity|]. split; [reflexivity|].
      destruct (present (sessionId b)).
      * rewrite exec_eq in H. unfold ret in H. inversion H; subst; clear H.
        cbn [db]. destruct (failure env InsertPayment), (failure env UpdateSession);
          cbn; repeat split; reflexivity.
      * unfold ret in H. inversion H; subst; clear H.
        cbn [db]. destruct (failure env InsertPayment); cbn; repeat split; reflexivity.
  - unfold respond. intros H; inversion H; subst; clear H.
    left. repeat split; reflexivity.
Qed.

Lemma select_car_cars (cid : string) (d d' : Db.DB) :
  Db.cars d' = Db.cars d -> select_car cid d' = select_car cid d.
Proof. unfold select_car. intros ->. reflexivity. Qed.

Lemma outcome_select_car (env : Env) (cid : string) (d d' : Db.DB) :
  Db.cars d' = Db.cars d ->
  outcome env SelectCar (select_car cid) d' = outcome env SelectCar (select_car cid) d.
Proof.
  intros H. unfold outcome. rewrite (select_car_cars _ _ _ H). reflexivity.
Qed.

Lemma single_data {A} (rows : list A) (r : A) :
  Db.data (Db.single rows) = Some r -> rows = [r].
Proof.
  destruct rows as [|x [|y rest]]; cbn; intros H; inversion H; reflexivity.
Qed.


Lemma outcome_data {A} (env : Env) (st : Stmt) (q : Db.DB -> Db.Reply A) (d : Db.DB) (r : A) :
  Db.data (outcome env st q d) = Some r ->
  failure env st = None /\ Db.data (q d) = Some r.
Proof.
  unfold outcome. destruct (failure env st); cbn; [discriminate | auto].
Qed.

(** Every way a validated request ends. *)
Lemma POST_cases (env : Env) (b : Body) (d : Db.DB) (resp : Response) (w : World Stmt) :
  validated b = true ->
  POST env (Some b) d = (resp, w) ->
  (exists w1, resolve_user env b (untouched d) = (inr resp, w1) /\ w = w1)
  \/ (exists userId w1 x,
        resolve_user env b (untouched d) = (inl userId, w1)
        /\ book env b userId w1 = (x, w)
        /\ resp = match x with inl r => r | inr r => r end).
Proof.
  intros Hv. rewrite (POST_validated _ _ _ Hv). unfold bind.
  destruct (resolve_user env b (untouched d)) as [[userId|r] w1] eqn:Hu.
  - destruct (book env b userId w1) as [x w2] eqn:Hb.
    intros H. right. exists userId, w1, x.
    destruct x; cbn in H; inversion H; subst; auto.
  - cbn. intros H; inversion H; subst. left. exists w. auto.
Qed.

(** An accepted request went past validation, user resolution and the car
    lookup, and stored exactly one new booking row. *)
Lemma POST_accepted (env : Env) (b : Body) (d : Db.DB) (resp : Response) (w : World Stmt) :
  POST env (Some b) d = (resp, w) ->
  status resp = 200 ->
  exists userId w1 carData,
    validated b = true
    /\ resolve_user env b (untouched d) = (inl userId, w1)
    /\ Db.data (outcome env SelectCar (select_car (text (car_id b))) (db w1)) = Some carData
    /\ failure env InsertBooking = None
    /\ let row := booking_row b (make_orderId env) (make_paymentReference env)
                    userId carData (Db.fresh_id Db.Booking.id (Db.bookings d)) in
       resp = success (Db.Booking.id row) (make_orderId env) (make_paymentReference env)
       /\ Db.bookings (db w) = (Db.bookings d ++ [row])%list.
Proof.
  intros H Hst.
  destruct (validated b) eqn:Hv.
  2:{ rewrite (POST_not_validated _ _ _ Hv) in H. inversion H; subst. discriminate Hst. }
  destruct (POST_cases _ _ _ _ _ Hv H) as [[w1 [Hu _]]|[userId [w1 [x [Hu [Hb Hx]]]]]].
  - destruct (resolve_user_frame _ _ _ _ _ Hu) as (_ & _ & _ & _ & H500).
    rewrite (H500 resp eq_refl) in Hst. discriminate Hst.
  - destruct (resolve_user_frame _ _ _ _ _ Hu) as (_ & Hbk & _).
    cbn [db untouched] in Hbk.
    destruct (book_cases _ _ _ _ _ _ Hb)
      as [(_ & -> & _)|[(c & _ & _ & -> & _)|(c & Hc & Hins & -> & Hrows & _)]].
    + subst resp. discriminate Hst.
    + subst resp. discriminate Hst.
    + exists userId, w1, c. rewrite Hbk in Hrows, Hx. cbv zeta. repeat split; auto.
Qed.

(** C6.  A request in which car id, pickup date, return date, full name,
    phone number or pickup location is absent is answered 400 with
    [{error: "Missing required fields"}], and no statement is sent to the
    database. *)
Theorem POST_missing_required_fields (env : Env) (b : Body) (d : Db.DB) :
  car_id b = None \/ pickup_date b = None \/ return_date b = None
  \/ full_name b = None \/ phone_number b = None \/ pickup_location b = None ->
  POST env (Some b) d
  = ({| status := 400; body := Js.JObj [("error", Js.JStr "Missing required fields")] |},
     {| db := d; issued := [] |}).
Proof.
  intros H. exact (POST_not_validated env b d (absent_not_validated b H)).
Qed.

Lemma POST_missing_required_fields_witness :
  POST Samples.env0 (Some Samples.request_unknown_car_no_location) Samples.db0
  = ({| status := 400; body := Js.JObj [("error", Js.JStr "Missing required fields")] |},
     {| db := Samples.db0; issued := [] |}).
Proof.
  apply (POST_missing_required_fields Samples.env0
           Samples.request_unknown_car_no_location Samples.db0).
  right; right; right; right; right. reflexivity.
Defined.

(** C1, as the code has it.  The booking row of an accepted request holds
    the submitted days, daily rate and total amount as they were sent; its
    total is days times daily rate whenever the submitted total is. *)
Theorem POST_stores_submitted_total (env : Env) (b : Body) (d : Db.DB)
    (resp : Response) (w : World Stmt) :
  POST env (Some b) d = (resp, w) ->
  status resp = 200 ->
  exists booking,
    Db.bookings (db w) = (Db.bookings d ++ [booking])%list
    /\ Db.Booking.days booking = days b
    /\ Db.Booking.daily_rate booking = daily_rate b
    /\ Db.Booking.total_amount booking = total_amount b
    /\ (forall n rate, days b = Some n -> daily_rate b = Some rate ->
        total_amount b = Some (n * rate) ->
        Db.Booking.total_amount booking = Some (n * rate)).
Proof.
  intros H Hst.
  destruct (POST_accepted _ _ _ _ _ H Hst) as (userId & w1 & c & _ & _ & _ & _ & _ & Hrows).
  eexists. split; [exact Hrows|]. cbn.
  repeat split; auto.
Qed.

Lemma POST_stores_submitted_total_witness :
  exists booking,
    Db.bookings (db (snd (POST Samples.env0 (Some Samples.request0) Samples.db0)))
    = (Db.bookings Samples.db0 ++ [booking])%list
    /\ Db.Booking.days booking = Some 2
    /\ Db.Booking.daily_rate booking = Some 200
    /\ Db.Booking.total_amount booking = Some 400
    /\ (forall n rate, Some 2 = Some n -> Some 200 = Some rate ->
        Some 400 = Some (n * rate) ->
        Db.Booking.total_amount booking = Some (n * rate)).
Proof.
  apply (POST_stores_submitted_total Samples.env0 Samples.request0 Samples.db0
           (fst (POST Samples.env0 (Some Samples.request0) Samples.db0))
           (snd (POST Samples.env0 (Some Samples.request0) Samples.db0)));
    reflexivity.
Defined.

(** C1 as stated fails: a request quoting total 1 for 2 days at 200 is
    accepted, and the stored row keeps total 1, not 400. *)
Lemma POST_total_not_days_times_rate :
  exists resp w booking,
    POST Samples.env0 (Some Samples.request_total_1) Samples.db0 = (resp, w)
    /\ status resp = 200
    /\ Db.bookings (db w) = [booking]
    /\ Create.days Samples.request_total_1 = Some 2
    /\ Create.daily_rate Samples.request_total_1 = Some 200
    /\ Db.Booking.total_amount booking = Some 1
    /\ Db.Booking.total_amount booking <> Some (2 * 200).
Proof.
  do 3 eexists. split; [vm_compute; reflexivity|].
  cbn. repeat split; try reflexivity. discriminate.
Qed.

(** C5.  Once the user and the car are resolved, a rejected booking insert
    ends the request with 500 and stores nothing, whereas a rejected payment
    insert does not: the success response is returned and the booking row
    is in the table, without a payment row. *)
Theorem POST_booking_insert_fatal_payment_insert_not (env : Env) (b : Body) (d : Db.DB)
    (userId : Z) (w1 : World Stmt) (carData : Db.Car.t) :
  validated b = true ->
  resolve_user env b (untouched d) = (inl userId, w1) ->
  Db.data (outcome env SelectCar (select_car (text (car_id b))) (db w1)) = Some carData ->
  (failure env InsertBooking <> None ->
     exists w,
       POST env (Some b) d
       = ({| status := 500; body := Js.JObj [("error", Js.JStr "Failed to create booking")] |}, w)
       /\ db w = db w1
       /\ Db.bookings (db w) = Db.bookings d
       /\ Db.payments (db w) = Db.payments d)
  /\ (failure env InsertBooking = None -> failure env InsertPayment <> None ->
     exists w booking,
       POST env (Some b) d
       = (success (Db.Booking.id booking) (make_orderId env) (make_paymentReference env), w)
       /\ status (fst (POST env (Some b) d)) = 200
       /\ booking = booking_row b (make_orderId env) (make_paymentReference env)
                      userId carData (Db.fresh_id Db.Booking.id (Db.bookings d))
       /\ Db.bookings (db w) = (Db.bookings d ++ [booking])%list
       /\ Db.payments (db w) = Db.payments d).
Proof.
  intros Hv Hu Hcar.
  destruct (resolve_user_frame _ _ _ _ _ Hu) as (_ & Hbk & Hpay & _).
  cbn [db untouched] in Hbk, Hpay.
  rewrite (POST_validated _ _ _ Hv). unfold bind. rewrite Hu.
  destruct (book env b userId w1) as [x w] eqn:Hb.
  destruct (book_cases _ _ _ _ _ _ Hb)
    as [(Hnone & _)|[(c & Hc & Hrej & -> & Hdb)|(c & Hc & Hins & -> & Hrows & _ & Hp)]].
  - cbv zeta in Hnone. congruence.
  - split.
    + intros _. exists w. cbn [finish]. rewrite Hdb. repeat split; congruence.
    + intros Hok. congruence.
  - cbv zeta in Hc. assert (c = carData) by congruence. subst c.
    split.
    + intros Hrej. congruence.
    + intros _ Hrej. exists w. eexists. cbn [finish fst].
      split; [reflexivity|]. split; [reflexivity|].
      rewrite Hbk in *. split; [reflexivity|]. split; [exact Hrows|].
      rewrite Hp. destruct (failure env InsertPayment); congruence.
Qed.

Lemma POST_booking_insert_fatal_payment_insert_not_witness :
  (exists w,
     POST (Samples.reject InsertBooking Samples.timeout_error Samples.env0)
       (Some Samples.request0) Samples.db0
     = ({| status := 500; body := Js.JObj [("error", Js.JStr "Failed to create booking")] |}, w)
     /\ Db.bookings (db w) = Db.bookings Samples.db0)
  /\ (exists w booking,
       POST (Samples.reject InsertPayment Samples.timeout_error Samples.env0)
         (Some Samples.request0) Samples.db0
       = (success (Db.Booking.id booking)
            (make_orderId Samples.env0) (make_paymentReference Samples.env0), w)
       /\ Db.bookings (db w) = (Db.bookings Samples.db0 ++ [booking])%list
       /\ Db.payments (db w) = Db.payments Samples.db0).
Proof.
  split.
  - destruct (POST_booking_insert_fatal_payment_insert_not
                (Samples.reject InsertBooking Samples.timeout_error Samples.env0)
                Samples.request0 Samples.db0 3
                (snd (resolve_user
                        (Samples.reject InsertBooking Samples.timeout_error Samples.env0)
                        Samples.request0 (untouched Samples.db0)))
                Samples.sedan eq_refl eq_refl eq_refl) as [H _].
    destruct H as (w & H1 & _ & H2 & _); [discriminate|].
    exists w. split; assumption.
  - destruct (POST_booking_insert_fatal_payment_insert_not
                (Samples.reject InsertPayment Samples.timeout_error Samples.env0)
                Samples.request0 Samples.db0 3
                (snd (resolve_user
                        (Samples.reject InsertPayment Samples.timeout_error Samples.env0)
                        Samples.request0 (untouched Samples.db0)))
                Samples.sedan eq_refl eq_refl eq_refl) as [_ H].
    destruct H as (w & booking & H1 & _ & _ & H2 & H3); [reflexivity|discriminate|].
    exists w, booking. repeat split; assumption.
Defined.

Lemma book_users (env : Env) (b : Body) (userId : Z) (w w' : World Stmt) x :
  book env b userId w = (x, w') -> Db.users (db w') = Db.users (db w).
Proof.
  intros Hb.
  destruct (book_cases _ _ _ _ _ _ Hb)
    as [(_ & _ & Hdb & _)|[(c & _ & _ & _ & Hdb)|(c & _ & _ & _ & _ & Hus & _)]];
    congruence.
Qed.



(** What the car lookup does guarantee.  A booking row is stored only if
    the submitted car id matches, by exact comparison of catalog ids,
    exactly one car row; and a request that passed validation and user
    resolution and whose car lookup returns no row ends with 404
    [{error: "Car not found"}], no booking stored.  The status of the car
    plays no part. *)
Theorem POST_books_only_resolved_car (env : Env) (b : Body) (d : Db.DB)
    (resp : Response) (w : World Stmt) :
  POST env (Some b) d = (resp, w) ->
  (Db.bookings (db w) <> Db.bookings d ->
     exists carData,
       select_car (text (car_id b)) d = Db.ok carData
       /\ In carData (Db.cars d)
       /\ Some (Db.Car.car_id carData) = car_id b
       /\ exists booking, Db.bookings (db w) = (Db.bookings d ++ [booking])%list
                          /\ Db.Booking.car_id booking = Db.Car.id carData)
  /\ (forall userId w1,
        validated b = true ->
        resolve_user env b (untouched d) = (inl userId, w1) ->
        Db.data (outcome env SelectCar (select_car (text (car_id b))) d) = None ->
        resp = {| status := 404; body := Js.JObj [("error", Js.JStr "Car not found")] |}
        /\ Db.bookings (db w) = Db.bookings d).
Proof.
  intros H. split.
  - intros Hchanged.
    destruct (validated b) eqn:Hv.
    2:{ rewrite (POST_not_validated _ _ _ Hv) in H. inversion H; subst.
        exfalso. apply Hchanged. reflexivity. }
    destruct (POST_cases _ _ _ _ _ Hv H) as [[w1 [Hu ->]]|[userId [w1 [x [Hu [Hb Hx]]]]]];
      destruct (resolve_user_frame _ _ _ _ _ Hu) as (Hcars & Hbk & _);
      cbn [db untouched] in Hcars, Hbk.
    + exfalso. apply Hchanged. exact Hbk.
    + destruct (book_cases _ _ _ _ _ _ Hb)
        as [(_ & _ & Hdb & _)|[(c & _ & _ & _ & Hdb)|(c & Hc & _ & _ & Hrows & _)]].
      * exfalso. apply Hchanged. congruence.
      * exfalso. apply Hchanged. congruence.
      * cbv zeta in Hc. rewrite (outcome_select_car _ _ _ _ Hcars) in Hc.
        destruct (outcome_data _ _ _ _ _ Hc) as [_ Hsel].
        pose proof (single_data _ _ Hsel) as Hone.
        assert (Hf : In c (filter (fun c0 => String.eqb (Db.Car.car_id c0) (text (car_id b)))
                            (Db.cars d))) by (rewrite Hone; left; reflexivity).
        apply filter_In in Hf. destruct Hf as [Hin Heq].
        apply String.eqb_eq in Heq.
        exists c. split; [unfold select_car; rewrite Hone; reflexivity|].
        split; [exact Hin|]. split.
        { unfold validated in Hv. destruct (car_id b) as [cid|]; [|discriminate Hv].
          cbn in Heq. congruence. }
        eexists. split; [rewrite Hrows, Hbk; reflexivity|reflexivity].
  - intros userId w1 Hv Hu Hnone.
    destruct (resolve_user_frame _ _ _ _ _ Hu) as (Hcars & Hbk & _).
    cbn [db untouched] in Hcars, Hbk.
    rewrite (POST_validated _ _ _ Hv) in H. unfold bind in H. rewrite Hu in H.
    destruct (book env b userId w1) as [x w2] eqn:Hb.
    rewrite <- (outcome_select_car _ _ _ _ Hcars) in Hnone.
    destruct (book_cases _ _ _ _ _ _ Hb)
      as [(_ & -> & Hdb & _)|[(c & Hc & _)|(c & Hc & _)]];
      cbv zeta in *; try congruence.
    cbn in H. inversion H; subst. split; [reflexivity|congruence].
Qed.

Lemma POST_books_only_resolved_car_witness :
  (exists carData,
     select_car "CAR-001" Samples.db0 = Db.ok carData
     /\ In carData (Db.cars Samples.db0)
     /\ Some (Db.Car.car_id carData) = Some "CAR-001"%string)
  /\ fst (POST Samples.env0 (Some Samples.request_unknown_car) Samples.db0)
     = {| status := 404; body := Js.JObj [("error", Js.JStr "Car not found")] |}.
Proof.
  split.
  - destruct (POST_books_only_resolved_car Samples.env0 Samples.request0 Samples.db0
                (fst (POST Samples.env0 (Some Samples.request0) Samples.db0))
                (snd (POST Samples.env0 (Some Samples.request0) Samples.db0))
                eq_refl) as [H _].
    destruct H as (c & H1 & H2 & H3 & _); [discriminate|].
    exists c. repeat split; assumption.
  - destruct (POST_books_only_resolved_car Samples.env0 Samples.request_unknown_car
                Samples.db0
                (fst (POST Samples.env0 (Some Samples.request_unknown_car) Samples.db0))
                (snd (POST Samples.env0 (Some Samples.request_unknown_car) Samples.db0))
                eq_refl) as [_ H].
    destruct (H 3
                (snd (resolve_user Samples.env0 Samples.request_unknown_car
                        (untouched Samples.db0)))
                eq_refl eq_refl eq_refl) as [H1 _].
    exact H1.
Defined.

(** C7.  The claim fails on the code: the car lookup of lines 123-127
    compares catalog ids only.  The van CAR-002 is in the catalog with
    status inactive; the wizard, whose lookup filters on the status
    (part_000 lines 59-64), does not open for it, but a complete request for
    it is accepted by the handler, answered 200 and not 404, and a booking
    row for the van is stored. *)
Theorem POST_books_inactive_car :
  Create.car_id Samples.request_retired_van = Some "CAR-002"%string
  /\ validated Samples.request_retired_van = true
  /\ filter (fun c => String.eqb (Db.Car.car_id c) "CAR-002") (Db.cars Samples.db0)
     = [Samples.retired_van]
  /\ Db.Car.status Samples.retired_van = "inactive"%string
  /\ WizardFlow.fetchCar None (Some "CAR-002"%string) Samples.db0 = WizardFlow.Home
  /\ status (fst (POST Samples.env0 (Some Samples.request_retired_van) Samples.db0)) = 200
  /\ status (fst (POST Samples.env0 (Some Samples.request_retired_van) Samples.db0)) <> 404
  /\ exists w booking,
       POST Samples.env0 (Some Samples.request_retired_van) Samples.db0
       = (success 1 (make_orderId Samples.env0) (make_paymentReference Samples.env0), w)
       /\ Db.bookings (db w) = [booking]
       /\ Db.Booking.car_id booking = Db.Car.id Samples.retired_van.
Proof.
  split; [reflexivity|]. split; [reflexivity|]. split; [reflexivity|].
  split; [reflexivity|]. split; [reflexivity|].
  split; [vm_compute; reflexivity|]. split; [vm_compute; discriminate|].
  do 2 eexists. split; [vm_compute; reflexivity|].
  cbn. split; reflexivity.
Qed.

End CreateFacts.

(* ===================================================================== *)
(** ** Format of the generated identifiers *)
(* ===================================================================== *)

Section IdentifierFacts.
Import Http Create.

Transparent make_orderId make_paymentReference Js.toISOString.

Lemma length_take (n : nat) (s : string) :
  String.length (Js.take n s) = Nat.min n (String.length s).
Proof.
  revert s. induction n as [|n IH]; intros [|c r]; cbn; auto.
Qed.

Lemma take_app_exact (s t : string) :
  Js.take (String.length s) (s ++ t) = s.
Proof.
  induction s as [|c r IH]; cbn.
  - destruct t; reflexivity.
  - rewrite IH. reflexivity.
Qed.

Lemma forall_chars_app (p : ascii -> bool) (s t : string) :
  Js.forall_chars p (s ++ t) = Js.forall_chars p s && Js.forall_chars p t.
Proof.
  induction s as [|c r IH]; cbn; [reflexivity|].
  rewrite IH. apply andb_assoc.
Qed.

Lemma forall_chars_take (p : ascii -> bool) (n : nat) (s : string) :
  Js.forall_chars p s = true -> Js.forall_chars p (Js.take n s) = true.
Proof.
  revert s. induction n as [|n IH]; intros [|c r]; cbn; auto.
  intros H. apply andb_prop in H. destruct H as [Hc Hr].
  rewrite Hc, (IH _ Hr). reflexivity.
Qed.

Lemma length_toUpperCase (s : string) :
  String.length (Js.toUpperCase s) = String.length s.
Proof. induction s; cbn; congruence. Qed.

Lemma length_base36_digits (r : Js.RandomDraw) :
  String.length (Js.base36_digits r) = List.length r.
Proof. induction r; cbn; congruence. Qed.

(** the upper-case form of every base-36 digit is in [0-9A-Z] *)
Lemma upper_base36_char (k : nat) :
  Js.is_upper_base36 (Js.upper_char (Js.base36_char k)) = true.
Proof.
  unfold Js.base36_char.
  assert (H : (Nat.modulo k 36 < 36)%nat) by (apply Nat.mod_upper_bound; discriminate).
  revert H. generalize (Nat.modulo k 36). intros m Hm.
  do 36 (destruct m as [|m]; [reflexivity|]).
  exfalso. lia.
Qed.

Lemma upper_base36_digits (r : Js.RandomDraw) :
  Js.forall_chars Js.is_upper_base36 (Js.toUpperCase (Js.base36_digits r)) = true.
Proof.
  induction r as [|k r IH]; cbn; [reflexivity|].
  rewrite upper_base36_char, IH. reflexivity.
Qed.

Lemma toUpperCase_take (n : nat) (s : string) :
  Js.toUpperCase (Js.take n s) = Js.take n (Js.toUpperCase s).
Proof.
  revert s. induction n as [|n IH]; intros [|c r]; cbn; auto.
  rewrite IH. reflexivity.
Qed.

(** [Math.random().toString(36).substr(2, n)] keeps the first [n]
    fractional digits of the draw, or all of them when there are fewer. *)
Lemma substr_toString36 (n : nat) (r : Js.RandomDraw) :
  Js.substr 2 n (Js.toString36 r) = Js.take n (Js.base36_digits r).
Proof.
  destruct r as [|k r]; [destruct n; reflexivity | reflexivity].
Qed.

Lemma random_suffix (n : nat) (r : Js.RandomDraw) :
  let suffix := Js.toUpperCase (Js.substr 2 n (Js.toString36 r)) in
  String.length suffix = Nat.min n (List.length r)
  /\ Js.forall_chars Js.is_upper_base36 suffix = true.
Proof.
  cbv zeta. rewrite substr_toString36. split.
  - rewrite length_toUpperCase, length_take, length_base36_digits. reflexivity.
  - rewrite toUpperCase_take. apply forall_chars_take, upper_base36_digits.
Qed.

Lemma take_base36_digits (n : nat) (r : Js.RandomDraw) :
  Js.take n (Js.base36_digits r) = Js.base36_digits (firstn n r).
Proof.
  revert r. induction n as [|n IH]; intros [|k r]; cbn; try reflexivity.
  rewrite IH. reflexivity.
Qed.

(** [toString(36).substr(2, n).toUpperCase()] of a draw: its first [n]
    fractional digits, all of them when it has fewer, in upper case *)
Lemma random_suffix_digits (n : nat) (r : Js.RandomDraw) :
  Js.toUpperCase (Js.substr 2 n (Js.toString36 r))
  = Js.toUpperCase (Js.base36_digits (firstn n r)).
Proof.
  rewrite substr_toString36, take_base36_digits. reflexivity.
Qed.

(** padded decimal numbers *)
Lemma digit_char_is_digit (n : Z) :
  Js.is_digit (Js.digit_char (n mod 10)) = true.
Proof.
  assert (H : 0 <= n mod 10 < 10) by (apply Z.mod_pos_bound; lia).
  revert H. generalize (n mod 10). intros k Hk.
  assert (Hc : k = 0 \/ k = 1 \/ k = 2 \/ k = 3 \/ k = 4 \/ k = 5 \/ k = 6 \/ k = 7
               \/ k = 8 \/ k = 9) by lia.
  repeat (destruct Hc as [->|Hc]; [reflexivity|]). subst k. reflexivity.
Qed.

Lemma pad_digits_spec (width : nat) (n : Z) (acc : string) :
  exists ds, Js.pad_digits width n acc = ds ++ acc
             /\ String.length ds = width
             /\ Js.forall_chars Js.is_digit ds = true.
Proof.
  revert n acc. induction width as [|w IH]; intros n acc; cbn [Js.pad_digits].
  - exists "". repeat split.
  - destruct (IH (n / 10) (String (Js.digit_char (n mod 10)) acc)) as (ds & E & L & D).
    exists (ds ++ String (Js.digit_char (n mod 10)) "").
    rewrite E. split.
    + rewrite app_assoc_s. reflexivity.
    + split.
      * rewrite length_app, L. cbn. lia.
      * rewrite forall_chars_app, D. cbn [Js.forall_chars].
        rewrite digit_char_is_digit. reflexivity.
Qed.

Lemma pad_spec (width : nat) (n : Z) :
  String.length (Js.pad width n) = width
  /\ Js.forall_chars Js.is_digit (Js.pad width n) = true.
Proof.
  unfold Js.pad. destruct (pad_digits_spec width n "") as (ds & E & L & D).
  rewrite E, app_empty_r. auto.
Qed.

Lemma remove_dashes_digits (s t : string) :
  Js.forall_chars Js.is_digit s = true ->
  Js.remove_dashes (s ++ t) = s ++ Js.remove_dashes t.
Proof.
  induction s as [|c r IH]; cbn; [reflexivity|].
  intros H. apply andb_prop in H. destruct H as [Hc Hr].
  destruct (Ascii.eqb_spec c "-"%char) as [->|_]; [discriminate Hc|].
  rewrite (IH Hr). reflexivity.
Qed.

(** [toISOString().slice(0, 10).replace(/-/g, '')] for a four-digit year *)
Lemma date_stamp (y m d : Z) (rest : string) :
  let stamp :=
    Js.remove_dashes
      (Js.slice0 10 (Js.pad 4 y ++ "-" ++ Js.pad 2 m ++ "-" ++ Js.pad 2 d ++ rest)) in
  stamp = Js.pad 4 y ++ Js.pad 2 m ++ Js.pad 2 d
  /\ String.length stamp = 8%nat
  /\ Js.forall_chars Js.is_digit stamp = true.
Proof.
  cbv zeta.
  destruct (pad_spec 4 y) as [Ly Dy].
  destruct (pad_spec 2 m) as [Lm Dm].
  destruct (pad_spec 2 d) as [Ld Dd].
  set (py := Js.pad 4 y) in *. set (pm := Js.pad 2 m) in *. set (pd := Js.pad 2 d) in *.
  assert (E : py ++ "-" ++ pm ++ "-" ++ pd ++ rest
              = (py ++ "-" ++ pm ++ "-" ++ pd) ++ rest).
  { rewrite !app_assoc_s. reflexivity. }
  assert (L : String.length (py ++ "-" ++ pm ++ "-" ++ pd) = 10%nat).
  { rewrite !length_app, Ly, Lm, Ld. reflexivity. }
  assert (S : Js.remove_dashes (Js.slice0 10 (py ++ "-" ++ pm ++ "-" ++ pd ++ rest))
              = py ++ pm ++ pd).
  { unfold Js.slice0. rewrite E, <- L, take_app_exact.
    rewrite (remove_dashes_digits py _ Dy). cbn [append Js.remove_dashes Ascii.eqb Bool.eqb].
    rewrite (remove_dashes_digits pm _ Dm). cbn [append Js.remove_dashes Ascii.eqb Bool.eqb].
    rewrite <- (app_empty_r pd) at 1.
    rewrite (remove_dashes_digits pd _ Dd). cbn [Js.remove_dashes].
    rewrite app_empty_r. reflexivity. }
  rewrite S. split; [reflexivity|]. split.
  - rewrite !length_app, Ly, Lm, Ld. reflexivity.
  - rewrite !forall_chars_app, Dy, Dm, Dd. reflexivity.
Qed.

(** the civil date of a day from 1970-01-01 through 9999-12-31 *)
Lemma civil_from_days_range (z : Z) :
  0 <= z <= 2932896 ->
  let '(y, m, d) := Js.civil_from_days z in
  1970 <= y <= 9999 /\ 1 <= m <= 12 /\ 1 <= d <= 31.
Proof.
  intros Hz. unfold Js.civil_from_days. cbv zeta.
  set (era := (z + 719468) / 146097).
  set (doe := z + 719468 - era * 146097).
  assert (Hdoe : 0 <= doe <= 146096) by (subst doe era; Z.div_mod_to_equations; lia).
  assert (Hera : 4 <= era <= 24) by (subst era; Z.div_mod_to_equations; lia).
  set (yoe := (doe - doe / 1460 + doe / 36524 - doe / 146096) / 365).
  assert (Hyoe : 0 <= yoe <= 399) by (subst yoe; Z.div_mod_to_equations; lia).
  set (doy := doe - (365 * yoe + yoe / 4 - yoe / 100)).
  assert (Hdoy : 0 <= doy <= 365) by (subst doy yoe; Z.div_mod_to_equations; lia).
  set (mp := (5 * doy + 2) / 153).
  assert (Hmp : 0 <= mp <= 11) by (subst mp; Z.div_mod_to_equations; lia).
  assert (Hd : 1 <= doy - (153 * mp + 2) / 5 + 1 <= 31)
    by (subst mp; Z.div_mod_to_equations; lia).
  destruct (Z.ltb_spec mp 10);
    match goal with |- context [?a <=? 2] => destruct (Z.leb_spec a 2) end.
  all: repeat split; try lia.
  all: unfold mp, doy, yoe, doe, era in *; Z.div_mod_to_equations; lia.
Qed.

Lemma nat_digits_are_digits (fuel : nat) (n : Z) (acc : string) :
  Js.forall_chars Js.is_digit acc = true ->
  Js.forall_chars Js.is_digit (Js.nat_digits fuel n acc) = true.
Proof.
  revert n acc. induction fuel as [|f IH]; intros n acc Hacc; cbn [Js.nat_digits]; [exact Hacc|].
  cbv zeta.
  assert (Hacc' : Js.forall_chars Js.is_digit (String (Js.digit_char (n mod 10)) acc) = true).
  { cbn [Js.forall_chars]. rewrite digit_char_is_digit, Hacc. reflexivity. }
  destruct (n / 10 =? 0); [exact Hacc' | apply IH; exact Hacc'].
Qed.

Lemma Number_toString_digits (n : Z) :
  0 <= n -> Js.forall_chars Js.is_digit (Js.Number_toString n) = true.
Proof.
  intros Hn. unfold Js.Number_toString.
  destruct (Z.ltb_spec n 0); [lia|].
  apply nat_digits_are_digits. reflexivity.
Qed.

(** the order id of line 137 while the clock reads a year up to 9999 *)
Lemma make_orderId_format (env : Env) :
  0 <= now_order env < 253402300800000 ->
  exists ymd suffix,
    make_orderId env = "ORD-" ++ ymd ++ "-" ++ suffix
    /\ ymd = (let '(y, m, d) := Js.civil_from_days (now_order env / Js.msPerDay) in
              Js.pad 4 y ++ Js.pad 2 m ++ Js.pad 2 d)
    /\ String.length ymd = 8%nat
    /\ Js.forall_chars Js.is_digit ymd = true
    /\ suffix = Js.toUpperCase (Js.base36_digits (firstn 6 (random_order env)))
    /\ String.length suffix = Nat.min 6 (List.length (random_order env))
    /\ Js.forall_chars Js.is_upper_base36 suffix = true.
Proof.
  intros Hnow. unfold make_orderId, Js.toISOString.
  assert (Hday : 0 <= now_order env / Js.msPerDay <= 2932896).
  { unfold Js.msPerDay. Z.div_mod_to_equations. lia. }
  pose proof (civil_from_days_range _ Hday) as Hciv.
  destruct (Js.civil_from_days (now_order env / Js.msPerDay)) as [[y m] d].
  destruct Hciv as (Hy & _ & _).
  cbv beta iota zeta.
  replace ((0 <=? y) && (y <=? 9999)) with true
    by (symmetry; apply andb_true_intro; split; apply Z.leb_le; lia).
  match goal with
  | |- context [Js.slice0 10 (Js.pad 4 y ++ "-" ++ Js.pad 2 m ++ "-" ++ Js.pad 2 d ++ ?rest)] =>
      destruct (date_stamp y m d rest) as (E & L & D)
  end.
  destruct (random_suffix 6 (random_order env)) as [Ls Ds].
  do 2 eexists. split; [reflexivity|].
  split; [exact E|]. split; [exact L|]. split; [exact D|].
  split; [apply random_suffix_digits|]. split; assumption.
Qed.

(** the payment reference of line 140 *)
Lemma make_paymentReference_format (env : Env) :
  0 <= now_reference env ->
  exists millis suffix,
    make_paymentReference env = "PAY-" ++ millis ++ "-" ++ suffix
    /\ millis = Js.Number_toString (now_reference env)
    /\ Js.forall_chars Js.is_digit millis = true
    /\ suffix = Js.toUpperCase (Js.base36_digits (firstn 9 (random_reference env)))
    /\ String.length suffix = Nat.min 9 (List.length (random_reference env))
    /\ Js.forall_chars Js.is_upper_base36 suffix = true.
Proof.
  intros Hnow. unfold make_paymentReference.
  destruct (random_suffix 9 (random_reference env)) as [Ls Ds].
  do 2 eexists. split; [reflexivity|]. split; [reflexivity|].
  split; [apply Number_toString_digits; exact Hnow|].
  split; [apply random_suffix_digits|]. auto.
Qed.

(** C8, as the code has it.  For an accepted request, while the clock reads
    a time from 1970 through 9999, the order id is ORD-<YYYYMMDD>- followed
    by the first 6 fractional base-36 digits of the random draw in upper
    case, all of them when the draw has fewer, and the payment reference is
    PAY-<epoch millis>- followed by the first 9 such digits of its draw, all
    of them when the draw has fewer: at most 6 and 9 upper-case base-36
    characters, exactly 6 and 9 only when the draws have that many
    digits. *)
Theorem POST_identifiers_format (env : Env) (b : Body) (d : Db.DB)
    (resp : Response) (w : World Stmt) :
  POST env (Some b) d = (resp, w) ->
  status resp = 200 ->
  0 <= now_order env < 253402300800000 ->
  0 <= now_reference env ->
  exists booking_id ymd s6 millis s9,
    resp = success booking_id ("ORD-" ++ ymd ++ "-" ++ s6) ("PAY-" ++ millis ++ "-" ++ s9)
    /\ (exists booking, In booking (Db.bookings (db w))
                        /\ Db.Booking.id booking = booking_id
                        /\ Db.Booking.order_id booking = "ORD-" ++ ymd ++ "-" ++ s6
                        /\ Db.Booking.payment_reference booking
                           = "PAY-" ++ millis ++ "-" ++ s9)
    /\ ymd = (let '(y, m, d) := Js.civil_from_days (now_order env / Js.msPerDay) in
              Js.pad 4 y ++ Js.pad 2 m ++ Js.pad 2 d)
    /\ String.length ymd = 8%nat
    /\ Js.forall_chars Js.is_digit ymd = true
    /\ millis = Js.Number_toString (now_reference env)
    /\ Js.forall_chars Js.is_digit millis = true
    /\ String.length s6 = Nat.min 6 (List.length (random_order env))
    /\ Js.forall_chars Js.is_upper_base36 s6 = true
    /\ String.length s9 = Nat.min 9 (List.length (random_reference env))
    /\ Js.forall_chars Js.is_upper_base36 s9 = true
    /\ s6 = Js.toUpperCase (Js.base36_digits (firstn 6 (random_order env)))
    /\ s9 = Js.toUpperCase (Js.base36_digits (firstn 9 (random_reference env))).
Proof.
  intros H Hst Ho Hr.
  destruct (POST_accepted _ _ _ _ _ H Hst)
    as (userId & w1 & c & _ & _ & _ & _ & Hresp & Hrows).
  destruct (make_orderId_format env Ho)
    as (ymd & s6 & Eo & Eymd & Lymd & Dymd & E6 & L6 & D6).
  destruct (make_paymentReference_format env Hr)
    as (millis & s9 & Ep & Em & Dm & E9 & L9 & D9).
  rewrite Eo, Ep in Hresp, Hrows.
  eexists _, ymd, s6, millis, s9.
  split; [exact Hresp|]. split.
  { eexists. split; [rewrite Hrows; apply in_or_app; right; left; reflexivity|].
    cbn. auto. }
  repeat split; assumption.
Qed.

Lemma POST_identifiers_format_witness :
  exists booking_id ymd s6 millis s9,
    fst (POST Samples.env0 (Some Samples.request0) Samples.db0)
    = success booking_id ("ORD-" ++ ymd ++ "-" ++ s6) ("PAY-" ++ millis ++ "-" ++ s9)
    /\ String.length ymd = 8%nat
    /\ String.length s6 = Nat.min 6 11
    /\ String.length s9 = Nat.min 9 11
    /\ s6 = "7K3Z0B"%string
    /\ s9 = "U1E9R5XC2"%string.
Proof.
  destruct (POST_identifiers_format Samples.env0 Samples.request0 Samples.db0
              (fst (POST Samples.env0 (Some Samples.request0) Samples.db0))
              (snd (POST Samples.env0 (Some Samples.request0) Samples.db0))
              eq_refl eq_refl)
    as (i & ymd & s6 & millis & s9 & H1 & _ & _ & H2 & _ & _ & _ & H3 & _ & H4 & _
        & H5 & H6).
  - cbn. lia.
  - cbn. lia.
  - exists i, ymd, s6, millis, s9. repeat split; assumption.
Defined.

(** C8 as stated fails: when the first draw is the Number 0.5, which
    toString(36) renders "0.i", the accepted request gets the order id
    ORD-20240103-I, with one character after the date. *)
Lemma POST_order_id_short_suffix :
  Js.toString36 (random_order Samples.env_half) = "0.i"%string
  /\ fst (POST Samples.env_half (Some Samples.request0) Samples.db0)
     = success 1 "ORD-20240103-I" "PAY-1704283200123-U1E9R5XC2"
  /\ String.length "I" <> 6%nat.
Proof.
  split; [reflexivity|]. split; [vm_compute; reflexivity|]. cbn. discriminate.
Qed.

End IdentifierFacts.

(* ===================================================================== *)
(** ** Properties of the payment webhook handler *)
(* ===================================================================== *)

Section WebhookFacts.
Import Http Webhook.

(** the keyed digest, the JSON parser and the secret key of the deployment:
    every fact below holds whatever they are *)
Variable hmac_sha512_hex : string -> string -> string.
Variable JSON_parse : string -> option Js.JsVal.
Variable PAYSTACK_SECRET_KEY : string.

Local Abbreviation handler := (POST hmac_sha512_hex JSON_parse PAYSTACK_SECRET_KEY).

Lemma POST_genuine (env : Env) (request : Request) (d : Db.DB) :
  genuine hmac_sha512_hex PAYSTACK_SECRET_KEY request ->
  handler env request d
  = finish (bind (try (JSON_parse (raw_body request))) (handle_event env) (untouched d)).
Proof.
  intros (s & Hs & Hne & Heq). unfold handler, POST. rewrite Hs.
  destruct (String.eqb_spec s ""); [contradiction|].
  rewrite <- Heq, String.eqb_refl. reflexivity.
Qed.

Lemma is_string_false (v : Js.JsVal) (lit : string) :
  v <> Js.JStr lit -> Js.is_string v lit = false.
Proof.
  destruct v; cbn; try reflexivity.
  intros H. destruct (String.eqb_spec s lit); [subst; contradiction | reflexivity].
Qed.

Lemma webhook_query_eq {A} (env : Env) (st : Stmt) (q : Db.DB -> Db.Reply A)
    (w : World Stmt) :
  query env st q w
  = (inl (outcome env st q (db w)), {| db := db w; issued := issued w ++ [st] |}).
Proof.
  unfold query, send, outcome. destruct (failure env st); reflexivity.
Qed.

(** C3, as the code has it.  A request without the signature header, or
    with an empty one, is answered 400 [{error: "No signature provided"}];
    a request whose header differs from the hex digest of the raw body
    under the secret key is answered 401 [{error: "Invalid signature"}].
    In both cases the body is not parsed and no statement is sent. *)
Theorem POST_rejects_unsigned_and_forged (env : Env) (request : Request) (d : Db.DB) :
  (signature request = None \/ signature request = Some ""%string ->
     handler env request d
     = ({| status := 400; body := Js.JObj [("error", Js.JStr "No signature provided")] |},
        {| db := d; issued := [] |}))
  /\ (forall s, signature request = Some s -> s <> ""%string ->
               s <> hmac_sha512_hex PAYSTACK_SECRET_KEY (raw_body request) ->
     handler env request d
     = ({| status := 401; body := Js.JObj [("error", Js.JStr "Invalid signature")] |},
        {| db := d; issued := [] |})).
Proof.
  unfold handler, POST. split.
  - intros [H|H]; rewrite H; reflexivity.
  - intros s Hs Hne Hneq. rewrite Hs.
    destruct (String.eqb_spec s ""); [contradiction|].
    destruct (String.eqb_spec (hmac_sha512_hex PAYSTACK_SECRET_KEY (raw_body request)) s);
      [exfalso; apply Hneq; congruence | reflexivity].
Qed.

(** C10.  A genuine request whose body parses to an event of a type other
    than "charge.success" is answered 200 [{received: true}], and no
    statement is sent to the database. *)
Theorem POST_other_event_acknowledged (env : Env) (request : Request) (d : Db.DB)
    (event kind : Js.JsVal) :
  genuine hmac_sha512_hex PAYSTACK_SECRET_KEY request ->
  JSON_parse (raw_body request) = Some event ->
  Js.get event "event" = Some kind ->
  kind <> Js.JStr "charge.success" ->
  handler env request d
  = ({| status := 200; body := Js.JObj [("received", Js.JBool true)] |},
     {| db := d; issued := [] |}).
Proof.
  intros Hg Hp Hk Hne. rewrite (POST_genuine _ _ _ Hg).
  unfold handle_event, bind, try, ret.
  rewrite Hp; cbv beta iota. rewrite Hk; cbv beta iota.
  rewrite (is_string_false _ _ Hne). reflexivity.
Qed.

(** Line 39 runs to the end when the metadata carries a truthy [sessionId],
    or no [custom_fields], or a list of entries none of which is [null]. *)
Lemma sessionId_of_defined (metadata : Js.JsVal) :
  Js.truthy (Js.get_opt metadata "sessionId") = true
  \/ Js.get_opt metadata "custom_fields" = Js.JUndefined
  \/ Js.get_opt metadata "custom_fields" = Js.JNull
  \/ (exists fields, Js.get_opt metadata "custom_fields" = Js.JArr fields
                     /\ Forall (fun f => f <> Js.JNull /\ f <> Js.JUndefined) fields) ->
  exists sessionId, sessionId_of metadata = Some sessionId.
Proof.
  unfold sessionId_of. intros [H|H].
  - rewrite H. eexists; reflexivity.
  - destruct (Js.truthy (Js.get_opt metadata "sessionId")); [eexists; reflexivity|].
    destruct H as [->|[->|(fields & -> & Hall)]]; try (eexists; reflexivity).
    assert (Hfind : exists found, find_sessionId_field fields = Some found).
    { induction Hall as [|f fs [Hn Hu] _ IH]; cbn [find_sessionId_field].
      - eexists; reflexivity.
      - destruct f; try contradiction; cbn [Js.get];
          match goal with
          | |- context [Js.is_string ?v ?l] => destruct (Js.is_string v l)
          end; try (eexists; reflexivity); exact IH. }
    destruct Hfind as [found ->]. eexists; reflexivity.
Qed.

(** C4, as the code has it.  A genuine "charge.success" event whose data
    and metadata let lines 36-39 run to the end, and whose reference
    equals the reference of no payment row, is answered 200
    [{received: true}]; only the lookup is sent to the database. *)
Theorem POST_unknown_reference_acknowledged (env : Env) (request : Request) (d : Db.DB)
    (event data reference metadata sessionId : Js.JsVal) :
  genuine hmac_sha512_hex PAYSTACK_SECRET_KEY request ->
  JSON_parse (raw_body request) = Some event ->
  Js.get event "event" = Some (Js.JStr "charge.success") ->
  Js.get event "data" = Some data ->
  Js.get data "reference" = Some reference ->
  Js.get data "metadata" = Some metadata ->
  sessionId_of metadata = Some sessionId ->
  (forall p, In p (Db.payments d) ->
             Db.Payment.payment_reference p <> Js.String_ reference) ->
  handler env request d
  = ({| status := 200; body := Js.JObj [("received", Js.JBool true)] |},
     {| db := d; issued := [SelectPayment] |}).
Proof.
  intros Hg Hp Hk Hd Hr Hm Hs Hnone. rewrite (POST_genuine _ _ _ Hg).
  assert (Hsel : select_payment reference d = Db.rejected Db.no_rows).
  { unfold select_payment.
    assert (Hf : filter (fun p => String.eqb (Db.Payment.payment_reference p)
                                    (Js.String_ reference)) (Db.payments d) = []).
    { induction (Db.payments d) as [|p ps IH]; [reflexivity|]. cbn [filter].
      destruct (String.eqb_spec (Db.Payment.payment_reference p) (Js.String_ reference)) as [E|_].
      - exfalso. apply (Hnone p); [left; reflexivity | exact E].
      - apply IH. intros q Hq. apply Hnone. right. exact Hq. }
    rewrite Hf. reflexivity. }
  unfold handle_event, bind, try, ret.
  rewrite Hp; cbv beta iota. rewrite Hk; cbv beta iota.
  cbn [Js.is_string]. rewrite String.eqb_refl.
  rewrite Hd; cbv beta iota. rewrite Hr; cbv beta iota.
  rewrite Hm; cbv beta iota. rewrite Hs; cbv beta iota.
  rewrite webhook_query_eq. cbn [db issued untouched].
  unfold outcome. rewrite Hsel.
  destruct (failure env SelectPayment); reflexivity.
Qed.

End WebhookFacts.

Section WebhookExamples.
Import Http Webhook WebhookSamples.

Local Abbreviation handler := (POST digest parse secret env0).

Lemma POST_rejects_unsigned_and_forged_witness :
  handler (unsigned body_charge) Samples.db0
  = ({| status := 400; body := Js.JObj [("error", Js.JStr "No signature provided")] |},
     {| db := Samples.db0; issued := [] |})
  /\ handler (forged body_charge) Samples.db0
     = ({| status := 401; body := Js.JObj [("error", Js.JStr "Invalid signature")] |},
        {| db := Samples.db0; issued := [] |}).
Proof.
  destruct (POST_rejects_unsigned_and_forged digest parse secret env0
              (unsigned body_charge) Samples.db0) as [H1 _].
  destruct (POST_rejects_unsigned_and_forged digest parse secret env0
              (forged body_charge) Samples.db0) as [_ H2].
  split.
  - apply H1. left. reflexivity.
  - apply (H2 "00ff"%string); [reflexivity | discriminate | vm_compute; discriminate].
Defined.

(** C3 as stated fails: a request without the signature header is answered
    400, not 401. *)
Lemma POST_missing_signature_answered_400 :
  signature (unsigned body_charge) = None
  /\ fst (handler (unsigned body_charge) Samples.db0)
     = {| status := 400; body := Js.JObj [("error", Js.JStr "No signature provided")] |}
  /\ status (fst (handler (unsigned body_charge) Samples.db0)) <> 401.
Proof.
  repeat split. cbn. discriminate.
Qed.

Lemma signed_genuine (body : string) : genuine digest secret (signed body).
Proof.
  exists (digest secret body). repeat split.
  unfold digest, secret. cbn. discriminate.
Qed.

Lemma POST_other_event_acknowledged_witness :
  handler (signed body_subscription) Samples.db0
  = ({| status := 200; body := Js.JObj [("received", Js.JBool true)] |},
     {| db := Samples.db0; issued := [] |}).
Proof.
  apply (POST_other_event_acknowledged digest parse secret env0
           (signed body_subscription) Samples.db0
           event_subscription (Js.JStr "subscription.create")
           (signed_genuine body_subscription)).
  - vm_compute. reflexivity.
  - reflexivity.
  - discriminate.
Defined.

Lemma POST_unknown_reference_acknowledged_witness :
  handler (signed body_charge) Samples.db0
  = ({| status := 200; body := Js.JObj [("received", Js.JBool true)] |},
     {| db := Samples.db0; issued := [SelectPayment] |}).
Proof.
  apply (POST_unknown_reference_acknowledged digest parse secret env0
           (signed body_charge) Samples.db0 event_charge
           (Js.JObj [("reference", Js.JStr "PAY-404");
                     ("metadata", Js.JObj [("sessionId", Js.JStr "wa-233550001111")])])
           (Js.JStr "PAY-404")
           (Js.JObj [("sessionId", Js.JStr "wa-233550001111")])
           (Js.JStr "wa-233550001111")
           (signed_genuine body_charge)).
  - vm_compute. reflexivity.
  - reflexivity.
  - reflexivity.
  - reflexivity.
  - reflexivity.
  - reflexivity.
  - intros p [].
Defined.

(** C4 as stated fails: a genuine "charge.success" event with reference
    PAY-404, which no payment row carries, is answered 500 when its
    metadata holds custom_fields as one object: line 39 calls [find] on it
    and throws before the lookup. *)
Lemma POST_unknown_reference_answered_500 :
  genuine digest secret (signed body_charge_fields_object)
  /\ parse body_charge_fields_object = Some event_charge_fields_object
  /\ Js.get event_charge_fields_object "event" = Some (Js.JStr "charge.success")
  /\ Db.payments Samples.db0 = []
  /\ handler (signed body_charge_fields_object) Samples.db0
     = ({| status := 500; body := Js.JObj [("error", Js.JStr "Internal server error")] |},
        {| db := Samples.db0; issued := [] |}).
Proof.
  split; [apply signed_genuine|].
  split; [vm_compute; reflexivity|].
  split; [reflexivity|]. split; [reflexivity|].
  vm_compute. reflexivity.
Qed.

End WebhookExamples.


(* ===================================================================== *)
(** ** More on the payment webhook handler *)
(* ===================================================================== *)

Section WebhookReconciliation.
Import Http Webhook Reconcile.

Variable hmac_sha512_hex : string -> string -> string.
Variable JSON_parse : string -> option Js.JsVal.
Variable PAYSTACK_SECRET_KEY : string.

Local Abbreviation handler := (POST hmac_sha512_hex JSON_parse PAYSTACK_SECRET_KEY).

Opaque Js.toISOString.

Lemma webhook_exec_eq (env : Env) (st : Stmt) (f : Db.DB -> Db.DB) (w : World Stmt) :
  exec env st f w
  = (inl (failure env st),
     {| db := match failure env st with Some _ => db w | None => f (db w) end;
        issued := issued w ++ [st] |}).
Proof.
  unfold exec, send. destruct (failure env st); reflexivity.
Qed.

Lemma outcome_found {A} (env : Env) (st : Stmt) (q : Db.DB -> Db.Reply A) (d : Db.DB) (r : A) :
  Db.data (outcome env st q d) = Some r ->
  (exists rows, q d = Db.single rows) ->
  outcome env st q d = Db.ok r.
Proof.
  unfold outcome. destruct (failure env st); cbn; [discriminate|].
  intros H [rows E]. rewrite E in *.
  destruct rows as [|x [|y rest]]; cbn in *; inversion H; reflexivity.
Qed.

(** the handler on a "charge.success" event whose payment row is found *)
Lemma handle_event_found (env : Env) (event data reference metadata sessionId : Js.JsVal)
    (payment : Db.Payment.t) (w : World Stmt) :
  Js.get event "event" = Some (Js.JStr "charge.success") ->
  Js.get event "data" = Some data ->
  Js.get data "reference" = Some reference ->
  Js.get data "metadata" = Some metadata ->
  sessionId_of metadata = Some sessionId ->
  Db.data (outcome env SelectPayment (select_payment reference) (db w)) = Some payment ->
  handle_event env event w
  = (inl received,
     {| db := settled env reference sessionId payment (db w);
        issued := issued w ++ [SelectPayment; UpdatePayment; UpdateBooking]
                    ++ (if Js.truthy sessionId then [UpdateSession] else []) |}).
Proof.
  intros Hk Hd Hr Hm Hs Hp.
  destruct w as [[us cs bs ps ss] log]. cbn [db issued] in *.
  assert (Hok : outcome env SelectPayment (select_payment reference)
                  {| Db.users := us; Db.cars := cs; Db.bookings := bs;
                     Db.payments := ps; Db.sessions := ss |} = Db.ok payment).
  { apply outcome_found; [exact Hp|]. eexists. reflexivity. }
  unfold handle_event, bind, try, ret.
  rewrite Hk; cbv beta iota. cbn [Js.is_string]. rewrite String.eqb_refl.
  rewrite Hd; cbv beta iota. rewrite Hr; cbv beta iota.
  rewrite Hm; cbv beta iota. rewrite Hs; cbv beta iota.
  rewrite webhook_query_eq. cbn [db issued]. rewrite Hok. cbn [Db.error Db.data Db.ok].
  rewrite !webhook_exec_eq. cbn [db issued].
  unfold settled.
  destruct (Js.truthy sessionId).
  - rewrite webhook_exec_eq. cbn [db issued].
    f_equal. f_equal.
    + destruct (failure env UpdatePayment), (failure env UpdateBooking),
        (failure env UpdateSession); reflexivity.
    + rewrite <- !app_assoc. reflexivity.
  - f_equal. f_equal.
    + destruct (failure env UpdatePayment), (failure env UpdateBooking); reflexivity.
    + rewrite <- !app_assoc. reflexivity.
Qed.

Lemma map_update {A B} (g : A -> B) (p : A -> bool) (f : A -> A) (rows : list A) :
  (forall r, g (f r) = g r) -> map g (Db.update p f rows) = map g rows.
Proof.
  intros Hg. unfold Db.update. rewrite map_map. apply map_ext.
  intros r. destruct (p r); [apply Hg | reflexivity].
Qed.

Lemma update_update {A} (p : A -> bool) (f : A -> A) (rows : list A) :
  (forall r, p (f r) = p r) -> (forall r, f (f r) = f r) ->
  Db.update p f (Db.update p f rows) = Db.update p f rows.
Proof.
  intros Hp Hf. unfold Db.update. rewrite map_map. apply map_ext.
  intros r. destruct (p r) eqn:E.
  - rewrite Hp, E. apply Hf.
  - rewrite E. reflexivity.
Qed.

Lemma filter_update {A} (p : A -> bool) (f : A -> A) (rows : list A) :
  (forall r, p (f r) = p r) ->
  filter p (Db.update p f rows) = map f (filter p rows).
Proof.
  intros Hp. unfold Db.update. induction rows as [|r rs IH]; [reflexivity|].
  cbn [map filter]. destruct (p r) eqn:E.
  - rewrite Hp, E. cbn [map]. rewrite IH. reflexivity.
  - rewrite E. exact IH.
Qed.

Lemma In_update {A} (p : A -> bool) (f : A -> A) (rows : list A) (r : A) :
  In r (Db.update p f rows) ->
  exists old, In old rows /\ r = if p old then f old else old.
Proof.
  unfold Db.update. intros H. apply in_map_iff in H.
  destruct H as (old & E & Hin). exists old. auto.
Qed.

(** the whole request when the payment row of the event is found *)
Lemma POST_found_payment (env : Env) (request : Request) (d : Db.DB)
    (event data reference metadata sessionId : Js.JsVal) (payment : Db.Payment.t) :
  genuine hmac_sha512_hex PAYSTACK_SECRET_KEY request ->
  JSON_parse (raw_body request) = Some event ->
  Js.get event "event" = Some (Js.JStr "charge.success") ->
  Js.get event "data" = Some data ->
  Js.get data "reference" = Some reference ->
  Js.get data "metadata" = Some metadata ->
  sessionId_of metadata = Some sessionId ->
  Db.data (outcome env SelectPayment (select_payment reference) d) = Some payment ->
  handler env request d
  = (received,
     {| db := settled env reference sessionId payment d;
        issued := [SelectPayment; UpdatePayment; UpdateBooking]
                    ++ (if Js.truthy sessionId then [UpdateSession] else []) |}).
Proof.
  intros Hg Hp Hk Hd Hr Hm Hs Hf. rewrite (POST_genuine _ _ _ _ _ _ Hg).
  unfold bind at 1. rewrite Hp. cbn [try]. unfold ret at 1.
  rewrite (handle_event_found env event data reference metadata sessionId payment
             (untouched d) Hk Hd Hr Hm Hs Hf).
  reflexivity.
Qed.


(** X2.  When the database runs the updates, every payment row carrying the
    reference of the event is marked successful with the clock reading as
    paid-at, every booking of its order is marked paid, and the rows of
    other references and orders stay as they were. *)
Theorem POST_found_payment_marks_paid (env : Env) (request : Request) (d : Db.DB)
    (event data reference metadata sessionId : Js.JsVal) (payment : Db.Payment.t) :
  genuine hmac_sha512_hex PAYSTACK_SECRET_KEY request ->
  JSON_parse (raw_body request) = Some event ->
  Js.get event "event" = Some (Js.JStr "charge.success") ->
  Js.get event "data" = Some data ->
  Js.get data "reference" = Some reference ->
  Js.get data "metadata" = Some metadata ->
  sessionId_of metadata = Some sessionId ->
  Db.data (outcome env SelectPayment (select_payment reference) d) = Some payment ->
  failure env UpdatePayment = None ->
  failure env UpdateBooking = None ->
  let after := db (snd (handler env request d)) in
  (forall p, In p (Db.payments after) ->
             Db.Payment.payment_reference p = Js.String_ reference ->
             Db.Payment.status p = "success"%string
             /\ Db.Payment.paid_at p = Some (Js.toISOString (now_paid env)))
  /\ (forall p, In p (Db.payments d) ->
                Db.Payment.payment_reference p <> Js.String_ reference ->
                In p (Db.payments after))
  /\ (forall b, In b (Db.bookings after) ->
                Db.Booking.order_id b = Db.Payment.order_id payment ->
                Db.Booking.status b = "paid"%string
                /\ Db.Booking.payment_status b = "paid"%string)
  /\ (forall b, In b (Db.bookings d) ->
                Db.Booking.order_id b <> Db.Payment.order_id payment ->
                In b (Db.bookings after)).
Proof.
  intros Hg Hp Hk Hd Hr Hm Hs Hf Hup Hub.
  rewrite (POST_found_payment env request d event data reference metadata sessionId
             payment Hg Hp Hk Hd Hr Hm Hs Hf).
  cbn [fst snd db]. unfold settled. rewrite Hup, Hub.
  cbn [Db.payments Db.bookings].
  split; [|split; [|split]].
  - intros p Hin Href. apply In_update in Hin. destruct Hin as (old & _ & ->).
    unfold has_reference in *.
    destruct (String.eqb_spec (Db.Payment.payment_reference old) (Js.String_ reference))
      as [_|Hne]; [split; reflexivity | contradiction].
  - intros p Hin Hne. unfold Db.update. apply in_map_iff. exists p. split; [|exact Hin].
    unfold has_reference.
    destruct (String.eqb_spec (Db.Payment.payment_reference p) (Js.String_ reference));
      [contradiction | reflexivity].
  - intros b Hin Hord. apply In_update in Hin. destruct Hin as (old & _ & ->).
    unfold has_order in *.
    destruct (String.eqb_spec (Db.Booking.order_id old) (Db.Payment.order_id payment))
      as [_|Hne]; [split; reflexivity | contradiction].
  - intros b Hin Hne. unfold Db.update. apply in_map_iff. exists b. split; [|exact Hin].
    unfold has_order.
    destruct (String.eqb_spec (Db.Booking.order_id b) (Db.Payment.order_id payment));
      [contradiction | reflexivity].
Qed.

(** Every way the handling of a parsed event ends: an expression of lines
    35-39 throws, the event is of another type, the payment row is not
    found, or it is found and the updates are sent. *)
Lemma handle_event_cases (env : Env) (event : Js.JsVal) (w : World Stmt) :
  (handle_event env event w = (inr internal_error, w))
  \/ (exists kind, Js.get event "event" = Some kind
                   /\ Js.is_string kind "charge.success" = false
                   /\ handle_event env event w = (inl received, w))
  \/ (exists data reference metadata sessionId,
        Js.get event "event" = Some (Js.JStr "charge.success")
        /\ Js.get event "data" = Some data
        /\ Js.get data "reference" = Some reference
        /\ Js.get data "metadata" = Some metadata
        /\ sessionId_of metadata = Some sessionId
        /\ ((Db.data (outcome env SelectPayment (select_payment reference) (db w)) = None
             /\ handle_event env event w
                = (inr received, {| db := db w; issued := issued w ++ [SelectPayment] |}))
            \/ (exists payment,
                  Db.data (outcome env SelectPayment (select_payment reference) (db w))
                  = Some payment
                  /\ handle_event env event w
                     = (inl received,
                        {| db := settled env reference sessionId payment (db w);
                           issued := issued w
                                       ++ [SelectPayment; UpdatePayment; UpdateBooking]
                                       ++ (if Js.truthy sessionId then [UpdateSession]
                                           else []) |})))).
Proof.
  destruct (Js.get event "event") as [kind|] eqn:Hk.
  2:{ left. unfold handle_event, bind, try, respond. rewrite Hk. reflexivity. }
  destruct (Js.is_string kind "charge.success") eqn:Hc.
  2:{ right; left. exists kind. repeat split; try assumption.
      unfold handle_event, bind, try, ret. rewrite Hk; cbv beta iota. rewrite Hc.
      reflexivity. }
  assert (kind = Js.JStr "charge.success").
  { destruct kind; try discriminate Hc. cbn in Hc. apply String.eqb_eq in Hc.
    subst. reflexivity. }
  subst kind.
  destruct (Js.get event "data") as [data|] eqn:Hd.
  2:{ left. unfold handle_event, bind, try, ret, respond.
      rewrite Hk; cbv beta iota. rewrite Hc. rewrite Hd. reflexivity. }
  destruct (Js.get data "reference") as [reference|] eqn:Hr.
  2:{ left. unfold handle_event, bind, try, ret, respond.
      rewrite Hk; cbv beta iota. rewrite Hc. rewrite Hd; cbv beta iota.
      rewrite Hr. reflexivity. }
  destruct (Js.get data "metadata") as [metadata|] eqn:Hm.
  2:{ left. unfold handle_event, bind, try, ret, respond.
      rewrite Hk; cbv beta iota. rewrite Hc. rewrite Hd; cbv beta iota.
      rewrite Hr; cbv beta iota. rewrite Hm. reflexivity. }
  destruct (sessionId_of metadata) as [sessionId|] eqn:Hs.
  2:{ left. unfold handle_event, bind, try, ret, respond.
      rewrite Hk; cbv beta iota. rewrite Hc. rewrite Hd; cbv beta iota.
      rewrite Hr; cbv beta iota. rewrite Hm; cbv beta iota. rewrite Hs. reflexivity. }
  right; right. exists data, reference, metadata, sessionId.
  repeat (split; [assumption || reflexivity|]).
  destruct (Db.data (outcome env SelectPayment (select_payment reference) (db w)))
    as [payment|] eqn:Hp.
  - right. exists payment. split; [reflexivity|].
    exact (handle_event_found env event data reference metadata sessionId payment w
             Hk Hd Hr Hm Hs Hp).
  - left. split; [reflexivity|].
    unfold handle_event, bind, try, ret, respond.
    rewrite Hk; cbv beta iota. rewrite Hc. rewrite Hd; cbv beta iota.
    rewrite Hr; cbv beta iota. rewrite Hm; cbv beta iota. rewrite Hs; cbv beta iota.
    rewrite webhook_query_eq.
    destruct (outcome env SelectPayment (select_payment reference) (db w)) as [dt er] eqn:Ho.
    cbn [Db.data] in Hp. subst dt. cbn [Db.error Db.data].
    destruct er; reflexivity.
Qed.

(** Every way a request ends: before the event is handled, whatever the
    tables are, or by the handling of the parsed event. *)
Lemma POST_webhook_cases (env : Env) (request : Request) :
  (exists r, (forall d, handler env request d = (r, untouched d))
             /\ status r <> 200)
  \/ (genuine hmac_sha512_hex PAYSTACK_SECRET_KEY request
      /\ exists event, JSON_parse (raw_body request) = Some event
                       /\ forall d, handler env request d
                                    = finish (handle_event env event (untouched d))).
Proof.
  unfold POST.
  destruct (signature request) as [s|] eqn:Hs.
  2:{ left. eexists. split; [reflexivity|]. discriminate. }
  destruct (String.eqb_spec s "") as [->|Hne].
  { left. eexists. split; [reflexivity|]. discriminate. }
  destruct (String.eqb_spec (hmac_sha512_hex PAYSTACK_SECRET_KEY (raw_body request)) s)
    as [E|E].
  2:{ left. eexists. split; [reflexivity|]. discriminate. }
  cbn [negb].
  destruct (JSON_parse (raw_body request)) as [event|] eqn:Hp.
  - right. split; [exists s; repeat split; auto|].
    exists event. split; [reflexivity|]. intros d.
    unfold run, bind, try, ret. reflexivity.
  - left. eexists. split; [reflexivity|]. discriminate.
Qed.

Lemma settled_frame (env : Env) (reference sessionId : Js.JsVal) (payment : Db.Payment.t)
    (d : Db.DB) :
  let after := settled env reference sessionId payment d in
  Db.users after = Db.users d
  /\ Db.cars after = Db.cars d
  /\ map booking_terms (Db.bookings after) = map booking_terms (Db.bookings d)
  /\ map payment_terms (Db.payments after) = map payment_terms (Db.payments d)
  /\ map session_identity (Db.sessions after) = map session_identity (Db.sessions d).
Proof.
  cbv zeta. unfold settled. cbn [Db.users Db.cars Db.bookings Db.payments Db.sessions].
  split; [reflexivity|]. split; [reflexivity|]. split; [|split].
  - destruct (failure env UpdateBooking); [reflexivity|]. apply map_update. reflexivity.
  - destruct (failure env UpdatePayment); [reflexivity|]. apply map_update. reflexivity.
  - destruct (Js.truthy sessionId); [|reflexivity].
    destruct (failure env UpdateSession); [reflexivity|]. apply map_update. reflexivity.
Qed.

(** X3.  Whatever the request, the webhook leaves the users and the cars as
    they are, adds and removes no row, changes in a booking nothing but the
    two statuses (amounts, dates, owner and references stay), in a payment
    nothing but status and paid-at, and never the state of a session. *)
Theorem POST_webhook_preserves_terms (env : Env) (request : Request) (d : Db.DB) :
  let after := db (snd (handler env request d)) in
  Db.users after = Db.users d
  /\ Db.cars after = Db.cars d
  /\ map booking_terms (Db.bookings after) = map booking_terms (Db.bookings d)
  /\ map payment_terms (Db.payments after) = map payment_terms (Db.payments d)
  /\ map session_identity (Db.sessions after) = map session_identity (Db.sessions d).
Proof.
  cbv zeta.
  destruct (POST_webhook_cases env request) as [(r & E & _)|(_ & event & _ & E)];
    rewrite E.
  { cbn. repeat split; reflexivity. }
  destruct (handle_event_cases env event (untouched d))
    as [->|[(kind & _ & _ & ->)|(data & reference & metadata & sessionId & _ & _ & _ & _ & _
                                  & [(_ & ->)|(payment & _ & ->)])]];
    cbn [finish snd db untouched]; try (repeat split; reflexivity).
  apply settled_frame.
Qed.


Lemma settled_settled (env : Env) (reference sessionId : Js.JsVal)
    (payment payment' : Db.Payment.t) (d : Db.DB) :
  Db.Payment.order_id payment' = Db.Payment.order_id payment ->
  settled env reference sessionId payment' (settled env reference sessionId payment d)
  = settled env reference sessionId payment d.
Proof.
  intros Ho. unfold settled.
  cbn [Db.users Db.cars Db.bookings Db.payments Db.sessions]. rewrite Ho.
  f_equal.
  - destruct (failure env UpdateBooking); [reflexivity|].
    apply update_update; reflexivity.
  - destruct (failure env UpdatePayment); [reflexivity|].
    apply update_update; reflexivity.
  - destruct (Js.truthy sessionId); [|reflexivity].
    destruct (failure env UpdateSession); [reflexivity|].
    apply update_update; reflexivity.
Qed.

(** the lookup of a payment that was found finds it again after the updates *)
Lemma select_payment_settled (env : Env) (reference sessionId : Js.JsVal)
    (payment : Db.Payment.t) (d : Db.DB) :
  Db.data (outcome env SelectPayment (select_payment reference) d) = Some payment ->
  exists payment',
    Db.data (outcome env SelectPayment (select_payment reference)
               (settled env reference sessionId payment d)) = Some payment'
    /\ Db.Payment.order_id payment' = Db.Payment.order_id payment.
Proof.
  unfold outcome. destruct (failure env SelectPayment); [discriminate|].
  unfold select_payment, settled. cbn [Db.payments]. intros H.
  fold (has_reference reference) in *.
  assert (Hone : filter (has_reference reference) (Db.payments d) = [payment]).
  { destruct (filter (has_reference reference) (Db.payments d)) as [|x [|y rest]];
      cbn in H; inversion H; reflexivity. }
  destruct (failure env UpdatePayment).
  - exists payment. rewrite Hone. split; reflexivity.
  - exists (paid_payment env payment).
    rewrite filter_update by reflexivity. rewrite Hone. split; reflexivity.
Qed.

Lemma select_payment_payments (reference : Js.JsVal) (d d' : Db.DB) :
  Db.payments d' = Db.payments d -> select_payment reference d' = select_payment reference d.
Proof. unfold select_payment. intros ->. reflexivity. Qed.

Lemma handle_event_again (env : Env) (event : Js.JsVal) (d : Db.DB) :
  handle_event env event (untouched (db (snd (handle_event env event (untouched d)))))
  = (fst (handle_event env event (untouched d)),
     {| db := db (snd (handle_event env event (untouched d)));
        issued := issued (snd (handle_event env event (untouched d))) |}).
Proof.
  destruct (handle_event_cases env event (untouched d))
    as [H|[(kind & Hk & Hc & H)|(data & reference & metadata & sessionId & Hk & Hd & Hr
                                  & Hm & Hs & [(Hn & H)|(payment & Hf & H)])]];
    rewrite H; cbn [fst snd db issued untouched app]; try exact H.
  cbn [db untouched] in Hf.
  destruct (select_payment_settled env reference sessionId payment d Hf)
    as (payment' & Hf' & Ho).
  rewrite (handle_event_found env event data reference metadata sessionId payment'
             (untouched (settled env reference sessionId payment d))
             Hk Hd Hr Hm Hs Hf').
  cbn [db issued untouched app]. rewrite (settled_settled _ _ _ _ _ _ Ho). reflexivity.
Qed.

(** X5.  Delivering the same event again, with the same clock readings and
    the same statements rejected, gives the same response, sends the same
    statements and leaves the tables as the first delivery left them. *)
Theorem POST_webhook_redelivery (env : Env) (request : Request) (d : Db.DB) :
  handler env request (db (snd (handler env request d)))
  = (fst (handler env request d),
     {| db := db (snd (handler env request d));
        issued := issued (snd (handler env request d)) |}).
Proof.
  destruct (POST_webhook_cases env request) as [(r & E & _)|(_ & event & _ & E)];
    rewrite !E.
  { reflexivity. }
  pose proof (handle_event_again env event d) as H.
  destruct (handle_event env event (untouched d)) as [[x|x] w] eqn:H1;
    cbn [finish fst snd] in *; rewrite H; reflexivity.
Qed.

(** X6.  The session id of an event is the [sessionId] of its metadata when
    that is a non-empty value; otherwise it is the [value] of the first
    custom field named "sessionId". *)
Theorem sessionId_of_precedence (metadata : Js.JsVal) :
  (Js.truthy (Js.get_opt metadata "sessionId") = true ->
   sessionId_of metadata = Some (Js.get_opt metadata "sessionId"))
  /\ (forall before props after,
        Js.truthy (Js.get_opt metadata "sessionId") = false ->
        Js.get_opt metadata "custom_fields" = Js.JArr (before ++ Js.JObj props :: after) ->
        Forall (fun f => exists n, Js.get f "variable_name" = Some n
                                   /\ n <> Js.JStr "sessionId") before ->
        Js.lookup "variable_name" props = Js.JStr "sessionId" ->
        sessionId_of metadata = Some (Js.lookup "value" props)).
Proof.
  split.
  - intros Ht. unfold sessionId_of. rewrite Ht. reflexivity.
  - intros before props after Hf Hc Hall Hn. unfold sessionId_of. rewrite Hf, Hc.
    assert (Hfind : find_sessionId_field (before ++ Js.JObj props :: after)
                    = Some (Js.JObj props)).
    { clear Hc. induction Hall as [|f fs (n & Hg & Hne) _ IH]; cbn [app find_sessionId_field].
      - cbn [Js.get]. rewrite Hn. reflexivity.
      - rewrite Hg. rewrite (is_string_false _ _ Hne). exact IH. }
    rewrite Hfind. reflexivity.
Qed.

End WebhookReconciliation.

(* ===================================================================== *)
(** ** More on the booking creation handler *)
(* ===================================================================== *)

Section CreateOutcomes.
Import Http Create Commit.

Opaque make_orderId make_paymentReference Js.toISOString.

Lemma insert_eq {A} (env : Env) (st : Stmt) (f : Db.DB -> A * Db.DB) (w : World Stmt) :
  insert env st f w
  = match failure env st with
    | Some e => (inl (Db.rejected e), {| db := db w; issued := issued w ++ [st] |})
    | None => (inl (Db.ok (fst (f (db w)))),
               {| db := snd (f (db w)); issued := issued w ++ [st] |})
    end.
Proof.
  unfold insert, send. destruct (failure env st); [reflexivity|].
  destruct (f (db w)); reflexivity.
Qed.

(** the world a successful booking leaves *)
Lemma book_success (env : Env) (b : Body) (userId : Z) (w : World Stmt)
    (carData : Db.Car.t) :
  Db.data (outcome env SelectCar (select_car (text (car_id b))) (db w)) = Some carData ->
  failure env InsertBooking = None ->
  let orderId := make_orderId env in
  let paymentReference := make_paymentReference env in
  let row := booking_row b orderId paymentReference userId carData
               (Db.fresh_id Db.Booking.id (Db.bookings (db w))) in
  book env b userId w
  = (inl (success (Db.Booking.id row) orderId paymentReference),
     {| db :=
          {| Db.users := Db.users (db w);
             Db.cars := Db.cars (db w);
             Db.bookings := Db.bookings (db w) ++ [row];
             Db.payments :=
               match failure env InsertPayment with
               | Some _ => Db.payments (db w)
               | None => Db.payments (db w) ++ [payment_row env b orderId paymentReference]
               end;
             Db.sessions :=
               if present (sessionId b) then
                 match failure env UpdateSession with
                 | Some _ => Db.sessions (db w)
                 | None =>
                     Db.update
                       (fun s => String.eqb (Db.Session.whatsapp_id s) (text (sessionId b)))
                       (booked_session env orderId paymentReference (Db.Booking.id row))
                       (Db.sessions (db w))
                 end
               else Db.sessions (db w) |};
        issued := issued w ++ [SelectCar; InsertBooking; InsertPayment]
                    ++ (if present (sessionId b) then [UpdateSession] else []) |}).
Proof.
  intros Hcar Hins. cbv zeta.
  destruct w as [[us cs bs ps ss] log]. cbn [db issued] in *.
  unfold book. unfold bind at 1. rewrite query_eq. cbn [db issued]. rewrite Hcar.
  unfold bind at 1. rewrite insert_eq, Hins. cbn [fst snd db issued Db.error Db.data Db.ok].
  unfold bind at 1. rewrite exec_eq. cbn [db issued].
  unfold bind at 1.
  destruct (present (sessionId b)).
  - rewrite exec_eq. cbn [db issued]. unfold ret.
    f_equal. f_equal.
    + destruct (failure env InsertPayment), (failure env UpdateSession); reflexivity.
    + rewrite <- !app_assoc. reflexivity.
  - unfold ret. f_equal. f_equal.
    + destruct (failure env InsertPayment); reflexivity.
    + rewrite <- !app_assoc. reflexivity.
Qed.

Lemma present_false (o : option string) :
  present o = false <-> o = None \/ o = Some ""%string.
Proof.
  destruct o as [s|]; cbn.
  - destruct (String.eqb_spec s ""); cbn; split; intros H; subst; auto; try discriminate.
    destruct H as [H|H]; [discriminate | inversion H; contradiction].
  - split; auto.
Qed.

Lemma present_text (o : option string) : present o = true -> Some (text o) = o.
Proof. destruct o; [reflexivity | discriminate]. Qed.

Lemma present_patched (o : option string) (old : string) :
  present o = true -> Some (patched o old) = o.
Proof. destruct o; [reflexivity | discriminate]. Qed.

Lemma validated_false (b : Body) :
  validated b = false <-> exists f, In f (required b) /\ (f = None \/ f = Some ""%string).
Proof.
  unfold validated, required. split.
  - intros H.
    destruct (present (car_id b)) eqn:E1;
      [|exists (car_id b); split; [cbn; tauto | apply present_false; exact E1]].
    destruct (present (pickup_date b)) eqn:E2;
      [|exists (pickup_date b); split; [cbn; tauto | apply present_false; exact E2]].
    destruct (present (return_date b)) eqn:E3;
      [|exists (return_date b); split; [cbn; tauto | apply present_false; exact E3]].
    destruct (present (full_name b)) eqn:E4;
      [|exists (full_name b); split; [cbn; tauto | apply present_false; exact E4]].
    destruct (present (phone_number b)) eqn:E5;
      [|exists (phone_number b); split; [cbn; tauto | apply present_false; exact E5]].
    destruct (present (pickup_location b)) eqn:E6;
      [|exists (pickup_location b); split; [cbn; tauto | apply present_false; exact E6]].
    discriminate H.
  - intros (f & Hin & Hf). apply present_false in Hf.
    cbn in Hin.
    destruct Hin as [<-|[<-|[<-|[<-|[<-|[<-|[]]]]]]]; rewrite Hf;
      repeat rewrite ?andb_false_r, ?andb_false_l; reflexivity.
Qed.

(** X7.  Every response has status 200, 400, 404 or 500.  A request in
    which one of the six required fields is absent or the empty string is
    answered 400 [{error: "Missing required fields"}]; a request in which
    all six are non-empty strings is never answered 400. *)
Theorem POST_create_statuses (env : Env) (request : option Body) (d : Db.DB) :
  let resp := fst (POST env request d) in
  (status resp = 200 \/ status resp = 400 \/ status resp = 404 \/ status resp = 500)
  /\ (forall b, request = Some b ->
        ((exists f, In f (required b) /\ (f = None \/ f = Some ""%string)) ->
         resp = {| status := 400;
                   body := Js.JObj [("error", Js.JStr "Missing required fields")] |})
        /\ ((forall f, In f (required b) -> exists s, f = Some s /\ s <> ""%string) ->
            status resp <> 400)).
Proof.
  cbv zeta. destruct request as [b|].
  2:{ split; [cbn; auto | intros b Hb; discriminate Hb]. }
  destruct (validated b) eqn:Hv.
  - assert (Hst : status (fst (POST env (Some b) d)) = 200
                  \/ status (fst (POST env (Some b) d)) = 404
                  \/ status (fst (POST env (Some b) d)) = 500).
    { destruct (POST env (Some b) d) as [resp w] eqn:HP. cbn [fst].
      destruct (POST_cases _ _ _ _ _ Hv HP) as [[w1 [Hu _]]|[userId [w1 [x [Hu [Hb Hx]]]]]].
      - destruct (resolve_user_frame _ _ _ _ _ Hu) as (_ & _ & _ & _ & H500).
        right; right. apply H500. reflexivity.
      - destruct (book_cases _ _ _ _ _ _ Hb)
          as [(_ & -> & _)|[(c & _ & _ & -> & _)|(c & _ & _ & -> & _)]]; subst resp; cbn; auto. }
    split; [tauto|].
    intros b' Hb'. inversion Hb'; subst b'. split.
    + intros Hex. apply validated_false in Hex. congruence.
    + intros _ H400. destruct Hst as [H|[H|H]]; rewrite H in H400; discriminate.
  - rewrite (POST_not_validated _ _ _ Hv). cbn [fst]. split; [cbn; auto|].
    intros b' Hb'. inversion Hb'; subst b'. split.
    + intros _. reflexivity.
    + intros Hall. exfalso. apply validated_false in Hv.
      destruct Hv as (f & Hin & Hf). destruct (Hall f Hin) as (s & -> & Hs).
      destruct Hf as [Hf|Hf]; [discriminate Hf | inversion Hf; contradiction].
Qed.

(** X8.  A request that is not answered 200 leaves bookings, payments,
    sessions and cars as they were: nothing of a booking is stored unless
    the request succeeds. *)
Theorem POST_failure_stores_no_booking (env : Env) (request : option Body) (d : Db.DB) :
  status (fst (POST env request d)) <> 200 ->
  let after := db (snd (POST env request d)) in
  Db.bookings after = Db.bookings d
  /\ Db.payments after = Db.payments d
  /\ Db.sessions after = Db.sessions d
  /\ Db.cars after = Db.cars d.
Proof.
  cbv zeta. destruct request as [b|]; [|cbn; auto].
  destruct (validated b) eqn:Hv.
  2:{ rewrite (POST_not_validated _ _ _ Hv). cbn. auto. }
  destruct (POST env (Some b) d) as [resp w] eqn:HP. cbn [fst snd]. intros Hst.
  destruct (POST_cases _ _ _ _ _ Hv HP) as [[w1 [Hu ->]]|[userId [w1 [x [Hu [Hb Hx]]]]]];
    destruct (resolve_user_frame _ _ _ _ _ Hu) as (Hc & Hbk & Hp & Hs & _);
    cbn [db untouched] in *.
  - auto.
  - destruct (book_cases _ _ _ _ _ _ Hb)
      as [(_ & -> & Hdb & _)|[(c & _ & _ & -> & Hdb)|(c & _ & _ & -> & _)]].
    + rewrite Hdb. auto.
    + rewrite Hdb. auto.
    + subst resp. exfalso. apply Hst. reflexivity.
Qed.

(** lines 42-54: the user is known by the external-session id *)
Lemma resolve_user_known (env : Env) (b : Body) (w : World Stmt) (u : Db.User.t) :
  Db.data (outcome env SelectUserByWhatsapp
             (select_user_by_whatsapp (text (or_else (sessionId b) (phone_number b))))
             (db w)) = Some u ->
  present (full_name b) || present (email b) || present (phone_number b) = true ->
  resolve_user env b w
  = (inl (Db.User.id u),
     {| db :=
          match failure env UpdateUserContact with
          | Some _ => db w
          | None =>
              Db.set_users
                (Db.update (fun r => Db.User.id r =? Db.User.id u) (updated_contact b)
                   (Db.users (db w))) (db w)
          end;
        issued := issued w ++ [SelectUserByWhatsapp; UpdateUserContact] |}).
Proof.
  intros Hwa Hany. unfold resolve_user. unfold bind at 1. rewrite query_eq.
  cbn [db issued]. rewrite Hwa. rewrite Hany.
  unfold bind at 1. rewrite exec_eq. cbn [db issued]. unfold ret.
  rewrite <- app_assoc. reflexivity.
Qed.

(** lines 74-118: no user is found and the insert is run *)
Lemma resolve_user_new (env : Env) (b : Body) (w : World Stmt) :
  Db.data (outcome env SelectUserByWhatsapp
             (select_user_by_whatsapp (text (or_else (sessionId b) (phone_number b))))
             (db w)) = None ->
  Db.data (outcome env SelectUserByPhone
             (select_user_by_phone (text (phone_number b))) (db w)) = None ->
  failure env InsertUser = None ->
  let id := Db.fresh_id Db.User.id (Db.users (db w)) in
  resolve_user env b w
  = (inl id,
     {| db := Db.set_users (Db.users (db w) ++ [new_user b id]) (db w);
        issued := issued w ++ [SelectUserByWhatsapp; SelectUserByPhone; InsertUser] |}).
Proof.
  intros Hwa Hph Hins. cbv zeta. unfold resolve_user. unfold bind at 1. rewrite query_eq.
  cbn [db issued]. rewrite Hwa.
  unfold bind at 1. rewrite query_eq. cbn [db issued]. rewrite Hph.
  unfold bind at 1. rewrite insert_eq, Hins.
  cbn [fst snd db issued Db.error Db.data Db.ok]. unfold ret.
  rewrite <- !app_assoc. reflexivity.
Qed.

(** lines 87-110: no user is found and the insert is rejected *)
Lemma resolve_user_rejected (env : Env) (b : Body) (w : World Stmt) (e : Db.DbError) :
  Db.data (outcome env SelectUserByWhatsapp
             (select_user_by_whatsapp (text (or_else (sessionId b) (phone_number b))))
             (db w)) = None ->
  Db.data (outcome env SelectUserByPhone
             (select_user_by_phone (text (phone_number b))) (db w)) = None ->
  failure env InsertUser = Some e ->
  resolve_user env b w
  = if duplicate_key e then
      (match Db.data (outcome env SelectUserAgain
                        (select_user_by_whatsapp
                           (text (or_else (sessionId b) (phone_number b)))) (db w)) with
       | Some u => inl (Db.User.id u)
       | None => inr (create_user_failed e)
       end,
       {| db := db w;
          issued := issued w ++ [SelectUserByWhatsapp; SelectUserByPhone; InsertUser;
                                 SelectUserAgain] |})
    else
      (inr (create_user_failed e),
       {| db := db w;
          issued := issued w ++ [SelectUserByWhatsapp; SelectUserByPhone; InsertUser] |}).
Proof.
  intros Hwa Hph Hins. unfold resolve_user. unfold bind at 1. rewrite query_eq.
  cbn [db issued]. rewrite Hwa.
  unfold bind at 1. rewrite query_eq. cbn [db issued]. rewrite Hph.
  unfold bind at 1. rewrite insert_eq, Hins.
  cbn [fst snd db issued Db.error Db.data Db.rejected].
  unfold duplicate_key.
  destruct (String.eqb (Db.code e) "23505"
            || match Db.message e with
               | Some m => includes "duplicate" m
               | None => false
               end).
  - unfold bind at 1. rewrite query_eq. cbn [db issued].
    destruct (Db.data (outcome env SelectUserAgain _ (db w))); unfold ret, respond;
      rewrite <- !app_assoc; reflexivity.
  - unfold respond. rewrite <- !app_assoc. reflexivity.
Qed.

Lemma POST_after_user (env : Env) (b : Body) (d : Db.DB) (userId : Z) (w1 : World Stmt) :
  validated b = true ->
  resolve_user env b (untouched d) = (inl userId, w1) ->
  POST env (Some b) d = finish (book env b userId w1).
Proof.
  intros Hv Hu. rewrite (POST_validated _ _ _ Hv). unfold bind. rewrite Hu. reflexivity.
Qed.

Lemma POST_user_failed (env : Env) (b : Body) (d : Db.DB) (r : Response) (w1 : World Stmt) :
  validated b = true ->
  resolve_user env b (untouched d) = (inr r, w1) ->
  POST env (Some b) d = (r, w1).
Proof.
  intros Hv Hu. rewrite (POST_validated _ _ _ Hv). unfold bind. rewrite Hu. reflexivity.
Qed.

(** the bookings and users after the booking step *)
Lemma book_rows (env : Env) (b : Body) (userId : Z) (w : World Stmt) :
  let after := db (snd (finish (book env b userId w))) in
  Db.users after = Db.users (db w)
  /\ (forall booking, In booking (Db.bookings after) ->
                      In booking (Db.bookings (db w))
                      \/ Db.Booking.user_id booking = userId).
Proof.
  cbv zeta. destruct (book env b userId w) as [x w'] eqn:Hb.
  assert (Hw : snd (finish (x, w')) = w') by (destruct x; reflexivity).
  rewrite Hw. split; [exact (book_users _ _ _ _ _ _ Hb)|].
  intros booking Hin.
  destruct (book_cases _ _ _ _ _ _ Hb)
    as [(_ & _ & Hdb & _)|[(c & _ & _ & _ & Hdb)|(c & _ & _ & _ & Hrows & _)]].
  - left. rewrite Hdb in Hin. exact Hin.
  - left. rewrite Hdb in Hin. exact Hin.
  - rewrite Hrows in Hin. apply in_app_or in Hin.
    destruct Hin as [Hold|[Hnew|[]]]; [left; exact Hold | right].
    subst booking. reflexivity.
Qed.

(** X9.  When neither lookup returns a user and the database runs the
    insert, a user row with the external-session id, phone, name and email
    of the request is added and the request goes on under its key.  The row
    stays whatever happens next: a request for a car that is not found is
    answered 404 and has still created the user. *)
Theorem POST_creates_unknown_user (env : Env) (b : Body) (d : Db.DB) :
  validated b = true ->
  Db.data (outcome env SelectUserByWhatsapp
             (select_user_by_whatsapp (text (or_else (sessionId b) (phone_number b)))) d)
  = None ->
  Db.data (outcome env SelectUserByPhone (select_user_by_phone (text (phone_number b))) d)
  = None ->
  failure env InsertUser = None ->
  let after := db (snd (POST env (Some b) d)) in
  exists row,
    Db.users after = (Db.users d ++ [row])%list
    /\ Some (Db.User.whatsapp_id row) = or_else (sessionId b) (phone_number b)
    /\ Some (Db.User.phone row) = phone_number b
    /\ Some (Db.User.name row) = full_name b
    /\ Db.User.email row = or_none (email b)
    /\ (forall booking, In booking (Db.bookings after) ->
                        In booking (Db.bookings d)
                        \/ Db.Booking.user_id booking = Db.User.id row)
    /\ (Db.data (outcome env SelectCar (select_car (text (car_id b))) d) = None ->
        fst (POST env (Some b) d)
        = {| status := 404; body := Js.JObj [("error", Js.JStr "Car not found")] |}).
Proof.
  intros Hv Hwa Hph Hins. cbv zeta.
  pose proof (resolve_user_new env b (untouched d) Hwa Hph Hins) as Hu. cbv zeta in Hu.
  cbn [db issued untouched app] in Hu.
  rewrite (POST_after_user _ _ _ _ _ Hv Hu).
  destruct (book_rows env b (Db.fresh_id Db.User.id (Db.users d))
              {| db := Db.set_users (Db.users d ++ [new_user b (Db.fresh_id Db.User.id (Db.users d))]) d;
                 issued := [SelectUserByWhatsapp; SelectUserByPhone; InsertUser] |})
    as [Hus Hbk].
  exists (new_user b (Db.fresh_id Db.User.id (Db.users d))).
  split; [exact Hus|].
  assert (Hf : present (full_name b) = true /\ present (phone_number b) = true).
  { unfold validated in Hv. repeat (apply andb_prop in Hv; destruct Hv as [Hv ?]). auto. }
  destruct Hf as [Hn Hp].
  split.
  { cbn [new_user Db.User.whatsapp_id]. apply present_text. unfold or_else.
    destruct (present (sessionId b)) eqn:Hs; assumption. }
  split; [exact (present_text _ Hp)|].
  split; [exact (present_text _ Hn)|].
  split; [reflexivity|].
  split; [exact Hbk|].
  intros Hcar.
  assert (Hcars : Db.cars (Db.set_users
                             (Db.users d ++ [new_user b (Db.fresh_id Db.User.id (Db.users d))])
                             d) = Db.cars d) by reflexivity.
  destruct (book env b (Db.fresh_id Db.User.id (Db.users d)) _) as [x w'] eqn:Hb.
  destruct (book_cases _ _ _ _ _ _ Hb)
    as [(_ & -> & _)|[(c & Hc & _)|(c & Hc & _)]]; [reflexivity| |];
    cbv zeta in Hc; cbn [db] in Hc;
    rewrite (outcome_select_car _ _ _ _ Hcars) in Hc; congruence.
Qed.

Lemma validated_contact (b : Body) :
  validated b = true ->
  present (full_name b) = true /\ present (phone_number b) = true.
Proof.
  unfold validated. intros Hv.
  repeat (apply andb_prop in Hv; destruct Hv as [Hv ?]). auto.
Qed.

(** X10.  When the lookup by external-session id returns the user [u], the
    request goes on under the identity of [u] without a lookup by phone or
    an insert; once the database has run the update, the row of [u] carries
    the name and the phone number of the request, and its email when one
    was sent, and no row has changed its key or its external-session id. *)
Theorem POST_known_session_user (env : Env) (b : Body) (d : Db.DB) (u : Db.User.t) :
  validated b = true ->
  Db.data (outcome env SelectUserByWhatsapp
             (select_user_by_whatsapp (text (or_else (sessionId b) (phone_number b)))) d)
  = Some u ->
  let after := db (snd (POST env (Some b) d)) in
  exists w1,
    resolve_user env b (untouched d) = (inl (Db.User.id u), w1)
    /\ issued w1 = [SelectUserByWhatsapp; UpdateUserContact]
    /\ (forall booking, In booking (Db.bookings after) ->
                        In booking (Db.bookings d)
                        \/ Db.Booking.user_id booking = Db.User.id u)
    /\ map Db.User.id (Db.users after) = map Db.User.id (Db.users d)
    /\ map Db.User.whatsapp_id (Db.users after) = map Db.User.whatsapp_id (Db.users d)
    /\ (failure env UpdateUserContact = None ->
        forall r, In r (Db.users after) -> Db.User.id r = Db.User.id u ->
                  Some (Db.User.name r) = full_name b
                  /\ Some (Db.User.phone r) = phone_number b
                  /\ (present (email b) = true -> Db.User.email r = email b)).
Proof.
  intros Hv Hwa. cbv zeta.
  destruct (validated_contact b Hv) as [Hn Hp].
  assert (Hany : present (full_name b) || present (email b) || present (phone_number b) = true)
    by (rewrite Hn; reflexivity).
  pose proof (resolve_user_known env b (untouched d) u Hwa Hany) as Hu.
  cbn [db issued untouched app] in Hu.
  eexists. split; [exact Hu|]. split; [reflexivity|].
  rewrite (POST_after_user _ _ _ _ _ Hv Hu).
  match goal with
  | |- context [book env b (Db.User.id u) ?w] =>
      destruct (book_rows env b (Db.User.id u) w) as [Hus Hbk]
  end.
  cbn [db] in Hus, Hbk. rewrite Hus. clear Hus Hu.
  destruct (failure env UpdateUserContact) as [err|].
  - split; [exact Hbk|]. split; [reflexivity|]. split; [reflexivity|].
    intros Hupd. discriminate Hupd.
  - cbn [Db.users Db.bookings Db.set_users] in *.
    split; [exact Hbk|].
    split; [apply map_update; reflexivity|].
    split; [apply map_update; reflexivity|].
    intros _ r Hin Hid.
    apply In_update in Hin. destruct Hin as (old & _ & ->).
    destruct (Z.eqb_spec (Db.User.id old) (Db.User.id u)) as [_|Hne]; [|contradiction].
    cbn [updated_contact Db.User.name Db.User.phone Db.User.email].
    unfold or_none, or_else. rewrite Hn, Hp. cbn [patched].
    split; [exact (present_patched _ _ Hn)|]. split; [exact (present_patched _ _ Hp)|].
    intros He. rewrite He. destruct (email b); [reflexivity | discriminate He].
Qed.

(** X11.  When no user is found and the insert is rejected, the handler
    reads the user again only if the error is a uniqueness violation (code
    23505 or a message containing "duplicate"): a user found then is the
    identity of the request and no row is written; in every other case the
    request ends with 500 and the message of the database error. *)
Theorem POST_user_insert_rejected (env : Env) (b : Body) (d : Db.DB) (e : Db.DbError) :
  validated b = true ->
  Db.data (outcome env SelectUserByWhatsapp
             (select_user_by_whatsapp (text (or_else (sessionId b) (phone_number b)))) d)
  = None ->
  Db.data (outcome env SelectUserByPhone (select_user_by_phone (text (phone_number b))) d)
  = None ->
  failure env InsertUser = Some e ->
  let again :=
    Db.data (outcome env SelectUserAgain
               (select_user_by_whatsapp (text (or_else (sessionId b) (phone_number b)))) d) in
  (forall u, duplicate_key e = true -> again = Some u ->
     exists w1,
       resolve_user env b (untouched d) = (inl (Db.User.id u), w1)
       /\ db w1 = d
       /\ POST env (Some b) d = finish (book env b (Db.User.id u) w1))
  /\ (duplicate_key e = true -> again = None ->
      POST env (Some b) d
      = ({| status := 500;
            body := Js.JObj [("error",
                              Js.JStr ("Failed to create user: " ++ text (Db.message e)))] |},
         {| db := d;
            issued := [SelectUserByWhatsapp; SelectUserByPhone; InsertUser;
                       SelectUserAgain] |}))
  /\ (duplicate_key e = false ->
      POST env (Some b) d
      = ({| status := 500;
            body := Js.JObj [("error",
                              Js.JStr ("Failed to create user: " ++ text (Db.message e)))] |},
         {| db := d;
            issued := [SelectUserByWhatsapp; SelectUserByPhone; InsertUser] |})).
Proof.
  intros Hv Hwa Hph Hins. cbv zeta.
  pose proof (resolve_user_rejected env b (untouched d) e Hwa Hph Hins) as Hu.
  cbn [db issued untouched app] in Hu.
  split; [|split].
  - intros u Hdup Hagain. rewrite Hdup, Hagain in Hu.
    eexists. split; [exact Hu|]. split; [reflexivity|].
    exact (POST_after_user _ _ _ _ _ Hv Hu).
  - intros Hdup Hagain. rewrite Hdup, Hagain in Hu.
    exact (POST_user_failed _ _ _ _ _ Hv Hu).
  - intros Hdup. rewrite Hdup in Hu.
    exact (POST_user_failed _ _ _ _ _ Hv Hu).
Qed.

(** user resolution sends statements about users only *)
Lemma resolve_user_log (env : Env) (b : Body) (w w' : World Stmt) x :
  resolve_user env b w = (x, w') ->
  ~ In UpdateSession (issued w) -> ~ In UpdateSession (issued w').
Proof.
  unfold resolve_user. unfold bind, query, exec, insert, send, ret, respond. intros H Hno.
  repeat match goal with
         | H : (_, _) = (_, _) |- _ => inversion H; subst; clear H
         | H : context [match ?x with _ => _ end] |- _ => destruct x eqn:?
         | H : context [if ?x then _ else _] |- _ => destruct x eqn:?
         end;
    cbn [issued]; rewrite ?in_app_iff; cbn [In]; intuition discriminate.
Qed.

(** the world an accepted request leaves *)
Lemma POST_accepted_world (env : Env) (b : Body) (d : Db.DB) :
  status (fst (POST env (Some b) d)) = 200 ->
  exists userId w1 carData,
    validated b = true
    /\ resolve_user env b (untouched d) = (inl userId, w1)
    /\ Db.bookings (db w1) = Db.bookings d
    /\ Db.payments (db w1) = Db.payments d
    /\ Db.sessions (db w1) = Db.sessions d
    /\ Db.data (outcome env SelectCar (select_car (text (car_id b))) (db w1)) = Some carData
    /\ failure env InsertBooking = None
    /\ POST env (Some b) d = finish (book env b userId w1).
Proof.
  intros Hst. destruct (POST env (Some b) d) as [resp w] eqn:HP. cbn [fst] in Hst.
  destruct (POST_accepted _ _ _ _ _ HP Hst)
    as (userId & w1 & c & Hv & Hu & Hc & Hins & _).
  destruct (resolve_user_frame _ _ _ _ _ Hu) as (_ & Hbk & Hp & Hs & _).
  cbn [db untouched] in *.
  exists userId, w1, c. repeat split; try assumption.
  rewrite <- HP. exact (POST_after_user _ _ _ _ _ Hv Hu).
Qed.

(** X12.  An accepted request stores one booking whose key, order id and
    payment reference are those of the response, paid in full: the deposit
    is the total and the balance is 0.  When the database runs the payment
    insert, one payment row of the same order id, reference and amount is
    stored as a successful manual payment in GHS; when it rejects the
    insert, no payment row is stored. *)
Theorem POST_accepted_rows_agree (env : Env) (b : Body) (d : Db.DB) :
  status (fst (POST env (Some b) d)) = 200 ->
  let after := db (snd (POST env (Some b) d)) in
  exists booking,
    Db.bookings after = (Db.bookings d ++ [booking])%list
    /\ body (fst (POST env (Some b) d))
       = Js.JObj [("success", Js.JBool true);
                  ("booking_id", Js.JNum (Db.Booking.id booking));
                  ("order_id", Js.JStr (Db.Booking.order_id booking));
                  ("payment_reference", Js.JStr (Db.Booking.payment_reference booking))]
    /\ Db.Booking.deposit_amount booking = Db.Booking.total_amount booking
    /\ Db.Booking.balance_amount booking = 0
    /\ Db.Booking.status booking = "paid"%string
    /\ Db.Booking.payment_status booking = "paid"%string
    /\ (failure env InsertPayment <> None -> Db.payments after = Db.payments d)
    /\ (failure env InsertPayment = None ->
        exists payment,
          Db.payments after = (Db.payments d ++ [payment])%list
          /\ Db.Payment.order_id payment = Db.Booking.order_id booking
          /\ Db.Payment.payment_reference payment = Db.Booking.payment_reference booking
          /\ Db.Payment.provider_reference payment = Db.Booking.payment_reference booking
          /\ Db.Payment.amount payment = Db.Booking.total_amount booking
          /\ Db.Payment.status payment = "success"%string
          /\ Db.Payment.provider payment = "manual"%string
          /\ Db.Payment.currency payment = "GHS"%string).
Proof.
  intros Hst. cbv zeta.
  destruct (POST_accepted_world env b d Hst)
    as (userId & w1 & c & Hv & Hu & Hbk & Hp & Hs & Hc & Hins & HP).
  rewrite HP. pose proof (book_success env b userId w1 c Hc Hins) as Hb. cbv zeta in Hb.
  rewrite Hb. cbn [finish fst snd db body success json Db.bookings Db.payments].
  rewrite Hbk, Hp.
  eexists. split; [reflexivity|].
  cbn [booking_row Db.Booking.id Db.Booking.order_id Db.Booking.payment_reference
         Db.Booking.deposit_amount Db.Booking.total_amount Db.Booking.balance_amount
         Db.Booking.status Db.Booking.payment_status].
  repeat (split; [reflexivity|]).
  split.
  - intros Hrej. destruct (failure env InsertPayment); [reflexivity | contradiction].
  - intros ->. eexists. split; [reflexivity|]. cbn. repeat split; reflexivity.
Qed.

(** X13.  An accepted request that carries a session id sends the session
    update: once the database has run it, every session of that id is in
    state BOOKED with the booking key, order id and payment reference of the
    response as its data, and the other sessions are as they were.  A
    request without a session id sends no session update and leaves every
    session as it was. *)
Theorem POST_accepted_session_patch (env : Env) (b : Body) (d : Db.DB) :
  status (fst (POST env (Some b) d)) = 200 ->
  let resp := fst (POST env (Some b) d) in
  let after := db (snd (POST env (Some b) d)) in
  (present (sessionId b) = false ->
     Db.sessions after = Db.sessions d
     /\ ~ In UpdateSession (issued (snd (POST env (Some b) d))))
  /\ (forall sid, sessionId b = Some sid -> sid <> ""%string ->
        In UpdateSession (issued (snd (POST env (Some b) d)))
        /\ map Db.Session.whatsapp_id (Db.sessions after)
           = map Db.Session.whatsapp_id (Db.sessions d)
        /\ (forall s, In s (Db.sessions d) -> Db.Session.whatsapp_id s <> sid ->
                      In s (Db.sessions after))
        /\ (failure env UpdateSession = None ->
            forall s, In s (Db.sessions after) -> Db.Session.whatsapp_id s = sid ->
                      Db.Session.session_state s = "BOOKED"%string
                      /\ Js.get (body resp) "booking_id"
                         = Js.get (Db.Session.session_data s) "booking_id"
                      /\ Js.get (body resp) "order_id"
                         = Js.get (Db.Session.session_data s) "order_id"
                      /\ Js.get (body resp) "payment_reference"
                         = Js.get (Db.Session.session_data s) "payment_reference"
                      /\ Js.get (Db.Session.session_data s) "booking_completed"
                         = Some (Js.JBool true))).
Proof.
  intros Hst. cbv zeta.
  destruct (POST_accepted_world env b d Hst)
    as (userId & w1 & c & Hv & Hu & Hbk & Hp & Hs & Hc & Hins & HP).
  rewrite HP. pose proof (book_success env b userId w1 c Hc Hins) as Hb. cbv zeta in Hb.
  rewrite Hb. cbn [finish fst snd db issued body success json Db.sessions].
  rewrite Hs.
  assert (Hlog : ~ In UpdateSession (issued w1)).
  { apply (resolve_user_log _ _ _ _ _ Hu). cbn. tauto. }
  split.
  - intros Hno. rewrite Hno. split; [reflexivity|].
    intros Hin. rewrite !in_app_iff in Hin. cbn [In] in Hin.
    intuition discriminate.
  - intros sid Hsid Hne.
    assert (Hyes : present (sessionId b) = true).
    { rewrite Hsid. cbn. destruct (String.eqb_spec sid ""); [contradiction | reflexivity]. }
    rewrite Hyes. rewrite Hsid. cbn [text].
    split.
    { apply in_or_app. right. cbn. auto. }
    destruct (failure env UpdateSession) as [err|].
    + split; [reflexivity|]. split; [auto|]. intros Hupd. discriminate Hupd.
    + split; [apply map_update; reflexivity|].
      split.
      { intros s Hin Hother. unfold Db.update. apply in_map_iff. exists s.
        split; [|exact Hin].
        destruct (String.eqb_spec (Db.Session.whatsapp_id s) sid); [contradiction|reflexivity]. }
      intros _ s Hin Hmine. apply In_update in Hin. destruct Hin as (old & _ & ->).
      destruct (String.eqb_spec (Db.Session.whatsapp_id old) sid) as [_|Hother];
        [|contradiction].
      cbn. repeat split; reflexivity.
Qed.

End CreateOutcomes.

(* ===================================================================== *)
(** ** The wizard from the first step to the request *)
(* ===================================================================== *)

Section WizardSteps.
Import WizardFlow.

(** the browser's reading of dates, its [trim] and its next local day:
    every fact below holds whatever they are *)
Variable getTime : string -> option Z.
Variable trim : string -> string.
Variable next_local_day : Z -> Z.

Local Abbreviation react := (WizardFlow.react getTime trim next_local_day).
Local Abbreviation run := (WizardFlow.run getTime trim next_local_day).
Local Abbreviation step_invariant := (WizardFlow.step_invariant getTime trim).
Local Abbreviation submit := (WizardFlow.submit getTime).
Local Abbreviation payload := (WizardFlow.payload getTime).

Lemma react_invariant (st : State) (ev : Event) (st' : State) :
  step_invariant st ->
  react st ev = Booking st' ->
  step_invariant st'
  /\ car (bookingData st') = car (bookingData st)
  /\ Z.abs (currentStep st' - currentStep st) <= 1.
Proof.
  intros (Hrange & Hcar & H2 & H3) Hr.
  unfold WizardFlow.step_invariant.
  destruct ev; cbn [WizardFlow.react] in Hr.
  - (* pickup date *)
    destruct (Z.eqb_spec (currentStep st) 1) as [E|E]; inversion Hr; subst st'; clear Hr;
      cbn [with_form currentStep bookingData onPickupChange car];
      repeat split; try lia; try assumption.
  - destruct (Z.eqb_spec (currentStep st) 1) as [E|E]; inversion Hr; subst st'; clear Hr;
      cbn [with_form currentStep bookingData car];
      repeat split; try lia; try assumption.
  - destruct (Z.eqb_spec (currentStep st) 2) as [E|E]; inversion Hr; subst st'; clear Hr;
      cbn [with_form currentStep bookingData car];
      repeat split; try lia; try assumption.
  - destruct (Z.eqb_spec (currentStep st) 2) as [E|E]; inversion Hr; subst st'; clear Hr;
      cbn [with_form currentStep bookingData car];
      repeat split; try lia; try assumption.
  - destruct (Z.eqb_spec (currentStep st) 2) as [E|E]; inversion Hr; subst st'; clear Hr;
      cbn [with_form currentStep bookingData car];
      repeat split; try lia; try assumption.
  - destruct (Z.eqb_spec (currentStep st) 2) as [E|E]; inversion Hr; subst st'; clear Hr;
      cbn [with_form currentStep bookingData car];
      repeat split; try lia; try assumption.
  - (* next *)
    destruct (Z.ltb_spec (currentStep st) 3) as [L|L]; inversion Hr; subst st'; clear Hr.
    2:{ repeat split; try lia; try assumption. }
    unfold handleNext.
    destruct (Z.eqb_spec (currentStep st) 1) as [E1|E1]; cbn [andb].
    + destruct (canProceedToStep2 getTime (bookingData st)) eqn:G.
      * cbn [currentStep bookingData]. repeat split; try lia; try assumption.
        intros _. exact G.
      * destruct (Z.eqb_spec (currentStep st) 2); [lia|]. cbn [andb].
        repeat split; try lia; try assumption.
    + destruct (Z.eqb_spec (currentStep st) 2) as [E2|E2]; cbn [andb].
      * destruct (canProceedToStep3 trim (bookingData st)) eqn:G.
        -- cbn [currentStep bookingData]. repeat split; try lia; try assumption.
           ++ intros _. apply H2. lia.
           ++ intros _. exact G.
        -- repeat split; try lia; try assumption.
      * repeat split; try lia; try assumption.
  - (* back *)
    unfold handleBack in Hr.
    destruct (Z.gtb_spec (currentStep st) 1) as [G|G]; inversion Hr; subst st'; clear Hr.
    cbn [currentStep bookingData]. repeat split; try lia; try assumption.
    intros Hge. apply H2. lia.
Qed.

Lemma run_invariant (events : list Event) (st st' : State) :
  step_invariant st ->
  run (Booking st) events = Booking st' ->
  step_invariant st' /\ car (bookingData st') = car (bookingData st).
Proof.
  revert st. induction events as [|ev rest IH]; intros st Hinv Hrun.
  - cbn in Hrun. inversion Hrun; subst. auto.
  - cbn [WizardFlow.run] in Hrun.
    destruct (react st ev) as [st1|] eqn:Hr.
    + destruct (react_invariant st ev st1 Hinv Hr) as (Hinv1 & Hcar1 & _).
      destruct (IH st1 Hinv1 Hrun) as [Hinv' Hcar'].
      split; [exact Hinv'|congruence].
    + destruct rest; cbn in Hrun; discriminate Hrun.
Qed.

(** the wizard opens on the car of the address *)
Lemma fetchCar_opens (rejection : option Db.DbError) (carId : option string) (d : Db.DB)
    (st : State) :
  fetchCar rejection carId d = Booking st ->
  exists id row,
    carId = Some id /\ id <> ""%string
    /\ In row (Db.cars d)
    /\ Db.Car.car_id row = id
    /\ Db.Car.status row = "active"%string
    /\ st = {| currentStep := 1;
               bookingData :=
                 {| car := Some {| Wizard.car_id := id;
                                   Wizard.name := Db.Car.name row;
                                   Wizard.daily_rate := Db.Car.daily_rate row |};
                    pickupDate := ""; returnDate := ""; fullName := "";
                    phoneNumber := ""; email := ""; pickupLocation := "" |} |}.
Proof.
  unfold fetchCar. destruct carId as [id|]; [|discriminate].
  destruct (String.eqb_spec id "") as [|Hne]; [discriminate|].
  destruct rejection; [discriminate|].
  destruct (Db.data (Db.single _)) as [row|] eqn:Hsel; [|discriminate].
  intros H. inversion H; subst st; clear H.
  apply single_data in Hsel.
  assert (Hin : In row (filter (fun c => String.eqb (Db.Car.car_id c) id
                                         && String.eqb (Db.Car.status c) "active")
                          (Db.cars d))) by (rewrite Hsel; left; reflexivity).
  apply filter_In in Hin. destruct Hin as [Hin Hp].
  apply andb_prop in Hp. destruct Hp as [Hid Hact].
  apply String.eqb_eq in Hid. apply String.eqb_eq in Hact.
  exists id, row. subst id. repeat split; auto.
Qed.

(** X14.  The wizard opens only for a car id that exactly one active car
    carries, at step 1 with an empty form; without a car id, on a rejected
    query or on a miss the browser goes back to the catalog. *)
Theorem fetchCar_only_active_car (rejection : option Db.DbError) (carId : option string)
    (d : Db.DB) :
  (forall st, fetchCar rejection carId d = Booking st ->
     currentStep st = 1
     /\ exists row,
          filter (fun c => String.eqb (Db.Car.car_id c) (Create.text carId)
                           && String.eqb (Db.Car.status c) "active") (Db.cars d) = [row]
          /\ Db.Car.status row = "active"%string
          /\ Some (Db.Car.car_id row) = carId
          /\ car (bookingData st)
             = Some {| Wizard.car_id := Db.Car.car_id row;
                       Wizard.name := Db.Car.name row;
                       Wizard.daily_rate := Db.Car.daily_rate row |})
  /\ (carId = None \/ carId = Some ""%string \/ rejection <> None
      \/ (forall row, In row (Db.cars d) -> Db.Car.car_id row = Create.text carId ->
                      Db.Car.status row <> "active"%string) ->
      fetchCar rejection carId d = Home).
Proof.
  split.
  - intros st H. unfold fetchCar in H. destruct carId as [id|]; [|discriminate].
    destruct (String.eqb_spec id "") as [|Hne]; [discriminate|].
    destruct rejection; [discriminate|].
    destruct (Db.data (Db.single _)) as [row|] eqn:Hsel; [|discriminate].
    inversion H; subst st; clear H. cbn [currentStep bookingData car Create.text].
    split; [reflexivity|].
    apply single_data in Hsel. exists row. split; [exact Hsel|].
    assert (Hin : In row (filter (fun c => String.eqb (Db.Car.car_id c) id
                                           && String.eqb (Db.Car.status c) "active")
                            (Db.cars d))) by (rewrite Hsel; left; reflexivity).
    apply filter_In in Hin. destruct Hin as [_ Hp].
    apply andb_prop in Hp. destruct Hp as [Hid Hact].
    apply String.eqb_eq in Hid. apply String.eqb_eq in Hact.
    repeat split; congruence.
  - unfold fetchCar. intros [->|[->|[Hrej|Hnone]]]; try reflexivity.
    + destruct carId as [id|]; [|reflexivity].
      destruct (String.eqb id ""); [reflexivity|].
      destruct rejection; [reflexivity | contradiction].
    + destruct carId as [id|]; [|reflexivity].
      destruct (String.eqb id ""); [reflexivity|].
      destruct rejection; [reflexivity|].
      cbn [Create.text] in Hnone.
      assert (Hf : filter (fun c => String.eqb (Db.Car.car_id c) id
                                    && String.eqb (Db.Car.status c) "active") (Db.cars d) = []).
      { induction (Db.cars d) as [|c cs IH]; [reflexivity|]. cbn [filter].
        destruct (String.eqb_spec (Db.Car.car_id c) id) as [E|E]; cbn [andb].
        - destruct (String.eqb_spec (Db.Car.status c) "active") as [A|A].
          + exfalso. exact (Hnone c (or_introl eq_refl) E A).
          + apply IH. intros row Hin. apply Hnone. right. exact Hin.
        - apply IH. intros row Hin. apply Hnone. right. exact Hin. }
      rewrite Hf. reflexivity.
Qed.

Lemma initial_invariant (rejection : option Db.DbError) (carId : option string) (d : Db.DB)
    (st : State) :
  fetchCar rejection carId d = Booking st -> step_invariant st.
Proof.
  intros H. destruct (fetchCar_opens _ _ _ _ H) as (id & row & _ & _ & _ & _ & _ & ->).
  unfold WizardFlow.step_invariant. cbn [currentStep bookingData car].
  repeat split; try lia. eexists; reflexivity.
Qed.

Lemma canProceedToStep2_read (f : Form) :
  canProceedToStep2 getTime f = true ->
  pickupDate f <> ""%string /\ returnDate f <> ""%string
  /\ exists tp tr, getTime (pickupDate f) = Some tp
                   /\ getTime (returnDate f) = Some tr
                   /\ tp < tr.
Proof.
  unfold canProceedToStep2. intros H.
  apply andb_prop in H. destruct H as [H Hcmp].
  apply andb_prop in H. destruct H as [Hp Hr].
  apply negb_true_iff, String.eqb_neq in Hp, Hr.
  split; [exact Hp|]. split; [exact Hr|].
  destruct (getTime (returnDate f)) as [tr|]; [|discriminate Hcmp].
  destruct (getTime (pickupDate f)) as [tp|]; [|discriminate Hcmp].
  exists tp, tr. repeat split. apply Z.gtb_lt in Hcmp. lia.
Qed.

(** X15.  However the customer uses the controls, and whatever the browser
    reads as a date or trims, the wizard is at step 1, 2 or 3 and moves one
    step at a time; it is beyond step 1 only with two dates that the browser
    reads and of which the return is the later, and at step 3 only with a
    name, a phone number and an email that are not blank and a pickup
    location; the car never changes. *)
Theorem wizard_steps_guarded (rejection : option Db.DbError) (carId : option string)
    (d : Db.DB) (st0 st : State) (events : list Event) :
  fetchCar rejection carId d = Booking st0 ->
  run (Booking st0) events = Booking st ->
  1 <= currentStep st <= 3
  /\ car (bookingData st) = car (bookingData st0)
  /\ (2 <= currentStep st ->
      exists tp tr, getTime (pickupDate (bookingData st)) = Some tp
                    /\ getTime (returnDate (bookingData st)) = Some tr
                    /\ tp < tr)
  /\ (currentStep st = 3 ->
      trim (fullName (bookingData st)) <> ""%string
      /\ trim (phoneNumber (bookingData st)) <> ""%string
      /\ trim (email (bookingData st)) <> ""%string
      /\ pickupLocation (bookingData st) <> ""%string)
  /\ (forall ev st', react st ev = Booking st' ->
                     Z.abs (currentStep st' - currentStep st) <= 1).
Proof.
  intros H0 Hrun.
  destruct (run_invariant events st0 st (initial_invariant _ _ _ _ H0) Hrun)
    as [Hinv Hcar].
  pose proof Hinv as (Hrange & _ & H2 & H3).
  split; [exact Hrange|]. split; [exact Hcar|]. split; [|split].
  - intros Hge. exact (proj2 (proj2 (canProceedToStep2_read _ (H2 Hge)))).
  - intros H3'. specialize (H3 H3'). unfold canProceedToStep3 in H3.
    repeat (apply andb_prop in H3; destruct H3 as [H3 ?]).
    repeat match goal with
           | H : negb (String.eqb ?a ?b) = true |- _ =>
               apply negb_true_iff in H; apply String.eqb_neq in H
           end.
    auto.
  - intros ev st' Hr. exact (proj2 (proj2 (react_invariant st ev st' Hinv Hr))).
Qed.

(** the day count of a return that is read later than the pickup: the
    ceiling of the difference in days *)
Lemma diffDays_later (tp tr : Z) :
  tp < tr ->
  1 <= Wizard.diffDays (Some tp) (Some tr)
  /\ (Wizard.diffDays (Some tp) (Some tr) - 1) * Js.msPerDay < tr - tp
     <= Wizard.diffDays (Some tp) (Some tr) * Js.msPerDay.
Proof.
  intros Hlt. unfold Wizard.diffDays, Wizard.ceil_div, Js.msPerDay. cbv zeta.
  rewrite Z.abs_eq by lia.
  change (1000 * 60 * 60 * 24) with 86400000.
  destruct (Z.eqb_spec (- (- (tr - tp) / 86400000)) 0) as [E|E];
    Z.div_mod_to_equations; lia.
Qed.

(** the request of a form whose dates are read in order *)
Lemma payload_of_dated_form (stored : option string) (f : Form) (c : Wizard.Car)
    (tp tr : Z) :
  car f = Some c ->
  pickupDate f <> ""%string -> returnDate f <> ""%string ->
  getTime (pickupDate f) = Some tp ->
  getTime (returnDate f) = Some tr ->
  payload stored f
  = Some {| Create.car_id := Some (Wizard.car_id c);
            Create.pickup_date := Some (pickupDate f);
            Create.return_date := Some (returnDate f);
            Create.full_name := Some (fullName f);
            Create.phone_number := Some (phoneNumber f);
            Create.email := Some (email f);
            Create.pickup_location := Some (pickupLocation f);
            Create.days := Some (Wizard.diffDays (Some tp) (Some tr));
            Create.daily_rate := Some (Wizard.daily_rate c);
            Create.total_amount :=
              Some (Wizard.diffDays (Some tp) (Some tr) * Wizard.daily_rate c);
            Create.sessionId := Create.or_none stored |}.
Proof.
  intros Hc Hpe Hre Hp Hr.
  unfold WizardFlow.payload, calculateBookingDetails.
  apply String.eqb_neq in Hpe, Hre.
  rewrite Hc, Hpe, Hre. cbn [orb]. rewrite Hp, Hr.
  cbn [Wizard.days Wizard.dailyRate Wizard.totalAmount]. reflexivity.
Qed.

(** what the wizard sends from step 3 *)
Lemma submit_at_step3 (rejection : option Db.DbError)
    (carId stored : option string) (d : Db.DB) (st0 st : State) (events : list Event) :
  trim "" = ""%string ->
  fetchCar rejection carId d = Booking st0 ->
  run (Booking st0) events = Booking st ->
  currentStep st = 3 ->
  exists n tp tr row,
    In row (Db.cars d) /\ Db.Car.status row = "active"%string
    /\ Some (Db.Car.car_id row) = carId
    /\ Db.Car.car_id row <> ""%string
    /\ getTime (pickupDate (bookingData st)) = Some tp
    /\ getTime (returnDate (bookingData st)) = Some tr
    /\ tp < tr
    /\ 1 <= n /\ (n - 1) * Js.msPerDay < tr - tp <= n * Js.msPerDay
    /\ Create.validated
         {| Create.car_id := Some (Db.Car.car_id row);
            Create.pickup_date := Some (pickupDate (bookingData st));
            Create.return_date := Some (returnDate (bookingData st));
            Create.full_name := Some (fullName (bookingData st));
            Create.phone_number := Some (phoneNumber (bookingData st));
            Create.email := Some (email (bookingData st));
            Create.pickup_location := Some (pickupLocation (bookingData st));
            Create.days := Some n;
            Create.daily_rate := Some (Db.Car.daily_rate row);
            Create.total_amount := Some (n * Db.Car.daily_rate row);
            Create.sessionId := Create.or_none stored |} = true
    /\ submit stored st
       = Some {| Create.car_id := Some (Db.Car.car_id row);
                 Create.pickup_date := Some (pickupDate (bookingData st));
                 Create.return_date := Some (returnDate (bookingData st));
                 Create.full_name := Some (fullName (bookingData st));
                 Create.phone_number := Some (phoneNumber (bookingData st));
                 Create.email := Some (email (bookingData st));
                 Create.pickup_location := Some (pickupLocation (bookingData st));
                 Create.days := Some n;
                 Create.daily_rate := Some (Db.Car.daily_rate row);
                 Create.total_amount := Some (n * Db.Car.daily_rate row);
                 Create.sessionId := Create.or_none stored |}.
Proof.
  intros Htrim H0 Hrun H3'.
  destruct (run_invariant events st0 st (initial_invariant _ _ _ _ H0) Hrun)
    as [Hinv Hcar].
  destruct Hinv as (Hrange & _ & H2 & H3). specialize (H3 H3').
  destruct (canProceedToStep2_read _ (H2 ltac:(lia)))
    as (Hpe & Hre & tp & tr & Hp & Hr & Hlt).
  destruct (fetchCar_opens _ _ _ _ H0) as (id & row & -> & Hne & Hin & Hid & Hact & ->).
  cbn [bookingData car] in Hcar.
  pose proof (payload_of_dated_form stored (bookingData st) _ tp tr Hcar Hpe Hre Hp Hr)
    as Hpay.
  cbn [Wizard.car_id Wizard.daily_rate] in Hpay.
  destruct (diffDays_later tp tr Hlt) as [Hn1 Hn].
  unfold canProceedToStep3 in H3.
  apply andb_prop in H3; destruct H3 as [H3 Hloc].
  apply andb_prop in H3; destruct H3 as [H3 Hmail].
  apply andb_prop in H3; destruct H3 as [Hname Hphone].
  apply negb_true_iff, String.eqb_neq in Hloc, Hname, Hphone.
  assert (Hname' : fullName (bookingData st) <> ""%string)
    by (intros E; apply Hname; rewrite E; exact Htrim).
  assert (Hphone' : phoneNumber (bookingData st) <> ""%string)
    by (intros E; apply Hphone; rewrite E; exact Htrim).
  exists (Wizard.diffDays (Some tp) (Some tr)), tp, tr, row. subst id.
  repeat (split; [assumption || reflexivity|]).
  split.
  - apply String.eqb_neq in Hne, Hloc, Hname', Hphone', Hpe, Hre.
    unfold Create.validated, Create.present.
    cbn [Create.car_id Create.pickup_date Create.return_date Create.full_name
           Create.phone_number Create.pickup_location].
    rewrite Hne, Hloc, Hname', Hphone', Hpe, Hre. reflexivity.
  - unfold WizardFlow.submit. destruct (Z.ltb_spec (currentStep st) 3); [lia|]. exact Hpay.
Qed.

(** X16.  The Proceed button exists at step 3 only, and what it sends is
    complete, whatever the browser reads as a date (from the year 0 on) or
    trims (an empty text trimmed being empty): the id of the car the wizard
    opened on, the two dates, which the browser reads with the return the
    later, the contact details, a day count of at least 1 that is the
    difference of the two dates in days, rounded up, the daily rate of the
    car and their product as the total. *)
Theorem wizard_submission_complete (rejection : option Db.DbError)
    (carId stored : option string) (d : Db.DB) (st0 st : State) (events : list Event) :
  dates_from_year_0 getTime ->
  trim "" = ""%string ->
  fetchCar rejection carId d = Booking st0 ->
  run (Booking st0) events = Booking st ->
  (currentStep st <> 3 -> submit stored st = None)
  /\ (currentStep st = 3 ->
      exists body n rate tp tr,
        submit stored st = Some body
        /\ Create.validated body = true
        /\ Create.car_id body = carId
        /\ getTime (Create.text (Create.pickup_date body)) = Some tp
        /\ getTime (Create.text (Create.return_date body)) = Some tr
        /\ tp < tr
        /\ Create.days body = Some n
        /\ 1 <= n /\ (n - 1) * Js.msPerDay < tr - tp <= n * Js.msPerDay
        /\ Create.daily_rate body = Some rate
        /\ (exists row, In row (Db.cars d) /\ Db.Car.status row = "active"%string
                        /\ Some (Db.Car.car_id row) = carId
                        /\ Db.Car.daily_rate row = rate)
        /\ Create.total_amount body = Some (n * rate)).
Proof.
  intros _ Htrim H0 Hrun.
  split.
  - intros Hne.
    destruct (run_invariant events st0 st (initial_invariant _ _ _ _ H0) Hrun)
      as [(Hrange & _) _].
    unfold WizardFlow.submit.
    destruct (Z.ltb_spec (currentStep st) 3); [reflexivity|lia].
  - intros H3.
    destruct (submit_at_step3 rejection carId stored d st0 st events Htrim H0 Hrun H3)
      as (n & tp & tr & row & Hin & Hact & Hid & _ & Hp & Hr & Hlt & Hn1 & Hn & Hv & Hs).
    eexists _, n, (Db.Car.daily_rate row), tp, tr.
    split; [exact Hs|]. split; [exact Hv|].
    cbn [Create.car_id Create.pickup_date Create.return_date Create.text Create.days
           Create.daily_rate Create.total_amount].
    repeat (split; [assumption || reflexivity|]).
    split; [|reflexivity].
    exists row. auto.
Qed.

(** X17.  A booking made through the wizard, whatever the browser reads as
    a date (from the year 0 on) or trims (an empty text trimmed being
    empty): the creation handler never answers it with 400, and when it
    accepts it (the cars being those the page loaded from) the booking row
    it stores is for the active car the wizard opened on, with the dates of
    the form, the difference of the two dates in days, rounded up, as day
    count, the daily rate of that car and days times rate as total and as
    deposit. *)
Theorem wizard_booking_priced (rejection : option Db.DbError)
    (carId stored : option string) (d d' : Db.DB) (st0 st : State) (events : list Event)
    (env : Create.Env) :
  dates_from_year_0 getTime ->
  trim "" = ""%string ->
  fetchCar rejection carId d = Booking st0 ->
  run (Booking st0) events = Booking st ->
  currentStep st = 3 ->
  Db.cars d' = Db.cars d ->
  exists body,
    submit stored st = Some body
    /\ Http.status (fst (Create.POST env (Some body) d')) <> 400
    /\ (Http.status (fst (Create.POST env (Some body) d')) = 200 ->
        exists row booking n tp tr,
          In row (Db.cars d) /\ Db.Car.status row = "active"%string
          /\ Some (Db.Car.car_id row) = carId
          /\ Db.bookings (Http.db (snd (Create.POST env (Some body) d')))
             = (Db.bookings d' ++ [booking])%list
          /\ Db.Booking.car_id booking = Db.Car.id row
          /\ Db.Booking.pickup_date booking = pickupDate (bookingData st)
          /\ Db.Booking.return_date booking = returnDate (bookingData st)
          /\ getTime (Db.Booking.pickup_date booking) = Some tp
          /\ getTime (Db.Booking.return_date booking) = Some tr
          /\ tp < tr
          /\ 1 <= n /\ (n - 1) * Js.msPerDay < tr - tp <= n * Js.msPerDay
          /\ Db.Booking.days booking = Some n
          /\ Db.Booking.daily_rate booking = Some (Db.Car.daily_rate row)
          /\ Db.Booking.total_amount booking = Some (n * Db.Car.daily_rate row)
          /\ Db.Booking.deposit_amount booking = Some (n * Db.Car.daily_rate row)).
Proof.
  intros _ Htrim H0 Hrun H3 Hcars.
  destruct (submit_at_step3 rejection carId stored d st0 st events Htrim H0 Hrun H3)
    as (n & tp & tr & row & Hin & Hact & Hid & Hne & Hp & Hr & Hlt & Hn1 & Hn & Hv & Hs).
  eexists. split; [exact Hs|].
  match goal with |- context [Create.POST env (Some ?b) d'] => set (body := b) in * end.
  split.
  - intros H400.
    destruct (Create.POST env (Some body) d') as [resp w] eqn:HP. cbn [fst] in H400.
    destruct (POST_cases _ _ _ _ _ Hv HP) as [[w1 [Hu _]]|[userId [w1 [x [Hu [Hb Hx]]]]]].
    + destruct (resolve_user_frame _ _ _ _ _ Hu) as (_ & _ & _ & _ & H500).
      rewrite (H500 resp eq_refl) in H400. discriminate H400.
    + destruct (book_cases _ _ _ _ _ _ Hb)
        as [(_ & -> & _)|[(c & _ & _ & -> & _)|(c & _ & _ & -> & _)]];
        subst resp; discriminate H400.
  - intros H200.
    destruct (Create.POST env (Some body) d') as [resp w] eqn:HP. cbn [fst snd] in *.
    destruct (POST_accepted _ _ _ _ _ HP H200)
      as (userId & w1 & c & _ & Hu & Hc & _ & Hrow).
    cbv zeta in Hrow. destruct Hrow as [_ Hrows].
    destruct (resolve_user_frame _ _ _ _ _ Hu) as (Hcs & _).
    cbn [Http.db Http.untouched] in Hcs.
    apply outcome_data in Hc. destruct Hc as [_ Hc].
    unfold Create.select_car in Hc. apply single_data in Hc.
    assert (Hrc : In row (filter (fun c0 => String.eqb (Db.Car.car_id c0)
                                              (Create.text (Create.car_id body)))
                            (Db.cars (Http.db w1)))).
    { apply filter_In. split; [rewrite Hcs, Hcars; exact Hin|].
      subst body. cbn [Create.car_id Create.text]. apply String.eqb_refl. }
    rewrite Hc in Hrc. destruct Hrc as [<-|[]].
    eexists c, _, n, tp, tr.
    split; [exact Hin|]. split; [exact Hact|]. split; [exact Hid|].
    split; [exact Hrows|].
    subst body.
    cbn [Create.booking_row Db.Booking.car_id Db.Booking.pickup_date
           Db.Booking.return_date Db.Booking.days Db.Booking.daily_rate
           Db.Booking.total_amount Db.Booking.deposit_amount Create.pickup_date
           Create.return_date Create.text Create.days Create.daily_rate
           Create.total_amount].
    repeat (split; [assumption || reflexivity|]). reflexivity.
Qed.

End WizardSteps.
Section DateFacts.
Import WizardFlow.

Transparent Js.toISOString.

Lemma civil_from_days_valid (z : Z) :
  let '(y, m, d) := Js.civil_from_days z in
  1 <= m <= 12 /\ 1 <= d <= Js.days_in_month y m.
Proof.
  unfold Js.civil_from_days. cbv zeta.
  set (era := (z + 719468) / 146097).
  set (doe := z + 719468 - era * 146097).
  assert (Hdoe : 0 <= doe <= 146096) by (subst doe era; Z.div_mod_to_equations; lia).
  set (yoe := (doe - doe / 1460 + doe / 36524 - doe / 146096) / 365).
  assert (Hyoe : 0 <= yoe <= 399) by (subst yoe; Z.div_mod_to_equations; lia).
  set (doy := doe - (365 * yoe + yoe / 4 - yoe / 100)).
  assert (Hdoy : 0 <= doy <= 365) by (subst doy yoe; Z.div_mod_to_equations; lia).
  assert (Hleap : doy = 365 -> Js.is_leap (yoe + era * 400 + 1) = true).
  { intros H365. unfold Js.is_leap.
    replace ((yoe + era * 400 + 1) mod 4) with ((yoe + 1) mod 4)
      by (Z.div_mod_to_equations; lia).
    replace ((yoe + era * 400 + 1) mod 100) with ((yoe + 1) mod 100)
      by (Z.div_mod_to_equations; lia).
    replace ((yoe + era * 400 + 1) mod 400) with ((yoe + 1) mod 400)
      by (Z.div_mod_to_equations; lia).
    destruct (Z.eqb_spec ((yoe + 1) mod 400) 0); [apply orb_true_r|].
    destruct (Z.eqb_spec ((yoe + 1) mod 4) 0);
      destruct (Z.eqb_spec ((yoe + 1) mod 100) 0); cbn; try reflexivity; exfalso;
      unfold doy, yoe in *; Z.div_mod_to_equations; lia. }
  remember ((5 * doy + 2) / 153) as mp eqn:Emp.
  assert (Hmp : 0 <= mp <= 11) by (subst mp; Z.div_mod_to_equations; lia).
  remember (doy - (153 * mp + 2) / 5 + 1) as d eqn:Ed.
  assert (Hd1 : 1 <= d) by (subst d mp; Z.div_mod_to_equations; lia).
  assert (Hd : (mp = 11 -> d <= 29 /\ (d = 29 -> doy = 365))
               /\ (mp = 1 \/ mp = 3 \/ mp = 6 \/ mp = 8 -> d <= 30)
               /\ d <= 31).
  { subst d mp. repeat split; intros; Z.div_mod_to_equations; lia. }
  destruct Hd as (Hfeb & H30 & H31).
  clear Emp Ed.
  assert (Hm : mp = 0 \/ mp = 1 \/ mp = 2 \/ mp = 3 \/ mp = 4 \/ mp = 5 \/ mp = 6
               \/ mp = 7 \/ mp = 8 \/ mp = 9 \/ mp = 10 \/ mp = 11) by lia.
  destruct (Z.ltb_spec mp 10);
    match goal with |- context [?a <=? 2] => destruct (Z.leb_spec a 2) end;
    try lia; unfold Js.days_in_month;
    repeat match goal with
           | |- context [?a =? ?b] => destruct (Z.eqb_spec a b); try lia
           end;
    cbn [orb]; (split; [lia|]); (split; [exact Hd1|]); try lia;
    try (apply H30; lia).
  assert (E11 : mp = 11) by lia.
  destruct (Hfeb E11) as [H29 H365].
  destruct (Js.is_leap _) eqn:HL; [exact H29|].
  destruct (Z.eq_dec d 29) as [E|E]; [|lia].
  specialize (Hleap (H365 E)). congruence.
Qed.

(** the years of four digits: 0000-01-01 through 9999-12-31 *)
Lemma civil_from_days_year (z : Z) :
  -719528 <= z <= 2932896 ->
  let '(y, m, d) := Js.civil_from_days z in 0 <= y <= 9999.
Proof.
  intros Hz. unfold Js.civil_from_days. cbv zeta.
  set (era := (z + 719468) / 146097).
  set (doe := z + 719468 - era * 146097).
  assert (Hdoe : 0 <= doe <= 146096) by (subst doe era; Z.div_mod_to_equations; lia).
  assert (Hera : -1 <= era <= 24) by (subst era; Z.div_mod_to_equations; lia).
  set (yoe := (doe - doe / 1460 + doe / 36524 - doe / 146096) / 365).
  assert (Hyoe : 0 <= yoe <= 399) by (subst yoe; Z.div_mod_to_equations; lia).
  set (doy := doe - (365 * yoe + yoe / 4 - yoe / 100)).
  assert (Hdoy : 0 <= doy <= 365) by (subst doy yoe; Z.div_mod_to_equations; lia).
  set (mp := (5 * doy + 2) / 153).
  assert (Hmp : 0 <= mp <= 11) by (subst mp; Z.div_mod_to_equations; lia).
  destruct (Z.ltb_spec mp 10);
    match goal with |- context [?a <=? 2] => destruct (Z.leb_spec a 2) end.
  all: try lia.
  all: unfold mp, doy, yoe, doe, era in *; Z.div_mod_to_equations; lia.
Qed.

Lemma digit_char_not_T (k : Z) :
  0 <= k < 10 -> Ascii.eqb (Js.digit_char k) "T"%char = false.
Proof.
  intros Hk.
  assert (Hc : k = 0 \/ k = 1 \/ k = 2 \/ k = 3 \/ k = 4 \/ k = 5 \/ k = 6 \/ k = 7
               \/ k = 8 \/ k = 9) by lia.
  repeat (destruct Hc as [->|Hc]; [reflexivity|]). subst k. reflexivity.
Qed.

(** the date part of the ISO text of a midnight reads back as that midnight *)
Lemma date_text_round_trip (day : Z) :
  -719528 <= day <= 2932896 ->
  Js.Date_parse (WizardFlow.before_T (Js.toISOString (day * Js.msPerDay)))
  = Some (day * Js.msPerDay).
Proof.
  intros Hday. unfold Js.toISOString. cbv zeta.
  assert (HD : 0 < Js.msPerDay) by reflexivity.
  rewrite Z.div_mul, Z.mod_mul by lia.
  pose proof (civil_from_days_valid day) as Hv.
  pose proof (civil_from_days_year day Hday) as Hy.
  pose proof (days_from_civil_from_days day) as Hback.
  destruct (Js.civil_from_days day) as [[y m] d].
  destruct Hv as [Hm Hd].
  assert (Hd31 : d <= 31).
  { unfold Js.days_in_month in Hd.
    destruct (m =? 2); [destruct (Js.is_leap y); lia|].
    destruct ((m =? 4) || (m =? 6) || (m =? 9) || (m =? 11)); lia. }
  destruct (Z.leb_spec 0 y); [|lia]. destruct (Z.leb_spec y 9999); [|lia].
  cbn [andb Js.pad Js.pad_digits append].
  set (y1 := y / 10 / 10 / 10 mod 10). set (y2 := y / 10 / 10 mod 10).
  set (y3 := y / 10 mod 10). set (y4 := y mod 10).
  set (m1 := m / 10 mod 10). set (m2 := m mod 10).
  set (d1 := d / 10 mod 10). set (d2 := d mod 10).
  assert (R : 0 <= y1 < 10 /\ 0 <= y2 < 10 /\ 0 <= y3 < 10 /\ 0 <= y4 < 10
              /\ 0 <= m1 < 10 /\ 0 <= m2 < 10 /\ 0 <= d1 < 10 /\ 0 <= d2 < 10).
  { subst y1 y2 y3 y4 m1 m2 d1 d2. repeat split; Z.div_mod_to_equations; lia. }
  destruct R as (Ry1 & Ry2 & Ry3 & Ry4 & Rm1 & Rm2 & Rd1 & Rd2).
  cbn [WizardFlow.before_T].
  rewrite !digit_char_not_T by assumption.
  cbn [WizardFlow.before_T Ascii.eqb Bool.eqb].
  unfold Js.Date_parse.
  cbn [String.length Nat.eqb negb Js.substr Js.drop Js.take String.eqb Ascii.eqb
         Bool.eqb andb Js.parse_digits].
  rewrite !digit_val_digit_char by assumption.
  replace (10 * (10 * (10 * (10 * 0 + y1) + y2) + y3) + y4) with y
    by (subst y1 y2 y3 y4; Z.div_mod_to_equations; lia).
  replace (10 * (10 * 0 + m1) + m2) with m
    by (subst m1 m2; Z.div_mod_to_equations; lia).
  replace (10 * (10 * 0 + d1) + d2) with d
    by (subst d1 d2; Z.div_mod_to_equations; lia).
  destruct (Z.leb_spec 1 m); [|lia]. destruct (Z.leb_spec m 12); [|lia].
  destruct (Z.leb_spec 1 d); [|lia].
  destruct (Z.leb_spec d (Js.days_in_month y m)); [|lia].
  cbn [andb]. rewrite Hback. reflexivity.
Qed.

Lemma parse_digits_bounds (s : string) :
  forall (a v : Z),
    0 <= a -> Js.parse_digits s a = Some v ->
    a * 10 ^ Z.of_nat (String.length s) <= v < (a + 1) * 10 ^ Z.of_nat (String.length s).
Proof.
  induction s as [|c r IH]; intros a v Ha H.
  - cbn in H. inversion H; subst. cbn. lia.
  - cbn [Js.parse_digits] in H.
    destruct (Js.digit_val c) as [k|] eqn:Hk; [|discriminate H].
    assert (Hr : 0 <= k < 10).
    { unfold Js.digit_val in Hk. destruct (Js.is_digit c) eqn:Hd; [|discriminate Hk].
      inversion Hk; subst k. unfold Js.is_digit in Hd.
      apply andb_prop in Hd. destruct Hd as [H1 H2].
      apply Nat.leb_le in H1, H2. lia. }
    apply IH in H; [|lia].
    cbn [String.length]. rewrite Nat2Z.inj_succ, Z.pow_succ_r by lia.
    assert (0 < 10 ^ Z.of_nat (String.length r)) by (apply Z.pow_pos_nonneg; lia).
    nia.
Qed.

Lemma parse_digits_take (n : nat) (s : string) (v : Z) :
  Js.parse_digits (Js.take n s) 0 = Some v -> 0 <= v < 10 ^ Z.of_nat n.
Proof.
  intros H. apply parse_digits_bounds in H; [|lia].
  assert (Hl : forall k u, (String.length (Js.take k u) <= k)%nat).
  { clear. induction k as [|k IH]; intros [|c r]; cbn; try lia.
    specialize (IH r). lia. }
  specialize (Hl n s).
  assert (10 ^ Z.of_nat (String.length (Js.take n s)) <= 10 ^ Z.of_nat n)
    by (apply Z.pow_le_mono_r; lia).
  lia.
Qed.

(** a date that is read lies in the years of four digits *)
Lemma Date_parse_range (s : string) (t : Z) :
  Js.Date_parse s = Some t ->
  exists day, t = day * Js.msPerDay /\ -719528 <= day <= 2932896.
Proof.
  unfold Js.Date_parse.
  destruct (negb (Nat.eqb (String.length s) 10)); [discriminate|].
  destruct (negb _); [discriminate|].
  destruct (Js.parse_digits (Js.substr 0 4 s) 0) as [y|] eqn:Hy; [|discriminate].
  destruct (Js.parse_digits (Js.substr 5 2 s) 0) as [m|]; [|discriminate].
  destruct (Js.parse_digits (Js.substr 8 2 s) 0) as [d|]; [|discriminate].
  destruct ((1 <=? m) && (m <=? 12) && (1 <=? d) && (d <=? Js.days_in_month y m))
    eqn:Hc; [|discriminate].
  intros H. inversion H; subst t; clear H. eexists; split; [reflexivity|].
  unfold Js.substr in Hy. apply parse_digits_take in Hy.
  change (10 ^ Z.of_nat 4) with 10000 in Hy.
  repeat (apply andb_prop in Hc; destruct Hc as [Hc ?]).
  repeat match goal with H : (_ <=? _) = true |- _ => apply Z.leb_le in H end.
  assert (Hd31 : d <= 31).
  { unfold Js.days_in_month in *.
    destruct (m =? 2); [destruct (Js.is_leap y); lia|].
    destruct ((m =? 4) || (m =? 6) || (m =? 9) || (m =? 11)); lia. }
  unfold Js.days_from_civil. cbv zeta.
  destruct (Z.leb_spec m 2); destruct (Z.gtb_spec m 2); try lia.
  all: Z.div_mod_to_equations; lia.
Qed.

(** X18.  Changing the pickup date in a browser whose next day is 24 hours
    away: a return date later than the new pickup date is kept; one that is
    not is replaced by the text of the day after the pickup date, so that the
    form passes the check of the first step; no return date stays none.
    Nothing else of the form changes. *)
Theorem onPickupChange_keeps_dates_in_order (next_local_day : Z -> Z)
    (selectedDate : string) (prev : Form) (p : Z) :
  Js.Date_parse selectedDate = Some p ->
  p < Js.days_from_civil 9999 12 31 * Js.msPerDay ->
  next_local_day p = p + Js.msPerDay ->
  let f := onPickupChange Js.Date_parse next_local_day selectedDate prev in
  pickupDate f = selectedDate
  /\ (car f, fullName f, phoneNumber f, email f, pickupLocation f)
     = (car prev, fullName prev, phoneNumber prev, email prev, pickupLocation prev)
  /\ (returnDate prev = ""%string -> returnDate f = ""%string)
  /\ (forall r, Js.Date_parse (returnDate prev) = Some r ->
        Wizard.canProceedToStep2 (dates_of f) = true
        /\ (p < r -> returnDate f = returnDate prev)
        /\ (r <= p -> Js.Date_parse (returnDate f) = Some (p + Js.msPerDay))).
Proof.
  intros Hp Hmax Hnext. cbv zeta.
  unfold onPickupChange. rewrite Hp, Hnext.
  cbn [pickupDate car fullName phoneNumber email pickupLocation returnDate].
  split; [reflexivity|]. split; [reflexivity|]. split.
  - intros ->. reflexivity.
  - intros r Hr. rewrite Hr, (Date_parse_nonempty _ _ Hr). cbn [negb andb].
    destruct (Date_parse_range _ _ Hp) as (day & -> & Hday).
    assert (HD : 0 < Js.msPerDay) by reflexivity.
    change (Js.days_from_civil 9999 12 31) with 2932896 in Hmax.
    assert (Hday' : -719528 <= day + 1 <= 2932896) by nia.
    pose proof (date_text_round_trip (day + 1) Hday') as Hrt.
    replace ((day + 1) * Js.msPerDay) with (day * Js.msPerDay + Js.msPerDay) in Hrt by ring.
    unfold Wizard.canProceedToStep2.
    cbn [dates_of Wizard.pickupDate Wizard.returnDate pickupDate returnDate].
    rewrite (Date_parse_nonempty _ _ Hp).
    destruct (Z.leb_spec r (day * Js.msPerDay)) as [Hle|Hgt].
    + rewrite Hrt, Hp.
      assert (E : String.eqb (before_T (Js.toISOString (day * Js.msPerDay + Js.msPerDay))) ""
                  = false) by exact (Date_parse_nonempty _ _ Hrt).
      rewrite E. cbn [negb andb].
      split; [apply Z.gtb_lt; lia|]. split; [lia|]. intros _. reflexivity.
    + rewrite Hr, Hp, (Date_parse_nonempty _ _ Hr). cbn [negb andb].
      split; [apply Z.gtb_lt; lia|]. split; [reflexivity|]. lia.
Qed.

End DateFacts.

(* ===================================================================== *)
(** ** The payment initialisation handler *)
(* ===================================================================== *)

Section InitializeFacts.
Import Http Initialize.

Lemma POST_initialize_invalid (env : Env) (b : Body) :
  negb (Create.present (email b)) || no_amount (amount b) = true ->
  POST env (Some b) = (required, []).
Proof. unfold POST. intros ->. reflexivity. Qed.

Lemma POST_initialize_valid (env : Env) (b : Body) :
  negb (Create.present (email b)) || no_amount (amount b) = false ->
  exists n,
    amount b = Some n /\ n <> 0
    /\ POST env (Some b)
       = match gateway env (call_of env b n) with
         | None => (internal_error, [call_of env b n])
         | Some response =>
             match reply_json response with
             | None => (internal_error, [call_of env b n])
             | Some data =>
                 if negb (ok response)
                 then (or_internal_error (refusal response data), [call_of env b n])
                 else (or_internal_error (authorization_of data), [call_of env b n])
             end
         end.
Proof.
  unfold POST. intros H. rewrite H.
  apply orb_false_elim in H. destruct H as [_ H].
  destruct (amount b) as [n|]; [|discriminate H].
  exists n. cbn in H. apply Z.eqb_neq in H. auto.
Qed.

Lemma json_checked_status (b : Js.JsVal) (st : Z) (r : Response) :
  json_checked b st = Some r ->
  status r = st /\ body r = b /\ 200 <= st <= 599.
Proof.
  unfold json_checked.
  destruct ((200 <=? st) && (st <=? 599) && negb (null_body_status st)) eqn:H;
    [|discriminate].
  intros E; inversion E; subst; clear E.
  apply andb_prop in H; destruct H as [H _].
  apply andb_prop in H; destruct H as [H1 H2].
  apply Z.leb_le in H1, H2. cbn. repeat split; lia.
Qed.

Lemma authorization_of_status (data : Js.JsVal) (r : Response) :
  authorization_of data = Some r -> status r = 200.
Proof.
  unfold authorization_of.
  destruct (Js.get data "data") as [inner|]; [|discriminate].
  destruct (Js.get inner "authorization_url"); [|discriminate].
  destruct (Js.get inner "access_code"); [|discriminate].
  destruct (Js.get inner "reference"); [|discriminate].
  intros E; inversion E; reflexivity.
Qed.

(** X19.  A request without an email or without an amount (or with amount
    0) is answered 400 and nothing is sent to the gateway.  Every other
    request reaches the gateway exactly once, with the secret key as bearer
    token, the email, the amount times 100, the currency GHS and the
    metadata as given. *)
Theorem POST_initialize_guards_gateway (env : Env) (b : Body) :
  (email b = None \/ email b = Some ""%string \/ amount b = None \/ amount b = Some 0 ->
   POST env (Some b)
   = (json (error_body "Email and amount are required") 400, []))
  /\ (forall e n,
        email b = Some e -> e <> ""%string -> amount b = Some n -> n <> 0 ->
        exists call,
          snd (POST env (Some b)) = [call]
          /\ url call = "https://api.paystack.co/transaction/initialize"%string
          /\ method call = "POST"%string
          /\ authorization call
             = ("Bearer " ++ match PAYSTACK_SECRET_KEY env with
                             | Some k => k
                             | None => ""
                             end)%string
          /\ Js.get (payload call) "email" = Some (Js.JStr e)
          /\ Js.get (payload call) "amount" = Some (Js.JNum (n * 100))
          /\ Js.get (payload call) "currency" = Some (Js.JStr "GHS")
          /\ Js.get (payload call) "metadata" = Some (metadata b)).
Proof.
  split.
  - intros H. apply POST_initialize_invalid.
    destruct H as [H|[H|[H|H]]]; rewrite H; cbn; try reflexivity; apply orb_true_r.
  - intros e n He Hne Hn Hn0.
    assert (Hv : negb (Create.present (email b)) || no_amount (amount b) = false).
    { rewrite He, Hn. cbn. apply String.eqb_neq in Hne. rewrite Hne.
      apply Z.eqb_neq in Hn0. rewrite Hn0. reflexivity. }
    destruct (POST_initialize_valid env b Hv) as (n' & Hn' & _ & HP).
    rewrite Hn in Hn'. inversion Hn'; subst n'. clear Hn'.
    exists (call_of env b n). split.
    { rewrite HP. destruct (gateway env (call_of env b n)) as [r|]; [|reflexivity].
      destruct (reply_json r); [|reflexivity].
      destruct (negb (ok r)); reflexivity. }
    unfold call_of. cbn [url method authorization payload].
    split; [reflexivity|]. split; [reflexivity|]. split.
    { unfold Create.or_else, Create.present.
      destruct (PAYSTACK_SECRET_KEY env) as [k|]; [|reflexivity].
      destruct (String.eqb_spec k ""); [subst k|]; reflexivity. }
    rewrite He. unfold Js.object, pesewas.
    destruct (metadata b); cbn; repeat split; reflexivity.
Qed.

(** X20.  The handler answers 200 only when the gateway was reached and
    answered with a status from 200 to 299 and a JSON body whose [data] is
    neither missing nor null; the response then carries the authorization
    URL, the access code and the reference of that body and nothing else.
    Whatever the gateway answers, the status of the handler's response is
    one from 200 to 599. *)
Theorem POST_initialize_success (env : Env) (request : option Body) :
  200 <= status (fst (POST env request)) <= 599
  /\ (status (fst (POST env request)) = 200 ->
      exists b n response data inner,
        request = Some b /\ amount b = Some n
        /\ gateway env (call_of env b n) = Some response
        /\ 200 <= reply_status response <= 299
        /\ reply_json response = Some data
        /\ Js.get data "data" = Some inner
        /\ inner <> Js.JNull /\ inner <> Js.JUndefined
        /\ body (fst (POST env request))
           = Js.object [("authorization_url", Js.get_opt inner "authorization_url");
                        ("access_code", Js.get_opt inner "access_code");
                        ("reference", Js.get_opt inner "reference")]).
Proof.
  destruct request as [b|]; [|split; [cbn; lia | cbn; discriminate]].
  destruct (negb (Create.present (email b)) || no_amount (amount b)) eqn:Hv.
  { rewrite (POST_initialize_invalid env b Hv). split; [cbn; lia | cbn; discriminate]. }
  destruct (POST_initialize_valid env b Hv) as (n & Hn & _ & HP).
  rewrite HP. clear HP.
  destruct (gateway env (call_of env b n)) as [r|] eqn:Hg;
    [|split; [cbn; lia | cbn; discriminate]].
  destruct (reply_json r) as [data|] eqn:Hj; [|split; [cbn; lia | cbn; discriminate]].
  destruct (ok r) eqn:Hok; cbn [negb fst].
  - destruct (authorization_of data) as [resp|] eqn:Ha; cbn [or_internal_error];
      [|split; [cbn; lia | cbn; discriminate]].
    split; [rewrite (authorization_of_status _ _ Ha); lia|].
    intros _. unfold authorization_of in Ha.
    destruct (Js.get data "data") as [inner|] eqn:Hi; [|discriminate Ha].
    exists b, n, r, data, inner.
    unfold ok in Hok. apply andb_prop in Hok. destruct Hok as [H1 H2].
    apply Z.leb_le in H1, H2.
    repeat (split; [reflexivity || assumption || lia|]).
    unfold Js.get_opt.
    destruct (Js.get inner "authorization_url") eqn:E1; [|discriminate Ha].
    destruct (Js.get inner "access_code") eqn:E2; [|discriminate Ha].
    destruct (Js.get inner "reference") eqn:E3; [|discriminate Ha].
    inversion Ha; subst resp.
    split; [intros ->; discriminate E1|].
    split; [intros ->; discriminate E1|]. reflexivity.
  - unfold refusal.
    destruct (Js.get data "message") as [message|];
      [|split; [cbn; lia | cbn; discriminate]].
    destruct (json_checked _ (reply_status r)) as [resp|] eqn:Hc; cbn [or_internal_error];
      [|split; [cbn; lia | cbn; discriminate]].
    destruct (json_checked_status _ _ _ Hc) as (Hs & _ & Hr).
    split; [lia|].
    intros H200. exfalso. rewrite Hs in H200.
    unfold ok in Hok. rewrite H200 in Hok. discriminate Hok.
Qed.

(** X21.  A refusal of the gateway is handed on: when the gateway answers
    with a status from 300 to 599 other than 304 and a JSON body that is not
    null, the handler answers with that status and the message of the body,
    or with the text Failed to initialize payment when the body has no
    message (or an empty one).  When [fetch] rejects or the gateway's body is not JSON the
    handler answers 500. *)
Theorem POST_initialize_refusal (env : Env) (b : Body) (e : string) (n : Z) :
  email b = Some e -> e <> ""%string -> amount b = Some n -> n <> 0 ->
  (forall response data message,
     gateway env (call_of env b n) = Some response ->
     reply_json response = Some data ->
     Js.get data "message" = Some message ->
     300 <= reply_status response <= 599 ->
     reply_status response <> 304 ->
     status (fst (POST env (Some b))) = reply_status response
     /\ body (fst (POST env (Some b)))
        = Js.JObj [("error",
                    if Js.truthy message then message
                    else Js.JStr "Failed to initialize payment")])
  /\ (gateway env (call_of env b n) = None
      \/ (exists response, gateway env (call_of env b n) = Some response
                           /\ reply_json response = None) ->
      fst (POST env (Some b)) = json (error_body "Internal server error") 500).
Proof.
  intros He Hne Hn Hn0.
  assert (Hv : negb (Create.present (email b)) || no_amount (amount b) = false).
  { rewrite He, Hn. cbn. apply String.eqb_neq in Hne. rewrite Hne.
    apply Z.eqb_neq in Hn0. rewrite Hn0. reflexivity. }
  destruct (POST_initialize_valid env b Hv) as (n' & Hn' & _ & HP).
  rewrite Hn in Hn'. inversion Hn'; subst n'. clear Hn'.
  rewrite HP. clear HP. split.
  - intros r data message Hg Hj Hm Hs H304. rewrite Hg, Hj.
    assert (Hok : ok r = false).
    { unfold ok. destruct (Z.leb_spec (reply_status r) 299); [lia|]. apply andb_false_r. }
    rewrite Hok. cbn [negb fst]. unfold refusal. rewrite Hm.
    unfold json_checked.
    assert (Hc : (200 <=? reply_status r) && (reply_status r <=? 599)
                 && negb (null_body_status (reply_status r)) = true).
    { unfold null_body_status.
      destruct (Z.leb_spec 200 (reply_status r)); [|lia].
      destruct (Z.leb_spec (reply_status r) 599); [|lia].
      repeat match goal with
             | |- context [reply_status r =? ?k] =>
                 destruct (Z.eqb_spec (reply_status r) k); [lia|]
             end.
      reflexivity. }
    rewrite Hc. cbn [or_internal_error json status body]. split; reflexivity.
  - intros [Hg|(r & Hg & Hj)]; rewrite Hg; [reflexivity|]. rewrite Hj. reflexivity.
Qed.

End InitializeFacts.

(* ===================================================================== *)
(** ** The price preview of the wizard at its edges *)
(* ===================================================================== *)

Section PriceFacts.
Import Wizard.

Lemma ceil_div_nonneg (a b : Z) : 0 <= a -> 0 < b -> 0 <= ceil_div a b.
Proof.
  intros Ha Hb. unfold ceil_div.
  assert (- a / b <= 0) by (apply Z.div_le_upper_bound; lia).
  lia.
Qed.

Lemma diffDays_positive (p r : option Z) : 1 <= diffDays p r.
Proof.
  unfold diffDays. destruct p as [p|], r as [r|]; try lia.
  cbv zeta.
  pose proof (ceil_div_nonneg (Z.abs (r - p)) (1000 * 60 * 60 * 24)
                (Z.abs_nonneg _) eq_refl) as H.
  destruct (Z.eqb_spec (ceil_div (Z.abs (r - p)) (1000 * 60 * 60 * 24)) 0); lia.
Qed.

Lemma diffDays_sym (p r : option Z) : diffDays p r = diffDays r p.
Proof.
  unfold diffDays. destruct p as [p|], r as [r|]; try reflexivity.
  replace (p - r) with (- (r - p)) by ring. rewrite Z.abs_opp. reflexivity.
Qed.

(** X22.  The price preview, whatever the browser reads as a date: it is
    missing exactly when a date or the car is missing.  Otherwise it counts
    at least one day: one day for equal dates and for a date that the
    browser does not read, the same number of days when the two dates are
    swapped; the total is always days times the daily rate of the car. *)
Theorem calculateBookingDetails_edges (getTime : string -> option Z)
    (f : WizardFlow.Form) :
  (WizardFlow.calculateBookingDetails getTime f = None
   <-> WizardFlow.pickupDate f = ""%string \/ WizardFlow.returnDate f = ""%string
       \/ WizardFlow.car f = None)
  /\ (forall det,
        WizardFlow.calculateBookingDetails getTime f = Some det ->
        1 <= days det
        /\ (exists c, WizardFlow.car f = Some c /\ dailyRate det = daily_rate c)
        /\ totalAmount det = days det * dailyRate det
        /\ (WizardFlow.pickupDate f = WizardFlow.returnDate f -> days det = 1)
        /\ (getTime (WizardFlow.pickupDate f) = None
            \/ getTime (WizardFlow.returnDate f) = None ->
            days det = 1)
        /\ WizardFlow.calculateBookingDetails getTime
             {| WizardFlow.car := WizardFlow.car f;
                WizardFlow.pickupDate := WizardFlow.returnDate f;
                WizardFlow.returnDate := WizardFlow.pickupDate f;
                WizardFlow.fullName := WizardFlow.fullName f;
                WizardFlow.phoneNumber := WizardFlow.phoneNumber f;
                WizardFlow.email := WizardFlow.email f;
                WizardFlow.pickupLocation := WizardFlow.pickupLocation f |}
           = Some det).
Proof.
  unfold WizardFlow.calculateBookingDetails.
  cbn [WizardFlow.car WizardFlow.pickupDate WizardFlow.returnDate].
  destruct (String.eqb_spec (WizardFlow.pickupDate f) "") as [Hp|Hp].
  { split; [split; auto | intros det H; discriminate H]. }
  destruct (String.eqb_spec (WizardFlow.returnDate f) "") as [Hr|Hr].
  { split; [split; auto | intros det H; discriminate H]. }
  cbn [orb]. destruct (WizardFlow.car f) as [c|].
  2:{ split; [split; auto | intros det H; discriminate H]. }
  split.
  - split; [discriminate|]. intros [H|[H|H]]; [contradiction | contradiction | discriminate].
  - intros det H. inversion H; subst det; clear H. cbn [days dailyRate totalAmount].
    split; [apply diffDays_positive|].
    split; [exists c; split; reflexivity|].
    split; [reflexivity|].
    split.
    + intros E. rewrite E. unfold diffDays.
      destruct (getTime (WizardFlow.returnDate f)) as [t|]; [|reflexivity].
      rewrite Z.sub_diag. reflexivity.
    + split.
      * intros [E|E]; rewrite E; unfold diffDays; [reflexivity|].
        destruct (getTime (WizardFlow.pickupDate f)); reflexivity.
      * rewrite (diffDays_sym (getTime (WizardFlow.returnDate f))). reflexivity.
Qed.

(** with the reading of ISO dates, the preview of the wizard is the one the
    price claim is stated on *)
Lemma calculateBookingDetails_ISO (f : WizardFlow.Form) :
  WizardFlow.calculateBookingDetails Js.Date_parse f
  = calculateBookingDetails (WizardFlow.dates_of f).
Proof. reflexivity. Qed.

Lemma canProceedToStep2_ISO (f : WizardFlow.Form) :
  WizardFlow.canProceedToStep2 Js.Date_parse f = canProceedToStep2 (WizardFlow.dates_of f).
Proof. reflexivity. Qed.

End PriceFacts.
(* ===================================================================== *)
(** ** The creation handler and the webhook together *)
(* ===================================================================== *)

Section HandlersTogether.
Import Http Reconcile.

Variable hmac_sha512_hex : string -> string -> string.
Variable JSON_parse : string -> option Js.JsVal.
Variable PAYSTACK_SECRET_KEY : string.

Local Abbreviation webhook := (Webhook.POST hmac_sha512_hex JSON_parse PAYSTACK_SECRET_KEY).

Opaque Create.make_orderId Create.make_paymentReference Js.toISOString.



End HandlersTogether.
(* ===================================================================== *)
(** ** The properties on the sample data *)
(* ===================================================================== *)

Section ScenarioExamples.
Import Http Scenarios.

Local Abbreviation webhook :=
  (Webhook.POST WebhookSamples.digest WebhookSamples.parse WebhookSamples.secret
     WebhookSamples.env0).

Local Abbreviation delivery := (WebhookSamples.signed WebhookSamples.body_charge).


Lemma POST_found_payment_marks_paid_witness :
  (forall p, In p (Db.payments (db (snd (webhook delivery db_pending)))) ->
             Db.Payment.payment_reference p = "PAY-404"%string ->
             Db.Payment.status p = "success"%string
             /\ Db.Payment.paid_at p = Some "2024-01-03T12:00:00.123Z"%string)
  /\ In other_payment (Db.payments (db (snd (webhook delivery db_pending))))
  /\ (forall b, In b (Db.bookings (db (snd (webhook delivery db_pending)))) ->
                Db.Booking.order_id b = "ORD-20240103-7K3Z0B"%string ->
                Db.Booking.status b = "paid"%string
                /\ Db.Booking.payment_status b = "paid"%string)
  /\ In other_booking (Db.bookings (db (snd (webhook delivery db_pending)))).
Proof.
  destruct (POST_found_payment_marks_paid
              WebhookSamples.digest WebhookSamples.parse WebhookSamples.secret
              WebhookSamples.env0 delivery
              db_pending WebhookSamples.event_charge charge_data (Js.JStr "PAY-404")
              charge_metadata (Js.JStr "wa-233550001111") pending_payment
              (signed_genuine WebhookSamples.body_charge)
              ltac:(vm_compute; reflexivity) eq_refl eq_refl eq_refl eq_refl eq_refl
              eq_refl eq_refl eq_refl) as (H1 & H2 & H3 & H4).
  split; [exact H1|]. split.
  - apply H2; [right; left; reflexivity | discriminate].
  - split; [exact H3|]. apply H4; [right; left; reflexivity | discriminate].
Defined.


Lemma sessionId_of_precedence_witness :
  Webhook.sessionId_of charge_metadata = Some (Js.JStr "wa-233550001111")
  /\ Webhook.sessionId_of metadata_custom_fields = Some (Js.JStr "wa-233550001111").
Proof.
  split.
  - apply (proj1 (sessionId_of_precedence charge_metadata)). reflexivity.
  - apply (proj2 (sessionId_of_precedence metadata_custom_fields)
             [Js.JObj [("variable_name", Js.JStr "carId"); ("value", Js.JStr "CAR-001")]]
             [("variable_name", Js.JStr "sessionId");
              ("value", Js.JStr "wa-233550001111")]
             []).
    + reflexivity.
    + reflexivity.
    + constructor; [|constructor].
      exists (Js.JStr "carId"). split; [reflexivity | discriminate].
    + reflexivity.
Defined.

Lemma POST_create_statuses_witness :
  fst (Create.POST Samples.env0 (Some Samples.request_unknown_car_no_location)
         Samples.db0)
  = {| status := 400; body := Js.JObj [("error", Js.JStr "Missing required fields")] |}
  /\ status (fst (Create.POST Samples.env0 (Some Samples.request0) Samples.db0)) <> 400.
Proof.
  split.
  - apply (proj1 (proj2 (POST_create_statuses Samples.env0
                           (Some Samples.request_unknown_car_no_location) Samples.db0)
                    Samples.request_unknown_car_no_location eq_refl)).
    exists None. split; [|left; reflexivity].
    cbn. auto 10.
  - apply (proj2 (proj2 (POST_create_statuses Samples.env0 (Some Samples.request0)
                           Samples.db0)
                    Samples.request0 eq_refl)).
    intros f [<-|[<-|[<-|[<-|[<-|[<-|[]]]]]]]; eexists; (split; [reflexivity|discriminate]).
Defined.

Lemma POST_failure_stores_no_booking_witness :
  status (fst (Create.POST Samples.env0 (Some Samples.request_unknown_car) Samples.db0))
  = 404
  /\ Db.bookings (db (snd (Create.POST Samples.env0 (Some Samples.request_unknown_car)
                             Samples.db0))) = []
  /\ Db.payments (db (snd (Create.POST Samples.env0 (Some Samples.request_unknown_car)
                             Samples.db0))) = []
  /\ Db.sessions (db (snd (Create.POST Samples.env0 (Some Samples.request_unknown_car)
                             Samples.db0))) = [Samples.chat]
  /\ Db.cars (db (snd (Create.POST Samples.env0 (Some Samples.request_unknown_car)
                         Samples.db0))) = [Samples.sedan; Samples.retired_van].
Proof.
  split; [vm_compute; reflexivity|].
  apply (POST_failure_stores_no_booking Samples.env0 (Some Samples.request_unknown_car)
           Samples.db0).
  vm_compute. discriminate.
Defined.

Lemma POST_creates_unknown_user_witness :
  exists row,
    Db.users (db (snd (Create.POST Samples.env0 (Some Samples.request_unknown_car)
                         Samples.db0)))
    = [Samples.ama; Samples.kofi; row]
    /\ Db.User.phone row = "0550001111"%string
    /\ Db.User.name row = "Esi Owusu"%string
    /\ status (fst (Create.POST Samples.env0 (Some Samples.request_unknown_car)
                      Samples.db0)) = 404.
Proof.
  destruct (POST_creates_unknown_user Samples.env0 Samples.request_unknown_car Samples.db0
              eq_refl eq_refl eq_refl eq_refl)
    as (row & Hu & _ & Hp & Hn & _ & _ & H404).
  exists row. split; [exact Hu|].
  split; [inversion Hp; reflexivity|].
  split; [inversion Hn; reflexivity|].
  rewrite (H404 eq_refl). reflexivity.
Defined.

Lemma POST_known_session_user_witness :
  (exists w1,
     Create.resolve_user Samples.env0 request_ama_known_chat (untouched Samples.db0)
     = (inl 1, w1)
     /\ issued w1 = [Create.SelectUserByWhatsapp; Create.UpdateUserContact])
  /\ map Db.User.id
       (Db.users (db (snd (Create.POST Samples.env0 (Some request_ama_known_chat)
                             Samples.db0)))) = [1; 2]
  /\ map Db.User.whatsapp_id
       (Db.users (db (snd (Create.POST Samples.env0 (Some request_ama_known_chat)
                             Samples.db0))))
     = ["wa-233241234567"; "wa-233209876543"]%string.
Proof.
  destruct (POST_known_session_user Samples.env0 request_ama_known_chat Samples.db0
              Samples.ama eq_refl eq_refl)
    as (w1 & Hu & Hlog & _ & Hids & Hwa & _).
  split; [exists w1; split; assumption|].
  split; assumption.
Defined.

Lemma POST_user_insert_rejected_witness :
  Create.POST (Samples.reject Create.InsertUser duplicate_error Samples.env0)
    (Some Samples.request0) Samples.db0
  = ({| status := 500;
        body := Js.JObj [("error",
                          Js.JStr "Failed to create user: duplicate key value violates unique constraint")] |},
     {| db := Samples.db0;
        issued := [Create.SelectUserByWhatsapp; Create.SelectUserByPhone;
                   Create.InsertUser; Create.SelectUserAgain] |}).
Proof.
  destruct (POST_user_insert_rejected
              (Samples.reject Create.InsertUser duplicate_error Samples.env0)
              Samples.request0 Samples.db0 duplicate_error
              eq_refl eq_refl eq_refl eq_refl) as (_ & H & _).
  exact (H eq_refl eq_refl).
Defined.

Lemma POST_accepted_rows_agree_witness :
  exists booking payment,
    Db.bookings (db (snd (Create.POST Samples.env0 (Some Samples.request0) Samples.db0)))
    = [booking]
    /\ Db.payments (db (snd (Create.POST Samples.env0 (Some Samples.request0)
                               Samples.db0)))
       = [payment]
    /\ Db.Booking.deposit_amount booking = Db.Booking.total_amount booking
    /\ Db.Booking.balance_amount booking = 0
    /\ Db.Payment.amount payment = Db.Booking.total_amount booking
    /\ Db.Payment.order_id payment = Db.Booking.order_id booking.
Proof.
  destruct (POST_accepted_rows_agree Samples.env0 Samples.request0 Samples.db0
              ltac:(vm_compute; reflexivity))
    as (booking & Hb & _ & Hd & Hbal & _ & _ & _ & Hpay).
  destruct (Hpay eq_refl) as (payment & Hp & Ho & _ & _ & Ha & _).
  exists booking, payment. repeat split; assumption.
Defined.

Lemma POST_accepted_session_patch_witness :
  In Create.UpdateSession
    (issued (snd (Create.POST Samples.env0 (Some Samples.request0) Samples.db0)))
  /\ map Db.Session.whatsapp_id
       (Db.sessions (db (snd (Create.POST Samples.env0 (Some Samples.request0)
                                Samples.db0))))
     = ["wa-233550001111"%string].
Proof.
  destruct (POST_accepted_session_patch Samples.env0 Samples.request0 Samples.db0
              ltac:(vm_compute; reflexivity)) as [_ H].
  destruct (H "wa-233550001111"%string eq_refl ltac:(discriminate)) as (Hin & Hids & _).
  split; assumption.
Defined.

Lemma fetchCar_only_active_car_witness :
  WizardFlow.fetchCar None (Some "CAR-002"%string) Samples.db0 = WizardFlow.Home
  /\ WizardFlow.fetchCar None (Some "CAR-001"%string) Samples.db0
     = WizardFlow.Booking opened.
Proof.
  split; [|reflexivity].
  apply (proj2 (fetchCar_only_active_car None (Some "CAR-002"%string) Samples.db0)).
  right; right; right.
  intros row [<-|[<-|[]]]; [discriminate | intros _; discriminate].
Defined.

Lemma wizard_steps_guarded_witness :
  exists tp tr,
    Js.Date_parse (WizardFlow.pickupDate (WizardFlow.bookingData filled)) = Some tp
    /\ Js.Date_parse (WizardFlow.returnDate (WizardFlow.bookingData filled)) = Some tr
    /\ tp < tr.
Proof.
  destruct (wizard_steps_guarded Js.Date_parse trim_ascii next_day None (Some "CAR-001"%string) Samples.db0
              opened filled visit eq_refl eq_refl) as (_ & _ & H & _).
  apply H. cbn. lia.
Defined.

Lemma Date_parse_from_year_0 : WizardFlow.dates_from_year_0 Js.Date_parse.
Proof.
  intros s t H. destruct (Date_parse_range s t H) as (day & -> & Hd).
  unfold Js.msPerDay. lia.
Qed.

Lemma wizard_submission_complete_witness :
  exists body n rate,
    WizardFlow.submit Js.Date_parse (Some "wa-233550001111"%string) filled = Some body
    /\ Create.validated body = true
    /\ Create.days body = Some n
    /\ Create.daily_rate body = Some rate
    /\ Create.total_amount body = Some (n * rate).
Proof.
  destruct (wizard_submission_complete Js.Date_parse trim_ascii next_day None
              (Some "CAR-001"%string) (Some "wa-233550001111"%string) Samples.db0
              opened filled visit Date_parse_from_year_0 eq_refl eq_refl eq_refl)
    as [_ H].
  destruct (H eq_refl)
    as (body & n & rate & tp & tr & Hs & Hv & _ & _ & _ & _ & Hd & _ & _ & Hr & _ & Ht).
  exists body, n, rate. repeat split; assumption.
Defined.

Lemma wizard_booking_priced_witness :
  exists body,
    WizardFlow.submit Js.Date_parse (Some "wa-233550001111"%string) filled = Some body
    /\ status (fst (Create.POST Samples.env0 (Some body) Samples.db0)) <> 400.
Proof.
  destruct (wizard_booking_priced Js.Date_parse trim_ascii next_day None
              (Some "CAR-001"%string) (Some "wa-233550001111"%string) Samples.db0
              Samples.db0 opened filled visit Samples.env0
              Date_parse_from_year_0 eq_refl eq_refl eq_refl eq_refl eq_refl)
    as (body & Hs & H400 & _).
  exists body. split; assumption.
Defined.

Lemma onPickupChange_keeps_dates_in_order_witness :
  Wizard.canProceedToStep2
    (WizardFlow.dates_of (WizardFlow.onPickupChange Js.Date_parse next_day "2024-01-05" form_early_return))
  = true
  /\ Js.Date_parse
       (WizardFlow.returnDate
          (WizardFlow.onPickupChange Js.Date_parse next_day "2024-01-05" form_early_return))
     = Some (1704412800000 + Js.msPerDay).
Proof.
  destruct (onPickupChange_keeps_dates_in_order next_day "2024-01-05" form_early_return
              1704412800000 eq_refl eq_refl eq_refl) as (_ & _ & _ & H).
  destruct (H 1704240000000 eq_refl) as (Hc & _ & Hr).
  split; [exact Hc|]. apply Hr. lia.
Defined.

Lemma POST_initialize_guards_gateway_witness :
  exists call,
    snd (Initialize.POST accepting (Some payment_request)) = [call]
    /\ Initialize.authorization call = "Bearer sk_test_1"%string
    /\ Js.get (Initialize.payload call) "amount" = Some (Js.JNum (400 * 100)).
Proof.
  destruct (proj2 (POST_initialize_guards_gateway accepting payment_request)
              "esi@example.com"%string 400 eq_refl ltac:(discriminate) eq_refl
              ltac:(discriminate))
    as (call & Hc & _ & _ & Ha & _ & Hn & _).
  exists call. repeat split; assumption.
Defined.

Lemma POST_initialize_success_witness :
  exists inner,
    inner <> Js.JNull
    /\ body (fst (Initialize.POST accepting (Some payment_request)))
       = Js.object [("authorization_url", Js.get_opt inner "authorization_url");
                    ("access_code", Js.get_opt inner "access_code");
                    ("reference", Js.get_opt inner "reference")].
Proof.
  destruct (proj2 (POST_initialize_success accepting (Some payment_request)) eq_refl)
    as (b & n & response & data & inner & _ & _ & _ & _ & _ & _ & Hn & _ & Hb).
  exists inner. split; assumption.
Defined.

Lemma POST_initialize_refusal_witness :
  status (fst (Initialize.POST refusing (Some payment_request))) = 401
  /\ body (fst (Initialize.POST refusing (Some payment_request)))
     = Js.JObj [("error", Js.JStr "Invalid key")].
Proof.
  exact (proj1 (POST_initialize_refusal refusing payment_request
                  "esi@example.com"%string 400 eq_refl ltac:(discriminate) eq_refl
                  ltac:(discriminate))
           {| Initialize.reply_status := 401;
              Initialize.reply_json :=
                Some (Js.JObj [("status", Js.JBool false);
                               ("message", Js.JStr "Invalid key")]) |}
           (Js.JObj [("status", Js.JBool false); ("message", Js.JStr "Invalid key")])
           (Js.JStr "Invalid key")
           eq_refl eq_refl eq_refl ltac:(cbn; lia) ltac:(cbn; discriminate)).
Defined.

Lemma calculateBookingDetails_edges_witness :
  WizardFlow.calculateBookingDetails Js.Date_parse dates_reversed
  = Some {| Wizard.days := 2; Wizard.dailyRate := 200; Wizard.totalAmount := 400 |}.
Proof.
  apply (proj2 (calculateBookingDetails_edges Js.Date_parse dates_in_order)).
  reflexivity.
Defined.


End ScenarioExamples.
